(** * SimpleHFDownloader: the URL planner and the download orchestrator

    A shallow embedding of [src/main.py]:

    - [parse_huggingface_model_url] (the "URL planner"), together with the
      parts of the Python standard library it calls ([urllib.parse.urlparse],
      [os.path.basename], [os.path.splitext], [re.match] on the one regular
      expression of the program, [int], [str], [str.zfill]);
    - [download_in_thread] (the "download orchestrator"), as a function on an
      explicit application state, driven by a script of what the external
      process and the user do;
    - [download_in_thread] once more, with [os.makedirs] and
      [subprocess.Popen] able to raise, which ends the worker thread;
    - [manage_app_config], as a function on the part of the file system it
      looks at;
    - the handlers of [DownloaderApp], as functions on the state of the
      window.

    Conventions of the model.

    - A Python [str] is a [string]; a character is a code point below 256.
      In that range [\d] accepts exactly ['0'..'9'], [str.isdigit] accepts
      these and the superscripts one, two and three, and the letters
      accepted by [isascii() and isalpha()] are the ASCII letters.
    - [os.path] is [posixpath].  On paths without a backslash and without a
      leading double slash [ntpath] computes the same base name and
      extension.
    - Python integers that index strings are [Z], so that the [-1] of
      [str.find]/[str.rfind] is the value the code computes with.
    - The worker runs against a script of its environment: for each task,
      what the external process prints and returns, and when the user
      presses STOP relative to the three places where the worker reads the
      stop event.  The script is finite (the process exits or is
      stopped); time is not modelled beyond the timeout passed to [wait].
      In the first model of the worker [os.makedirs] and [subprocess.Popen]
      succeed; the second lets them raise. *)

From Stdlib Require Import String Ascii List ZArith Lia Bool Arith.
From Stdlib Require Import Decimal DecimalNat DecimalString.
From Stdlib Require DecimalPos.
Import ListNotations.

Local Open Scope string_scope.
Local Open Scope Z_scope.

(** ** Python string primitives *)

Module PyStr.

(** [c in s] *)
Fixpoint contains (c : ascii) (s : string) : bool :=
  match s with
  | EmptyString => false
  | String a r => Ascii.eqb a c || contains c r
  end.

(** [s.find(c)]: index of the first [c], [-1] when there is none. *)
Fixpoint find (c : ascii) (s : string) : Z :=
  match s with
  | EmptyString => -1
  | String a r =>
      if Ascii.eqb a c then 0
      else let i := find c r in if 0 <=? i then i + 1 else -1
  end.

(** [s.rfind(c)]: index of the last [c], [-1] when there is none. *)
Fixpoint rfind (c : ascii) (s : string) : Z :=
  match s with
  | EmptyString => -1
  | String a r =>
      let i := rfind c r in
      if 0 <=? i then i + 1 else if Ascii.eqb a c then 0 else -1
  end.

(** [s[:n]] and [s[n:]] for a count [n] of characters. *)
Fixpoint take (n : nat) (s : string) : string :=
  match n, s with
  | S k, String a r => String a (take k r)
  | _, _ => EmptyString
  end.

Fixpoint drop (n : nat) (s : string) : string :=
  match n, s with
  | S k, String _ r => drop k r
  | _, _ => s
  end.

(** [s[:i]], [s[i:]] and [s[i:j]] for indices [0 <= i <= j]. *)
Definition upto (i : Z) (s : string) : string := take (Z.to_nat i) s.
Definition from (i : Z) (s : string) : string := drop (Z.to_nat i) s.
Definition slice (i j : Z) (s : string) : string := upto (j - i) (from i s).

(** [s.find(c, start)] for [start >= 0]. *)
Definition find_from (c : ascii) (start : Z) (s : string) : Z :=
  let i := find c (from start s) in
  if 0 <=? i then start + i else -1.

Fixpoint forallb (p : ascii -> bool) (s : string) : bool :=
  match s with
  | EmptyString => true
  | String a r => p a && forallb p r
  end.

Fixpoint filter (p : ascii -> bool) (s : string) : string :=
  match s with
  | EmptyString => EmptyString
  | String a r => if p a then String a (filter p r) else filter p r
  end.

Fixpoint map (f : ascii -> ascii) (s : string) : string :=
  match s with
  | EmptyString => EmptyString
  | String a r => String (f a) (map f r)
  end.

(** [s.lstrip(chars)] and [s.rstrip(chars)], [chars] given as a predicate. *)
Fixpoint lstrip (p : ascii -> bool) (s : string) : string :=
  match s with
  | EmptyString => EmptyString
  | String a r => if p a then lstrip p r else s
  end.

Fixpoint rstrip (p : ascii -> bool) (s : string) : string :=
  match s with
  | EmptyString => EmptyString
  | String a r =>
      match rstrip p r with
      | EmptyString => if p a then EmptyString else String a EmptyString
      | r' => String a r'
      end
  end.

Definition strip (p : ascii -> bool) (s : string) : string :=
  rstrip p (lstrip p s).

(** [s.split(c)]: the pieces between the occurrences of [c]; never empty,
    [''.split(c) == ['']]. *)
Fixpoint split (c : ascii) (s : string) : list string :=
  match s with
  | EmptyString => [EmptyString]
  | String a r =>
      if Ascii.eqb a c then EmptyString :: split c r
      else match split c r with
           | h :: t => String a h :: t
           | [] => [String a EmptyString]
           end
  end.

Definition code (c : ascii) : nat := nat_of_ascii c.

Definition in_range (lo hi : nat) (c : ascii) : bool :=
  (Nat.leb lo (code c) && Nat.leb (code c) hi)%bool.

Definition is_digit (c : ascii) : bool := in_range 48 57 c.
Definition is_upper (c : ascii) : bool := in_range 65 90 c.
Definition is_lower (c : ascii) : bool := in_range 97 122 c.
(** [c.isascii() and c.isalpha()] *)
Definition is_ascii_alpha (c : ascii) : bool := is_upper c || is_lower c.
Definition is_ascii (c : ascii) : bool := Nat.leb (code c) 127.
(** The characters removed by [str.strip()] without argument, below 256. *)
Definition is_space (c : ascii) : bool :=
  in_range 9 13 c || in_range 28 32 c
  || Nat.eqb (code c) 133 || Nat.eqb (code c) 160.

Definition lower_char (c : ascii) : ascii :=
  if is_upper c then ascii_of_nat (code c + 32) else c.
(** [s.lower()], on ASCII letters. *)
Definition lower (s : string) : string := map lower_char s.

(** [int(s)] on a non-empty string of decimal digits, the only strings the
    program passes to it (the five digits of a [\d{5}] group); on other
    strings Python raises [ValueError]. *)
Fixpoint int_acc (acc : nat) (s : string) : nat :=
  match s with
  | EmptyString => acc
  | String c r => int_acc (10 * acc + (code c - 48)) r
  end.

Definition int (s : string) : nat := int_acc 0 s.

(** [str(n)] for a non-negative integer. *)
Definition str (n : nat) : string := NilEmpty.string_of_uint (Nat.to_uint n).

Fixpoint zeros (n : nat) : string :=
  match n with
  | O => EmptyString
  | S k => String "0" (zeros k)
  end.

Definition is_sign (c : ascii) : bool :=
  Ascii.eqb c "+" || Ascii.eqb c "-".

(** [s.zfill(width)]: zeros on the left up to [width], after a leading sign. *)
Definition zfill (width : nat) (s : string) : string :=
  if Nat.leb width (String.length s) then s
  else
    let pad := zeros (width - String.length s) in
    match s with
    | String c r => if is_sign c then String c (pad ++ r) else pad ++ s
    | EmptyString => pad
    end.

(** [f"{n:05d}"] for a non-negative integer. *)
Definition format_05d (n : nat) : string := zfill 5 (str n).

End PyStr.

(** ** [urllib.parse.urlparse] *)

Module Urllib.
Import PyStr.

(** Two checks of [urlsplit] depend on tables that are outside this
    development: the IP-literal validation of a bracketed host
    ([_check_bracketed_netloc]) and the NFKC normalisation applied to a
    non-ASCII host ([_checknetloc]).  They are taken as an interface; [true]
    means that the check passes, [false] that it raises [ValueError]. *)
Class NetlocChecks : Type := {
  check_bracketed_netloc : string -> bool;
  check_nfkc_netloc : string -> bool
}.

Record ParseResult : Type := {
  scheme : string;
  netloc : string;
  path : string;
  params : string;
  query : string;
  fragment : string
}.

(** [_WHATWG_C0_CONTROL_OR_SPACE] *)
Definition c0_control_or_space (c : ascii) : bool := Nat.leb (code c) 32.

(** [_UNSAFE_URL_BYTES_TO_REMOVE = ['\t', '\r', '\n']] *)
Definition unsafe_url_byte (c : ascii) : bool :=
  Nat.eqb (code c) 9 || Nat.eqb (code c) 13 || Nat.eqb (code c) 10.

(** [scheme_chars]: letters, digits and ["+-."]. *)
Definition scheme_char (c : ascii) : bool :=
  is_lower c || is_upper c || is_digit c
  || Ascii.eqb c "+" || Ascii.eqb c "-" || Ascii.eqb c ".".

Definition uses_params : list string :=
  [""; "ftp"; "hdl"; "prospero"; "http"; "imap"; "https"; "shttp"; "rtsp";
   "rtspu"; "sip"; "sips"; "mms"; "sftp"; "tel"].

Definition first_is (p : ascii -> bool) (s : string) : bool :=
  match s with
  | String a _ => p a
  | EmptyString => false
  end.

(** [_splitnetloc(url, start)] *)
Definition _splitnetloc (url : string) (start : Z) : string * string :=
  let delim :=
    fold_left
      (fun delim c =>
         let wdelim := find_from c start url in
         if 0 <=? wdelim then Z.min delim wdelim else delim)
      ["/"%char; "?"%char; "#"%char]
      (Z.of_nat (String.length url)) in
  (slice start delim url, from delim url).

(** [url.split(c, 1)] when [c in url]. *)
Definition split_once (c : ascii) (url : string) : string * string :=
  let i := find c url in (upto i url, from (i + 1) url).

(** [_checknetloc(netloc)] *)
Definition _checknetloc `{NetlocChecks} (netloc : string) : bool :=
  if String.eqb netloc "" || forallb is_ascii netloc then true
  else check_nfkc_netloc netloc.

(** [urlsplit(url)]; [None] stands for a raised [ValueError].  The result
    is the tuple (scheme, netloc, url, query, fragment). *)
Definition urlsplit `{NetlocChecks} (url : string)
  : option (string * string * string * string * string) :=
  let url := lstrip c0_control_or_space url in
  let url := filter (fun c => negb (unsafe_url_byte c)) url in
  let i := find ":" url in
  let '(scheme, url) :=
    if (0 <? i) && first_is is_ascii_alpha url
       && forallb scheme_char (upto i url)
    then (lower (upto i url), from (i + 1) url)
    else ("", url) in
  let '(netloc, url) :=
    if String.eqb (upto 2 url) "//" then _splitnetloc url 2 else ("", url) in
  if xorb (contains "[" netloc) (contains "]" netloc) then None
  else if contains "[" netloc && contains "]" netloc
          && negb (check_bracketed_netloc netloc) then None
  else
    let '(url, fragment) :=
      if contains "#" url then split_once "#" url else (url, "") in
    let '(url, query) :=
      if contains "?" url then split_once "?" url else (url, "") in
    if _checknetloc netloc then Some (scheme, netloc, url, query, fragment)
    else None.

(** [_splitparams(url)] *)
Definition _splitparams (url : string) : string * string :=
  if contains "/" url then
    let i := find_from ";" (rfind "/" url) url in
    if i <? 0 then (url, "") else (upto i url, from (i + 1) url)
  else
    let i := find ";" url in (upto i url, from (i + 1) url).

(** [urlparse(url)]; [None] stands for a raised [ValueError]. *)
Definition urlparse `{NetlocChecks} (url : string) : option ParseResult :=
  match urlsplit url with
  | None => None
  | Some (scheme, netloc, url, query, fragment) =>
      let '(url, params) :=
        if existsb (String.eqb scheme) uses_params && contains ";" url
        then _splitparams url else (url, "") in
      Some {| scheme := scheme; netloc := netloc; path := url;
              params := params; query := query; fragment := fragment |}
  end.

End Urllib.

(** ** [os.path] (POSIX flavour) *)

Module OsPath.
Import PyStr.

(** [posixpath.basename(p)] *)
Definition basename (p : string) : string :=
  let i := rfind "/" p + 1 in from i p.

(** [genericpath._splitext(p, '/', None, '.')]: the extension starts at the
    last dot of the last component, unless only dots precede it there. *)
Definition splitext (p : string) : string * string :=
  let sepIndex := rfind "/" p in
  let dotIndex := rfind "." p in
  if (sepIndex <? dotIndex)
     && negb (forallb (fun c => Ascii.eqb c ".") (slice (sepIndex + 1) dotIndex p))
  then (upto dotIndex p, from dotIndex p)
  else (p, "").

(** [p.startswith('/')] and [p.endswith('/')] *)
Definition starts_with_slash (s : string) : bool :=
  match s with
  | String a _ => Ascii.eqb a "/"
  | EmptyString => false
  end.

Fixpoint ends_with_slash (s : string) : bool :=
  match s with
  | EmptyString => false
  | String a EmptyString => Ascii.eqb a "/"
  | String _ r => ends_with_slash r
  end.

(** [posixpath.join(a, *p)] *)
Definition join (a : string) (p : list string) : string :=
  fold_left
    (fun path b =>
       if starts_with_slash b then b
       else if String.eqb path "" || ends_with_slash path then path ++ b
       else path ++ "/" ++ b)
    p a.

End OsPath.

(** ** The regular expression of the planner *)

Module Re.
Import PyStr.

Definition is_lf (c : ascii) : bool := Nat.eqb (code c) 10.

(** Without [re.MULTILINE], [$] matches at the end of the string and also
    just before a line feed that ends the string: [chomp] removes that one
    line feed. *)
Fixpoint chomp (s : string) : string :=
  match s with
  | EmptyString => EmptyString
  | String a EmptyString => if is_lf a then EmptyString else s
  | String a r => String a (chomp r)
  end.

(** [re.match(r"^(?P<base>.+)-(?P<part>\d{5})-of-(?P<total>\d{5})$", s)],
    returning the groups (base, part, total).  The text after [base] has the
    fixed length 15, so the split point is forced: the greedy [.+] (one or
    more characters other than a line feed) takes everything before the last
    15 characters. *)
Definition match_parts (s : string) : option (string * string * string) :=
  let body := chomp s in
  let n := String.length body in
  let base := take (n - 15) body in
  let tail := drop (n - 15) body in
  if (Nat.ltb 15 n
      && forallb (fun c => negb (is_lf c)) base
      && String.eqb (slice 0 1 tail) "-"
      && forallb is_digit (slice 1 6 tail)
      && String.eqb (slice 6 10 tail) "-of-"
      && forallb is_digit (slice 10 15 tail))%bool
  then Some (base, slice 1 6 tail, slice 10 15 tail)
  else None.

End Re.

(** ** The URL planner: [parse_huggingface_model_url] *)

Module Planner.
Import PyStr Urllib OsPath.

(** One entry of the list the planner returns (a dict with these keys). *)
Record ModelInfo : Type := {
  DownloadUrl : string;
  Author : string;
  ModelRepo : string;
  ModelName : string;
  Extension : string
}.

Definition is_slash (c : ascii) : bool := Ascii.eqb c "/".

(** [parsed_uri.path.strip('/').split('/')] *)
Definition path_segments (p : string) : list string :=
  split "/" (strip is_slash p).

(** [url[:url.rfind('/')] if '/' in url else url] *)
Definition base_url_of (url : string) : string :=
  if contains "/" url then upto (rfind "/" url) url else url.

(** The body of the [try] block: the parsed URL, or [None] when [urlparse]
    or the check of scheme and netloc raises [ValueError]. *)
Definition parse_checked `{NetlocChecks} (url : string) : option ParseResult :=
  match urlparse url with
  | None => None
  | Some parsed_uri =>
      if String.eqb (scheme parsed_uri) "" || String.eqb (netloc parsed_uri) ""
      then None
      else Some parsed_uri
  end.

(** The part [new_model_name] of the loop body, for the index [i]. *)
Definition part_name (base_name : string) (total_parts i : nat) : string :=
  base_name ++ "-" ++ zfill 5 (str i) ++ "-of-" ++ format_05d total_parts.

(** [parse_huggingface_model_url(url)]: the lines printed on the console and
    the value returned ([None] for Python's [None]). *)
Definition parse_huggingface_model_url `{NetlocChecks} (url : string)
  : list string * option (list ModelInfo) :=
  match parse_checked url with
  | None => (["Invalid URL."], None)
  | Some parsed_uri =>
      let segments := path_segments (path parsed_uri) in
      if Nat.ltb (List.length segments) 2
      then (["URL structure is invalid."], None)
      else
        let author := nth 0 segments "" in
        let model_repo := nth 1 segments "" in
        let file_path := path parsed_uri in
        let filename_with_extension := basename file_path in
        let '(filename_without_extension, extension) :=
          splitext filename_with_extension in
        let base_url := base_url_of url in
        match Re.match_parts filename_without_extension with
        | Some (base_name, _, total) =>
            let total_parts := int total in
            ([],
             Some
               (List.map
                  (fun i =>
                     let new_model_name := part_name base_name total_parts i in
                     {| DownloadUrl :=
                          base_url ++ "/" ++ new_model_name ++ extension;
                        Author := author;
                        ModelRepo := model_repo;
                        ModelName := new_model_name;
                        Extension := extension |})
                  (seq 1 total_parts)))
        | None =>
            ([],
             Some
               [ {| DownloadUrl := url;
                    Author := author;
                    ModelRepo := model_repo;
                    ModelName := filename_without_extension;
                    Extension := extension |} ])
        end
  end.

(** What the caller gets: [plan url] is the returned value. *)
Definition plan `{NetlocChecks} (url : string) : option (list ModelInfo) :=
  snd (parse_huggingface_model_url url).

(** The tasks of a plan, none when there is no plan. *)
Definition models_of_plan (r : option (list ModelInfo)) : list ModelInfo :=
  match r with
  | Some l => l
  | None => []
  end.

Definition printed `{NetlocChecks} (url : string) : list string :=
  fst (parse_huggingface_model_url url).

(** An instance of the two library checks that accepts every host; the
    examples below have neither brackets nor non-ASCII characters in the
    host, so that no check is consulted on them. *)
Definition lenient : NetlocChecks :=
  {| check_bracketed_netloc := fun _ => true;
     check_nfkc_netloc := fun _ => true |}.

(** What [urlparse] returns for [https://host<file_path>] when [file_path]
    has none of [;?#]. *)
Definition example_parse (file_path : string) : ParseResult :=
  {| scheme := "https"; netloc := "host"; path := file_path;
     params := ""; query := ""; fragment := "" |}.

End Planner.

(** ** The download orchestrator: [download_in_thread] *)

Module Orchestrator.
Import PyStr.
Export Planner.

(** *** What the worker can observe and do *)

(** The messages [download_in_thread] puts on [log_queue], by origin; the
    queue holds their texts, [render]. *)
Inductive LogMsg : Type :=
| MsgToolMissing
| MsgNoModelInfo
| MsgNoDirectory
| MsgCancelled (name : string)
| MsgRunning (name : string)
| MsgOutput (line : string)
| MsgStopSignal
| MsgKilling
| MsgFinished (name : string)
| MsgError (name : string) (error_output : string)
| MsgEnd.

Definition render (m : LogMsg) : string :=
  match m with
  | MsgToolMissing => "aria2c.exe not found in the configuration directory."
  | MsgNoModelInfo => "No model information to download."
  | MsgNoDirectory => "Destination directory has not been set."
  | MsgCancelled name =>
      "Download cancelled for: " ++ name ++ " (and subsequent downloads)"
  | MsgRunning name => "Running aria2c for: " ++ name
  | MsgOutput line => line
  | MsgStopSignal => "Stop signal received. Terminating process gracefully..."
  | MsgKilling => "Process did not exit in time; killing it now..."
  | MsgFinished name => "Download finished for: " ++ name
  | MsgError name error_output =>
      "aria2c error during download " ++ name ++ ": " ++ error_output
  | MsgEnd => "Download finished or cancelled."
  end.

(** A process handle: the [Popen] object of the task at that position of
    the plan. *)
Definition Handle : Type := nat.
Bind Scope nat_scope with Handle.

(** The calls that reach outside the program. *)
Inductive Action : Type :=
| Makedirs (output_path : string)
| Popen (h : Handle) (args : list string)
| Terminate (h : Handle)
| Wait (h : Handle) (timeout_seconds : nat)
| Kill (h : Handle).

(** The fields of [DownloaderApp] the worker reads or writes. *)
Record App : Type := {
  downloading : bool;
  aria2c_process : option Handle;
  stop_event : bool
}.

Record World : Type := {
  app : App;
  log_queue : list LogMsg;
  actions : list Action
}.

(** The installation: where [aria2c.exe] is expected and whether
    [os.path.exists] finds it. *)
Record Install : Type := {
  aria2c_path : string;
  aria2c_exists : bool
}.

(** One iteration of the [while process.poll() is None] loop: the line
    [readline()] returns (empty at end of file) and whether STOP was pressed
    since the worker last looked at [stop_event]. *)
Record Poll : Type := {
  readline : string;
  stop_pressed : bool
}.

(** What happens around one task: the iterations during which the process
    is found running (after them it has exited by itself, with [returncode]
    and [stderr_text]), the moments at which STOP is pressed relative to the
    three places where the worker looks at [stop_event] (before the check
    that opens the loop body, before the check inside each iteration of the
    poll loop, before the check that follows the poll loop), and whether
    [process.wait(timeout=5)] times out when it is called.  STOP pressed
    during the sleep that ends an iteration is seen by the next iteration
    when the process is still running then, and by the check after the loop
    when it has exited meanwhile. *)
Record TaskScript : Type := {
  stop_before_start : bool;
  polls : list Poll;
  wait_times_out : bool;
  returncode : Z;
  stderr_text : string;
  stop_after_loop : bool
}.

(** *** A state monad over [World] *)

Definition M (A : Type) : Type := World -> A * World.

Definition ret {A} (a : A) : M A := fun w => (a, w).
Definition bind {A B} (m : M A) (k : A -> M B) : M B :=
  fun w => let '(a, w') := m w in k a w'.

Notation "x <- m ;; k" := (bind m (fun x => k))
  (at level 61, m at next level, right associativity).
Notation "m ;; k" := (bind m (fun _ => k))
  (at level 61, right associativity).

Definition with_app (f : App -> App) : M unit :=
  fun w => (tt, {| app := f (app w); log_queue := log_queue w;
                   actions := actions w |}).

(** [log_queue.put(m)] *)
Definition put (m : LogMsg) : M unit :=
  fun w => (tt, {| app := app w; log_queue := log_queue w ++ [m];
                   actions := actions w |}).

Definition act (a : Action) : M unit :=
  fun w => (tt, {| app := app w; log_queue := log_queue w;
                   actions := actions w ++ [a] |}).

(** [on_stop_click] on the other thread: [stop_event.set()]. *)
Definition user (pressed : bool) : M unit :=
  with_app (fun a => {| downloading := downloading a;
                        aria2c_process := aria2c_process a;
                        stop_event := stop_event a || pressed |}).

(** [stop_event.is_set()], after whatever the user did since the last look. *)
Definition is_set (pressed : bool) : M bool :=
  user pressed ;; fun w => (stop_event (app w), w).

(** [stop_event.clear()] *)
Definition clear : M unit :=
  with_app (fun a => {| downloading := downloading a;
                        aria2c_process := aria2c_process a;
                        stop_event := false |}).

(** [DownloaderApp.set_process] *)
Definition set_process (p : option Handle) : M unit :=
  with_app (fun a => {| downloading := downloading a;
                        aria2c_process := p;
                        stop_event := stop_event a |}).

(** [DownloaderApp.set_downloading_state], as far as the flag goes. *)
Definition set_downloading_state (is_downloading : bool) : M unit :=
  with_app (fun a => {| downloading := is_downloading;
                        aria2c_process := aria2c_process a;
                        stop_event := stop_event a |}).

(** *** The worker *)

(** [str(sessions)] *)
Definition str_int (n : Z) : string := NilEmpty.string_of_int (Z.to_int n).

(** The argument list built for one model. *)
Definition aria2c_args (inst : Install) (sessions : Z)
    (download_directory : string) (model : ModelInfo) : list string :=
  let output_path :=
    OsPath.join download_directory [Author model; ModelRepo model] in
  let output_file := ModelName model ++ Extension model in
  [ aria2c_path inst;
    "-x"; str_int sessions;
    "-s"; str_int sessions;
    DownloadUrl model;
    "--file-allocation=trunc";
    "-d"; output_path;
    "-o"; output_file ].

(** The statements run on a stop seen inside the poll loop. *)
Definition stop_process (process : Handle) (times_out : bool) : M unit :=
  put MsgStopSignal ;;
  act (Terminate process) ;;
  act (Wait process 5) ;;
  if times_out then put MsgKilling ;; act (Kill process) else ret tt.

(** [while process.poll() is None: ...]; the list is exhausted when
    [poll()] returns the exit code, and a stop seen in the loop leaves it
    early ([break]).  The sleep of 0.1 s between iterations is not
    recorded. *)
Fixpoint poll_loop (process : Handle) (times_out : bool) (ps : list Poll)
  : M unit :=
  match ps with
  | [] => ret tt
  | p :: rest =>
      (if String.eqb (readline p) "" then ret tt
       else put (MsgOutput (strip is_space (readline p)))) ;;
      stop <- is_set (stop_pressed p) ;;
      if stop then stop_process process times_out
      else poll_loop process times_out rest
  end.

(** The body of [for model in model_info_array]; the result says whether
    the loop goes on to the next model ([true]) or is left by [break]. *)
Definition download_one (inst : Install) (sessions : Z)
    (download_directory : string) (process : Handle) (model : ModelInfo)
    (sc : TaskScript) : M bool :=
  stop <- is_set (stop_before_start sc) ;;
  if stop then put (MsgCancelled (ModelName model)) ;; ret false
  else
    let output_path :=
      OsPath.join download_directory [Author model; ModelRepo model] in
    act (Makedirs output_path) ;;
    put (MsgRunning (ModelName model)) ;;
    act (Popen process (aria2c_args inst sessions download_directory model)) ;;
    set_process (Some process) ;;
    poll_loop process (wait_times_out sc) (polls sc) ;;
    stop <- is_set (stop_after_loop sc) ;;
    if stop then clear ;; ret false
    else
      (if returncode sc =? 0 then put (MsgFinished (ModelName model))
       else put (MsgError (ModelName model)
                          (strip is_space (stderr_text sc)))) ;;
      set_process None ;;
      ret true.

Fixpoint for_models (inst : Install) (sessions : Z)
    (download_directory : string) (script : nat -> TaskScript)
    (index : nat) (models : list ModelInfo) : M unit :=
  match models with
  | [] => ret tt
  | model :: rest =>
      continue <- download_one inst sessions download_directory index model
                    (script index) ;;
      if continue
      then for_models inst sessions download_directory script (S index) rest
      else ret tt
  end.

(** [not model_info_array]: the argument is [None] after a failed parse. *)
Definition no_models (model_info_array : option (list ModelInfo)) : bool :=
  match model_info_array with
  | None | Some [] => true
  | Some (_ :: _) => false
  end.

(** [download_in_thread(model_info_array, download_directory, log_queue,
    sessions, downloader_app_instance)].  The operating-system calls
    ([os.makedirs], [subprocess.Popen]) are taken to succeed. *)
Definition download_in_thread (inst : Install)
    (model_info_array : option (list ModelInfo))
    (download_directory : string) (sessions : Z)
    (script : nat -> TaskScript) : M unit :=
  if negb (aria2c_exists inst) then
    put MsgToolMissing ;; set_downloading_state false
  else if no_models model_info_array then
    put MsgNoModelInfo ;; set_downloading_state false
  else if String.eqb download_directory "" then
    put MsgNoDirectory ;; set_downloading_state false
  else
    for_models inst sessions download_directory script 0
      (models_of_plan model_info_array) ;;
    put MsgEnd ;;
    set_downloading_state false.

(** The state in which [on_start_click] starts the worker: the downloading
    flag set, the stop event cleared, nothing logged or done yet. *)
Definition started_from (a : App) : World :=
  {| app := {| downloading := true;
               aria2c_process := aria2c_process a;
               stop_event := false |};
     log_queue := [];
     actions := [] |}.

Definition idle : App :=
  {| downloading := false; aria2c_process := None; stop_event := false |}.

(** The world after a run. *)
Definition run (inst : Install) (model_info_array : option (list ModelInfo))
    (download_directory : string) (sessions : Z)
    (script : nat -> TaskScript) (w : World) : World :=
  snd (download_in_thread inst model_info_array download_directory sessions
         script w).

(** The handles for which a process was spawned, in order. *)
Definition spawned (l : list Action) : list Handle :=
  flat_map (fun a => match a with Popen h _ => [h] | _ => [] end) l.

(** The actions on one handle other than its creation, in order. *)
Definition signals_to (h : Handle) (l : list Action) : list Action :=
  List.filter
    (fun a =>
       match a with
       | Terminate h' | Wait h' _ | Kill h' => Nat.eqb h h'
       | _ => false
       end) l.


(** An iteration of the poll loop before which STOP is not pressed. *)
Definition no_stop (p : Poll) : Prop := stop_pressed p = false.

(** A task during which STOP is never pressed. *)
Definition undisturbed (sc : TaskScript) : Prop :=
  stop_before_start sc = false
  /\ Forall no_stop (polls sc)
  /\ stop_after_loop sc = false.

(** The lines forwarded from the standard output of the process. *)
Definition forwarded (ps : list Poll) : list LogMsg :=
  flat_map
    (fun p =>
       if String.eqb (readline p) "" then []
       else [MsgOutput (strip is_space (readline p))]) ps.

(** The message that closes a task that ran to its end. *)
Definition outcome (model : ModelInfo) (sc : TaskScript) : LogMsg :=
  if returncode sc =? 0 then MsgFinished (ModelName model)
  else MsgError (ModelName model) (strip is_space (stderr_text sc)).

(** The messages of one task that ran to its end without a stop. *)
Definition task_log (model : ModelInfo) (sc : TaskScript) : list LogMsg :=
  MsgRunning (ModelName model) :: forwarded (polls sc) ++ [outcome model sc].

(** What a stretch of the plan logs and does when STOP is not pressed
    during it: every model is downloaded in turn, the first by the process
    [index]. *)
Fixpoint stretch_log (script : nat -> TaskScript) (index : nat)
    (models : list ModelInfo) : list LogMsg :=
  match models with
  | [] => []
  | model :: rest =>
      task_log model (script index) ++ stretch_log script (S index) rest
  end.

Definition start_actions (inst : Install) (sessions : Z)
    (download_directory : string) (index : nat) (model : ModelInfo)
  : list Action :=
  [ Makedirs (OsPath.join download_directory
                [Author model; ModelRepo model]);
    Popen index (aria2c_args inst sessions download_directory model) ].

Fixpoint stretch_actions (inst : Install) (sessions : Z)
    (download_directory : string) (index : nat) (models : list ModelInfo)
  : list Action :=
  match models with
  | [] => []
  | model :: rest =>
      start_actions inst sessions download_directory index model
      ++ stretch_actions inst sessions download_directory (S index) rest
  end.

(** The process handle after such a stretch. *)
Definition process_after (models : list ModelInfo) (before : option Handle)
  : option Handle :=
  match models with
  | [] => before
  | _ :: _ => None
  end.

(** The calls made to stop the process [h]. *)
Definition stop_actions (h : Handle) (times_out : bool) : list Action :=
  [Terminate h; Wait h 5] ++ (if times_out then [Kill h] else []).

Definition stop_log (times_out : bool) : list LogMsg :=
  MsgStopSignal :: (if times_out then [MsgKilling] else []).

(** *** A small scenario *)

Definition example_install : Install :=
  {| aria2c_path := "/home/me/HFModelDownloader/aria2c.exe";
     aria2c_exists := true |}.

Definition example_model (i : nat) : ModelInfo :=
  let name := "file-0000" ++ str i ++ "-of-00003" in
  {| DownloadUrl := "https://host/alice/modelX/" ++ name ++ ".bin";
     Author := "alice";
     ModelRepo := "modelX";
     ModelName := name;
     Extension := ".bin" |}.

(** The plan of [https://host/alice/modelX/file-00001-of-00003.bin]. *)
Definition example_plan : list ModelInfo :=
  [example_model 1; example_model 2; example_model 3].

Definition line (s : string) : string := s ++ String "010"%char "".

(** A download that prints one line and succeeds. *)
Definition calm : TaskScript :=
  {| stop_before_start := false;
     polls := [ {| readline := line "[#1 100%]"; stop_pressed := false |} ];
     wait_times_out := false;
     returncode := 0;
     stderr_text := "";
     stop_after_loop := false |}.


(** STOP pressed during the second iteration of the poll loop; the process
    does not exit within the five seconds. *)
Definition stop_in_loop : TaskScript :=
  {| stop_before_start := false;
     polls := [ {| readline := line "[#1 3%]"; stop_pressed := false |};
                {| readline := line "[#1 7%]"; stop_pressed := true |};
                {| readline := line "[#1 9%]"; stop_pressed := false |} ];
     wait_times_out := true;
     returncode := 0;
     stderr_text := "";
     stop_after_loop := false |}.

(** STOP pressed just before the task is looked at. *)
Definition stop_at_start : TaskScript :=
  {| stop_before_start := true;
     polls := [];
     wait_times_out := false;
     returncode := 0;
     stderr_text := "";
     stop_after_loop := false |}.

(** The first task is calm, the second follows [second], the others are
    calm. *)
Definition second_task (second : TaskScript) (index : nat) : TaskScript :=
  match index with
  | 1%nat => second
  | _ => calm
  end.

End Orchestrator.

(** ** The notions the statements below are written with *)

Module Spec.
Import PyStr.

Definition digit_char (d : nat) : ascii := ascii_of_nat (48 + d).

(** A number below 100000 written with five decimal digits, leading zeros
    included. *)
Definition pad5 (n : nat) : string :=
  String (digit_char (n / 10 / 10 / 10 / 10 mod 10))
    (String (digit_char (n / 10 / 10 / 10 mod 10))
       (String (digit_char (n / 10 / 10 mod 10))
          (String (digit_char (n / 10 mod 10))
             (String (digit_char (n mod 10)) EmptyString)))).

Definition five_digits (s : string) : Prop :=
  String.length s = 5%nat /\ forallb is_digit s = true.

Definition line_feed : ascii := "010"%char.

(** [stem] has the shape [<base>-<part>-of-<total>] the regular expression
    of the planner accepts: a non-empty base without line feed and two
    groups of five digits (a line feed may close the string, as [$]
    allows). *)
Definition multipart_stem (stem base part total : string) : Prop :=
  base <> ""
  /\ forallb (fun c => negb (Re.is_lf c)) base = true
  /\ five_digits part
  /\ five_digits total
  /\ (stem = base ++ "-" ++ part ++ "-of-" ++ total
      \/ stem = (base ++ "-" ++ part ++ "-of-" ++ total)
                ++ String line_feed "").

(** The name and the task of part [i] out of [total_parts], for a file
    [<base>-...<ext>] found under the directory URL [dir]. *)
Definition multipart_name (base : string) (total_parts i : nat) : string :=
  base ++ "-" ++ pad5 i ++ "-of-" ++ pad5 total_parts.

Definition multipart_task (dir author repo base : string) (total_parts : nat)
    (ext : string) (i : nat) : Planner.ModelInfo :=
  {| Planner.DownloadUrl :=
       dir ++ "/" ++ multipart_name base total_parts i ++ ext;
     Planner.Author := author;
     Planner.ModelRepo := repo;
     Planner.ModelName := multipart_name base total_parts i;
     Planner.Extension := ext |}.

(** The two kinds of failure of the planner. *)
Inductive ParseError : Type :=
| InvalidUrl
| MalformedPath.

End Spec.

(** ** Further notions about a run *)

Module Runs.
Import PyStr Orchestrator.

Definition is_signal (a : Action) : bool :=
  match a with
  | Terminate _ | Wait _ _ | Kill _ => true
  | _ => false
  end.

(** The calls of a run that act on a running process, in order. *)
Definition signals (l : list Action) : list Action :=
  List.filter is_signal l.

(** The directories a run creates, in order. *)
Definition made_dirs (l : list Action) : list string :=
  flat_map (fun a => match a with Makedirs d => [d] | _ => [] end) l.



(** The messages with which [download_in_thread] can end. *)
Definition is_closing (m : LogMsg) : bool :=
  match m with
  | MsgToolMissing | MsgNoModelInfo | MsgNoDirectory | MsgEnd => true
  | _ => false
  end.

(** The directory created for a model. *)
Definition output_path (download_directory : string) (model : ModelInfo)
  : string :=
  OsPath.join download_directory [Author model; ModelRepo model].

(** The four ways in which the body of the loop can go. *)
Inductive Fate (inst : Install) (sessions : Z) (download_directory : string)
    (h : Handle) (model : ModelInfo) (sc : TaskScript) (w : World)
  : bool * World -> Prop :=
| Cancelled :
    stop_event (app w) || stop_before_start sc = true ->
    Fate inst sessions download_directory h model sc w
      (false, {| app := {| downloading := downloading (app w);
                           aria2c_process := aria2c_process (app w);
                           stop_event := true |};
                 log_queue := log_queue w ++ [MsgCancelled (ModelName model)];
                 actions := actions w |})
| Completed :
    stop_event (app w) = false -> undisturbed sc ->
    Fate inst sessions download_directory h model sc w
      (true, {| app := {| downloading := downloading (app w);
                          aria2c_process := None;
                          stop_event := false |};
                log_queue := log_queue w ++ task_log model sc;
                actions := actions w
                           ++ start_actions inst sessions
                                download_directory h model |})
| Stopped (before after : list Poll) (p : Poll) :
    stop_event (app w) = false -> stop_before_start sc = false ->
    polls sc = (before ++ p :: after)%list -> Forall no_stop before ->
    stop_pressed p = true ->
    Fate inst sessions download_directory h model sc w
      (false, {| app := {| downloading := downloading (app w);
                           aria2c_process := Some h;
                           stop_event := false |};
                 log_queue := log_queue w
                              ++ MsgRunning (ModelName model)
                                 :: forwarded (before ++ [p])
                              ++ stop_log (wait_times_out sc);
                 actions := actions w
                           ++ start_actions inst sessions
                                download_directory h model
                            ++ stop_actions h (wait_times_out sc) |})
| StoppedLate :
    stop_event (app w) = false -> stop_before_start sc = false ->
    Forall no_stop (polls sc) -> stop_after_loop sc = true ->
    Fate inst sessions download_directory h model sc w
      (false, {| app := {| downloading := downloading (app w);
                           aria2c_process := Some h;
                           stop_event := false |};
                 log_queue := log_queue w
                              ++ MsgRunning (ModelName model)
                                 :: forwarded (polls sc);
                 actions := actions w
                           ++ start_actions inst sessions
                                download_directory h model |}).

(** STOP pressed when the process has just exited by itself, with exit
    code 1. *)
Definition stop_after_exit : TaskScript :=
  {| stop_before_start := false;
     polls := [ {| readline := line "[#1 100%]"; stop_pressed := false |} ];
     wait_times_out := false;
     returncode := 1;
     stderr_text := line "errorCode=1";
     stop_after_loop := true |}.

(** A message that does not end a run. *)
Definition quiet (m : LogMsg) : Prop := is_closing m = false.

(** A script in which STOP is never pressed. *)
Definition never_stopped (script : nat -> TaskScript) (n : nat) : Prop :=
  forall j, (j < n)%nat -> undisturbed (script j).

End Runs.

(** ** The worker when the operating system refuses a call *)

(** [download_in_thread] catches no exception.  The two calls of a task
    that can raise for reasons outside the program are [os.makedirs] (the
    destination cannot be created) and [subprocess.Popen] (the program
    cannot be run); an exception that leaves the function ends the worker
    thread.  This is the worker with these two outcomes, written from the
    source like the one above, which is its special case where both calls
    succeed for every task. *)

Module Faults.
Import PyStr Orchestrator Runs.

(** What becomes of the two calls for one task. *)
Inductive OsOutcome : Type :=
| BothSucceed
| MakedirsRaises
| PopenRaises.

(** The exception that leaves the function, by the call that raised it. *)
Inductive Uncaught : Type :=
| MakedirsError (output_path : string)
| PopenError (args : list string).

(** State and exceptions: [inl e] when [e] was raised, and the world as the
    exception found it. *)
Definition MX (A : Type) : Type := M (Uncaught + A).

Definition lift {A} (m : M A) : MX A :=
  fun w => let '(a, w') := m w in (inr a, w').
Definition raise {A} (e : Uncaught) : MX A := fun w => (inl e, w).
Definition bindx {A B} (m : MX A) (k : A -> MX B) : MX B :=
  fun w =>
    match m w with
    | (inl e, w') => (inl e, w')
    | (inr a, w') => k a w'
    end.

Notation "x <-- m ;; k" := (bindx m (fun x => k))
  (at level 61, m at next level, right associativity).
Notation "m ;;; k" := (bindx m (fun _ => k))
  (at level 61, right associativity).

(** [os.makedirs(output_path, exist_ok=True)] *)
Definition makedirs (os : OsOutcome) (output_path : string) : MX unit :=
  match os with
  | MakedirsRaises => raise (MakedirsError output_path)
  | BothSucceed | PopenRaises => lift (act (Makedirs output_path))
  end.

(** [subprocess.Popen(args, ...)] *)
Definition popen (os : OsOutcome) (process : Handle) (args : list string)
  : MX unit :=
  match os with
  | PopenRaises => raise (PopenError args)
  | BothSucceed | MakedirsRaises => lift (act (Popen process args))
  end.

(** The body of [for model in model_info_array]. *)
Definition download_one (inst : Install) (sessions : Z)
    (download_directory : string) (process : Handle) (model : ModelInfo)
    (sc : TaskScript) (os : OsOutcome) : MX bool :=
  stop <-- lift (is_set (stop_before_start sc)) ;;
  if stop then lift (put (MsgCancelled (ModelName model)) ;; ret false)
  else
    let output_path :=
      OsPath.join download_directory [Author model; ModelRepo model] in
    makedirs os output_path ;;;
    lift (put (MsgRunning (ModelName model))) ;;;
    popen os process (aria2c_args inst sessions download_directory model) ;;;
    lift (set_process (Some process) ;;
          poll_loop process (wait_times_out sc) (polls sc) ;;
          stop <- is_set (stop_after_loop sc) ;;
          if stop then clear ;; ret false
          else
            (if returncode sc =? 0 then put (MsgFinished (ModelName model))
             else put (MsgError (ModelName model)
                                (strip is_space (stderr_text sc)))) ;;
            set_process None ;;
            ret true).

Fixpoint for_models (inst : Install) (sessions : Z)
    (download_directory : string) (script : nat -> TaskScript)
    (faults : nat -> OsOutcome) (index : nat) (models : list ModelInfo)
  : MX unit :=
  match models with
  | [] => lift (ret tt)
  | model :: rest =>
      continue <-- download_one inst sessions download_directory index model
                     (script index) (faults index) ;;
      if continue
      then for_models inst sessions download_directory script faults
             (S index) rest
      else lift (ret tt)
  end.

(** [download_in_thread(...)], an exception of the loop leaving it before
    the closing message and [set_downloading_state(False)]. *)
Definition download_in_thread (inst : Install)
    (model_info_array : option (list ModelInfo))
    (download_directory : string) (sessions : Z)
    (script : nat -> TaskScript) (faults : nat -> OsOutcome) : MX unit :=
  if negb (aria2c_exists inst) then
    lift (put MsgToolMissing ;; set_downloading_state false)
  else if no_models model_info_array then
    lift (put MsgNoModelInfo ;; set_downloading_state false)
  else if String.eqb download_directory "" then
    lift (put MsgNoDirectory ;; set_downloading_state false)
  else
    for_models inst sessions download_directory script faults 0
      (models_of_plan model_info_array) ;;;
    lift (put MsgEnd ;; set_downloading_state false).

(** How the thread ends, and the world it leaves. *)
Definition run (inst : Install) (model_info_array : option (list ModelInfo))
    (download_directory : string) (sessions : Z)
    (script : nat -> TaskScript) (faults : nat -> OsOutcome) (w : World)
  : (Uncaught + unit) * World :=
  download_in_thread inst model_info_array download_directory sessions
    script faults w.

(** The first [n] tasks meet no refusal. *)
Definition no_fault (faults : nat -> OsOutcome) (n : nat) : Prop :=
  forall j, (j < n)%nat -> faults j = BothSucceed.

(** The exception a refusal raises for a model. *)
Definition uncaught (inst : Install) (sessions : Z)
    (download_directory : string) (os : OsOutcome) (model : ModelInfo)
  : option Uncaught :=
  match os with
  | BothSucceed => None
  | MakedirsRaises =>
      Some (MakedirsError (output_path download_directory model))
  | PopenRaises =>
      Some (PopenError (aria2c_args inst sessions download_directory model))
  end.

(** The calls of a run that create a directory or a process, in order. *)
Definition is_start (a : Action) : bool :=
  match a with
  | Makedirs _ | Popen _ _ => true
  | _ => false
  end.

Definition starts (l : list Action) : list Action := List.filter is_start l.

(** The directory created for a task whose process could not be started. *)
Definition orphan_directory (download_directory : string)
    (r : Uncaught + unit) (model : option ModelInfo) : list Action :=
  match r, model with
  | inl (PopenError _), Some m =>
      [Makedirs (output_path download_directory m)]
  | _, _ => []
  end.

(** The destination cannot be created for the second task; the program
    cannot be run for the second task. *)
Definition second_fails (os : OsOutcome) (index : nat) : OsOutcome :=
  match index with
  | 1%nat => os
  | _ => BothSucceed
  end.

End Faults.

(** ** The configuration file: [manage_app_config] *)

Module Config.
Import PyStr.

(** A value [json.load] can put in the configuration dict, as Python sees
    it: [None], a bool, an int, a str; [JOther] stands for a float, a list
    or a dict, of which only the truth value and the text [str()] gives
    matter here. *)
Inductive JValue : Type :=
| JNone
| JBool (b : bool)
| JInt (z : Z)
| JStr (s : string)
| JOther (truth : bool) (text : string).

(** A dict with string keys, in insertion order. *)
Definition Dict : Type := list (string * JValue).

(** [d.get(key, default)] *)
Fixpoint dict_get (key : string) (default : JValue) (d : Dict) : JValue :=
  match d with
  | [] => default
  | (k, v) :: rest =>
      if String.eqb k key then v else dict_get key default rest
  end.

(** [d[key] = value]: the value of an existing key is replaced in place, a
    new key is added at the end. *)
Fixpoint dict_set (key : string) (value : JValue) (d : Dict) : Dict :=
  match d with
  | [] => [(key, value)]
  | (k, v) :: rest =>
      if String.eqb k key then (k, value) :: rest
      else (k, v) :: dict_set key value rest
  end.

(** What [json.load] makes of the file: a dict when the document is an
    object, something else otherwise. *)
Inductive Document : Type :=
| Object (d : Dict)
| NotObject.

(** The configuration file: absent; present but not loadable (it cannot be
    opened, or [json.load] rejects it, as it does an empty or a partly
    written file); or holding a JSON document.  A file that [json.dump]
    wrote to its end is taken to load as what was dumped. *)
Inductive ConfigFile : Type :=
| Missing
| Unreadable
| Holds (doc : Document).

(** What becomes of [with open(config_file_path, 'w') as f: json.dump(...)]:
    the document is written; or [open] raises, the file being left as it
    is; or [open] succeeds, which empties the file, and the dump or the
    closing of the file raises, which leaves it empty or partly written. *)
Inductive WriteOutcome : Type :=
| Written
| OpenFails
| DumpFails.

(** The part of the file system the function looks at: the configuration
    directory, [aria2c.exe] and [config.json] in it, and what a write to
    [config.json] comes to. *)
Record Disk : Type := {
  config_dir_exists : bool;
  aria2c_present : bool;
  config_file : ConfigFile;
  write : WriteOutcome
}.

(** What the user is shown or told on the console. *)
Inductive Notice : Type :=
| BoxAria2cNotFound
| SaidCreatingFile
| SaidReadError
| SaidDirectoryUpdated
| SaidSessionsUpdated
| SaidWriteError.

Inductive Exception : Type :=
| OSError
| TypeError
| AttributeError.

(** The function returns a pair, [(None, None)] on the failures it handles,
    or lets an exception escape. *)
Inductive Result : Type :=
| Returned (directory sessions : JValue)
| Raised (e : Exception).

Definition default_config : Dict :=
  [("DIRECTORY", JStr ""); ("SESSIONS", JInt 2)].

Definition with_file (disk : Disk) (f : ConfigFile) : Disk :=
  {| config_dir_exists := config_dir_exists disk;
     aria2c_present := aria2c_present disk;
     config_file := f;
     write := write disk |}.

(** [os.makedirs(config_file_dir, exist_ok=True)] *)
Definition make_config_dir (disk : Disk) : Disk :=
  {| config_dir_exists := true;
     aria2c_present := aria2c_present disk;
     config_file := config_file disk;
     write := write disk |}.

Definition is_missing (f : ConfigFile) : bool :=
  match f with
  | Missing => true
  | _ => false
  end.

Definition given {A} (x : option A) : bool :=
  match x with
  | Some _ => true
  | None => false
  end.

(** The two assignments [config_json["DIRECTORY"] = directory_path] and
    [config_json["SESSIONS"] = sessions], each made when its argument is
    not [None]. *)
Definition updated (directory_path : option string) (sessions : option Z)
    (d : Dict) : Dict :=
  let d :=
    match directory_path with
    | Some dir => dict_set "DIRECTORY" (JStr dir) d
    | None => d
    end in
  match sessions with
  | Some n => dict_set "SESSIONS" (JInt n) d
  | None => d
  end.

(** The part of the function after the file has been created if needed:
    load, update, save, return. *)
Definition load_update_save (directory_path : option string)
    (sessions : option Z) (disk : Disk) (said : list Notice)
  : Result * Disk * list Notice :=
  match config_file disk with
  | Missing | Unreadable =>
      (Returned JNone JNone, disk, (said ++ [SaidReadError])%list)
  | Holds NotObject =>
      (Raised (if given directory_path || given sessions
               then TypeError else AttributeError),
       disk, said)
  | Holds (Object config_json) =>
      let config_json := updated directory_path sessions config_json in
      let answer :=
        Returned (dict_get "DIRECTORY" (JStr "") config_json)
                 (dict_get "SESSIONS" (JInt 2) config_json) in
      if given directory_path || given sessions then
        match write disk with
        | Written =>
            (answer,
             with_file disk (Holds (Object config_json)),
             (said
              ++ (if given directory_path then [SaidDirectoryUpdated] else [])
              ++ (if given sessions then [SaidSessionsUpdated] else []))%list)
        | OpenFails =>
            (Returned JNone JNone, disk, (said ++ [SaidWriteError])%list)
        | DumpFails =>
            (Returned JNone JNone, with_file disk Unreadable,
             (said ++ [SaidWriteError])%list)
        end
      else (answer, disk, said)
  end.

(** [manage_app_config(directory_path, sessions)]: the result, the disk
    afterwards and what the user was told. *)
Definition manage_app_config (directory_path : option string)
    (sessions : option Z) (disk : Disk) : Result * Disk * list Notice :=
  if negb (aria2c_present disk) then
    (Returned JNone JNone, disk, [BoxAria2cNotFound])
  else
    let disk :=
      if config_dir_exists disk then disk else make_config_dir disk in
    if is_missing (config_file disk) then
      match write disk with
      | Written =>
          load_update_save directory_path sessions
            (with_file disk (Holds (Object default_config)))
            [SaidCreatingFile]
      | OpenFails => (Raised OSError, disk, [SaidCreatingFile])
      | DumpFails =>
          (Raised OSError, with_file disk Unreadable, [SaidCreatingFile])
      end
    else load_update_save directory_path sessions disk [].

Definition result_of (r : Result * Disk * list Notice) : Result :=
  fst (fst r).
Definition disk_of (r : Result * Disk * list Notice) : Disk := snd (fst r).
Definition notices_of (r : Result * Disk * list Notice) : list Notice :=
  snd r.

(** A disk as a file system can be: [aria2c.exe] and [config.json] lie in
    the configuration directory. *)
Definition well_formed (disk : Disk) : Prop :=
  (aria2c_present disk = true -> config_dir_exists disk = true)
  /\ (is_missing (config_file disk) = false ->
      config_dir_exists disk = true).

(** The dict the settings are read from: the one the file holds, or the
    default one. *)
Definition stored (disk : Disk) : Dict :=
  match config_file disk with
  | Holds (Object d) => d
  | _ => default_config
  end.


(** A disk on which the settings can be kept: [aria2c.exe] is in place,
    the writes to the file go through, and the file is absent or holds a
    JSON object. *)
Definition usable (disk : Disk) : Prop :=
  config_dir_exists disk = true
  /\ aria2c_present disk = true
  /\ write disk = Written
  /\ (config_file disk = Missing
      \/ exists d, config_file disk = Holds (Object d)).

(** A fresh installation, and one with settings saved. *)
Definition fresh_disk : Disk :=
  {| config_dir_exists := true; aria2c_present := true;
     config_file := Missing; write := Written |}.

Definition settled_disk : Disk :=
  {| config_dir_exists := true; aria2c_present := true;
     config_file :=
       Holds (Object [("DIRECTORY", JStr "/downloads");
                      ("THEME", JStr "dark");
                      ("SESSIONS", JInt 4)]);
     write := Written |}.


End Config.

(** ** [int] and [str.isdigit] on arbitrary strings *)

Module PyInt.
Import PyStr.

(** The limit the interpreter puts on the number of digits [int] converts
    ([sys.get_int_max_str_digits()]: 4300 unless changed, and never below
    640); [None] when the limit is switched off or the interpreter has
    none. *)
Class IntLimits : Type := {
  max_str_digits : option nat
}.

(** The characters [int] skips around the numeral. *)
Definition is_int_space (c : ascii) : bool :=
  in_range 9 13 c || Nat.eqb (code c) 32
  || Nat.eqb (code c) 133 || Nat.eqb (code c) 160.

(** An optional sign in front of the numeral. *)
Definition sign_split (s : string) : bool * string :=
  match s with
  | String c r =>
      if Ascii.eqb c "-" then (true, r)
      else if Ascii.eqb c "+" then (false, r)
      else (false, s)
  | EmptyString => (false, s)
  end.

(** The digits of the numeral, single underscores being allowed between
    two digits: the value read so far, the number of digits, and whether the
    last character was a digit. *)
Fixpoint int_body (acc : Z) (count : nat) (after_digit : bool) (s : string)
  : option (Z * nat) :=
  match s with
  | EmptyString => if after_digit then Some (acc, count) else None
  | String c r =>
      if is_digit c
      then int_body (10 * acc + Z.of_nat (code c - 48)) (S count) true r
      else if Ascii.eqb c "_"
           then (if after_digit then int_body acc count false r else None)
           else None
  end.

Definition over_limit `{IntLimits} (count : nat) : bool :=
  match max_str_digits with
  | Some m => Nat.ltb m count
  | None => false
  end.

(** [int(s)] for a string; [None] stands for a raised [ValueError]. *)
Definition py_int `{IntLimits} (s : string) : option Z :=
  let '(negative, body) := sign_split (strip is_int_space s) in
  match int_body 0 0 false body with
  | Some (v, count) =>
      if over_limit count then None
      else Some (if negative then - v else v)
  | None => None
  end.

(** The characters [str.isdigit] accepts, below 256: the decimal digits and
    the superscripts one, two and three. *)
Definition isdigit_char (c : ascii) : bool :=
  is_digit c || Nat.eqb (code c) 178 || Nat.eqb (code c) 179
  || Nat.eqb (code c) 185.

(** [s.isdigit()] *)
Definition isdigit (s : string) : bool :=
  negb (String.eqb s "") && forallb isdigit_char s.

(** The default of CPython 3.11. *)
Definition cpython_limits : IntLimits := {| max_str_digits := Some 4300%nat |}.

End PyInt.

(** ** The window: [DownloaderApp] *)

Module Gui.
Import PyStr PyInt Config Planner Orchestrator.

(** [DownloaderApp.validate_sessions_input(new_value)]; [None] stands for
    the [ValueError] that [int] raises on a string [isdigit] lets through. *)
Definition validate_sessions_input `{IntLimits} (new_value : string)
  : option bool :=
  if String.eqb new_value "" then Some true
  else if negb (isdigit new_value) then Some false
  else
    match py_int new_value with
    | None => None
    | Some n => if (n <? 1) || (9 <? n) then Some false else Some true
    end.

Inductive Command : Type :=
| OnStartClick
| OnStopClick.

Record Button : Type := {
  text : string;
  command : Command;
  enabled : bool
}.

(** The state of the window: the fields of the object (the part the worker
    shares, the parsed plan, the queue of log lines) and of its widgets (the
    contents of the three entries and of the log view, the button, and
    whether each entry accepts input). *)
Record Window : Type := {
  core : App;
  parsed_model_info : option (list ModelInfo);
  queue : list string;
  url_entry : string;
  dir_entry : string;
  sessions : string;
  log_text : string;
  start_button : Button;
  url_entry_enabled : bool;
  dir_entry_enabled : bool;
  sessions_entry_enabled : bool
}.

(** What a handler does besides changing the window: an error box, the
    start of the worker thread, a line on the console (its own, or one of
    [manage_app_config]). *)
Inductive Effect : Type :=
| ShowError (title message : string)
| StartThread (model_info_array : option (list ModelInfo))
    (download_directory : string) (sessions : Z)
| Printed (message : string)
| Told (notice : Notice).

Definition with_core (g : Window) (a : App) : Window :=
  {| core := a;
     parsed_model_info := parsed_model_info g;
     queue := queue g;
     url_entry := url_entry g;
     dir_entry := dir_entry g;
     sessions := sessions g;
     log_text := log_text g;
     start_button := start_button g;
     url_entry_enabled := url_entry_enabled g;
     dir_entry_enabled := dir_entry_enabled g;
     sessions_entry_enabled := sessions_entry_enabled g |}.

(** [self.sessions.set(t)] *)
Definition with_sessions (g : Window) (t : string) : Window :=
  {| core := core g;
     parsed_model_info := parsed_model_info g;
     queue := queue g;
     url_entry := url_entry g;
     dir_entry := dir_entry g;
     sessions := t;
     log_text := log_text g;
     start_button := start_button g;
     url_entry_enabled := url_entry_enabled g;
     dir_entry_enabled := dir_entry_enabled g;
     sessions_entry_enabled := sessions_entry_enabled g |}.

Definition with_log_text (g : Window) (t : string) : Window :=
  {| core := core g;
     parsed_model_info := parsed_model_info g;
     queue := queue g;
     url_entry := url_entry g;
     dir_entry := dir_entry g;
     sessions := sessions g;
     log_text := t;
     start_button := start_button g;
     url_entry_enabled := url_entry_enabled g;
     dir_entry_enabled := dir_entry_enabled g;
     sessions_entry_enabled := sessions_entry_enabled g |}.

(** [DownloaderApp.set_downloading_state(is_downloading)] *)
Definition set_downloading_state (is_downloading : bool) (g : Window)
  : Window :=
  {| core := {| downloading := is_downloading;
                aria2c_process := aria2c_process (core g);
                stop_event := stop_event (core g) |};
     parsed_model_info := parsed_model_info g;
     queue := queue g;
     url_entry := url_entry g;
     dir_entry := dir_entry g;
     sessions := sessions g;
     log_text := log_text g;
     start_button :=
       if is_downloading
       then {| text := "STOP"; command := OnStopClick; enabled := true |}
       else {| text := "START"; command := OnStartClick; enabled := true |};
     url_entry_enabled := negb is_downloading;
     dir_entry_enabled := negb is_downloading;
     sessions_entry_enabled := negb is_downloading |}.

(** [stop_event.clear()] and [stop_event.set()] on the window. *)
Definition set_stop_event (b : bool) (g : Window) : Window :=
  with_core g {| downloading := downloading (core g);
                 aria2c_process := aria2c_process (core g);
                 stop_event := b |}.

(** [DownloaderApp.on_start_click()] *)
Definition on_start_click `{IntLimits} (g : Window) : Window * list Effect :=
  if downloading (core g) then (g, [])
  else
    let download_dir := dir_entry g in
    let sessions_value := sessions g in
    if String.eqb sessions_value "" then
      (g, [ShowError "Error" "Enter the number of sessions (1-9)."])
    else
      match py_int sessions_value with
      | None => (g, [ShowError "Error" "Invalid number of sessions."])
      | Some n =>
          let g := with_log_text g "" in
          let g := set_downloading_state true g in
          let g := set_stop_event false g in
          let started :=
            StartThread (parsed_model_info g) download_dir n in
          (with_log_text g
             (log_text g
              ++ "Download started in the background..."
              ++ String "010"%char ""),
           [started])
      end.

(** [DownloaderApp.on_stop_click()] *)
Definition on_stop_click (g : Window) : Window :=
  if downloading (core g) then
    let g := set_stop_event true g in
    {| core := core g;
       parsed_model_info := parsed_model_info g;
       queue :=
         (queue g
          ++ ["Attempting to stop current download and cancel queued downloads..."])%list;
       url_entry := url_entry g;
       dir_entry := dir_entry g;
       sessions := sessions g;
       log_text := log_text g;
       start_button := {| text := text (start_button g);
                          command := command (start_button g);
                          enabled := false |};
       url_entry_enabled := false;
       dir_entry_enabled := false;
       sessions_entry_enabled := false |}
  else g.

(** [DownloaderApp.set_process(process)] *)
Definition set_process (process : option Handle) (g : Window) : Window :=
  with_core g {| downloading := downloading (core g);
                 aria2c_process := process;
                 stop_event := stop_event (core g) |}.

(** The state in which the worker started by a window begins. *)
Definition worker_world (g : Window) : World :=
  {| app := core g; log_queue := []; actions := [] |}.

(** A click on the button: the command bound to it when it is enabled. *)
Definition click `{IntLimits} (g : Window) : Window * list Effect :=
  if enabled (start_button g) then
    match command (start_button g) with
    | OnStartClick => on_start_click g
    | OnStopClick => (on_stop_click g, [])
    end
  else (g, []).

(** What can happen to the window while the worker is at its tasks: the
    user clicks the button, or the worker records the process it started or
    forgets the one that ended. *)
Inductive Event : Type :=
| Click
| WorkerSetsProcess (process : option Handle).

Definition handle `{IntLimits} (e : Event) (g : Window)
  : Window * list Effect :=
  match e with
  | Click => click g
  | WorkerSetsProcess process => (set_process process g, [])
  end.

Fixpoint events `{IntLimits} (l : list Event) (g : Window)
  : Window * list Effect :=
  match l with
  | [] => (g, [])
  | e :: rest =>
      let '(g1, e1) := handle e g in
      let '(g2, e2) := events rest g1 in
      (g2, (e1 ++ e2)%list)
  end.

Definition newline : string := String "010"%char "".

(** The block of lines shown for one model. *)
Definition model_lines (model_info : ModelInfo) : string :=
  "Download URL: " ++ DownloadUrl model_info ++ newline
  ++ "Author: " ++ Author model_info ++ newline
  ++ "Model Repo: " ++ ModelRepo model_info ++ newline
  ++ "Model Name: " ++ ModelName model_info ++ newline
  ++ "Model Extension: " ++ Extension model_info ++ newline
  ++ "-----" ++ newline.

(** [DownloaderApp.parse_and_display_model_info(url_to_parse)]; what the
    planner prints on the console is left to the planner. *)
Definition parse_and_display_model_info `{Urllib.NetlocChecks}
    (url_to_parse : string) (g : Window) : Window :=
  let parsed := plan url_to_parse in
  {| core := core g;
     parsed_model_info := parsed;
     queue := queue g;
     url_entry := url_entry g;
     dir_entry := dir_entry g;
     sessions := sessions g;
     log_text :=
       if no_models parsed
       then "Invalid URL or unable to parse model information." ++ newline
       else String.concat "" (List.map model_lines (models_of_plan parsed));
     start_button := start_button g;
     url_entry_enabled := url_entry_enabled g;
     dir_entry_enabled := dir_entry_enabled g;
     sessions_entry_enabled := sessions_entry_enabled g |}.

(** [on_url_text_changed] and [on_url_focus_out] *)
Definition on_url_text_changed `{Urllib.NetlocChecks} (g : Window) : Window :=
  parse_and_display_model_info (url_entry g) g.

(** [DownloaderApp.periodic_log_update()], one round: every queued message
    goes to the log view, followed by a line feed. *)
Definition periodic_log_update (g : Window) : Window :=
  {| core := core g;
     parsed_model_info := parsed_model_info g;
     queue := [];
     url_entry := url_entry g;
     dir_entry := dir_entry g;
     sessions := sessions g;
     log_text :=
       fold_left (fun shown message => shown ++ message ++ newline)
         (queue g) (log_text g);
     start_button := start_button g;
     url_entry_enabled := url_entry_enabled g;
     dir_entry_enabled := dir_entry_enabled g;
     sessions_entry_enabled := sessions_entry_enabled g |}.

(** [log_queue.put(message)], from the worker. *)
Definition enqueue (messages : list string) (g : Window) : Window :=
  {| core := core g;
     parsed_model_info := parsed_model_info g;
     queue := (queue g ++ messages)%list;
     url_entry := url_entry g;
     dir_entry := dir_entry g;
     sessions := sessions g;
     log_text := log_text g;
     start_button := start_button g;
     url_entry_enabled := url_entry_enabled g;
     dir_entry_enabled := dir_entry_enabled g;
     sessions_entry_enabled := sessions_entry_enabled g |}.

(** [DownloaderApp.on_dir_lost_focus()] *)
Definition on_dir_lost_focus (g : Window) (disk : Disk)
  : Result * Disk * list Notice :=
  manage_app_config (Some (dir_entry g)) None disk.

(** [DownloaderApp.on_sessions_lost_focus()]: whether an exception escaped
    ([manage_app_config] can raise, and only [ValueError] is caught), the
    disk afterwards, and what was shown or printed. *)
Definition on_sessions_lost_focus `{IntLimits} (g : Window) (disk : Disk)
  : option Exception * Disk * list Effect :=
  let sessions_value := sessions g in
  if String.eqb sessions_value "" then (None, disk, [])
  else
    match py_int sessions_value with
    | Some n =>
        let r := manage_app_config None (Some n) disk in
        (match result_of r with
         | Raised e => Some e
         | Returned _ _ => None
         end,
         disk_of r, List.map Told (notices_of r))
    | None => (None, disk, [Printed "Invalid number of sessions to save."])
    end.

(** [str(x)] for a value of the configuration. *)
Definition py_str (x : JValue) : string :=
  match x with
  | JNone => "None"
  | JBool true => "True"
  | JBool false => "False"
  | JInt z => str_int z
  | JStr s => s
  | JOther _ text => text
  end.

(** In [__init__]: the text put in the sessions field from the sessions
    value [manage_app_config()] returned. *)
Definition initial_sessions (saved_sessions : JValue) : string :=
  match saved_sessions with
  | JNone => "2"
  | _ => py_str saved_sessions
  end.

(** A window ready for the plan of
    [https://host/alice/modelX/file-00001-of-00003.bin]. *)
Definition example_window : Window :=
  {| core := idle;
     parsed_model_info := Some example_plan;
     queue := [];
     url_entry := "https://host/alice/modelX/file-00001-of-00003.bin";
     dir_entry := "/downloads";
     sessions := "03";
     log_text := "";
     start_button :=
       {| text := "START"; command := OnStartClick; enabled := true |};
     url_entry_enabled := true;
     dir_entry_enabled := true;
     sessions_entry_enabled := true |}.


End Gui.

(** * Properties *)

(** ** Facts about the string primitives *)

Module PyStrFacts.
Import PyStr.

Lemma app_nil_r (s : string) : s ++ "" = s.
Proof. induction s as [|a s IH]; simpl; [reflexivity | now rewrite IH]. Qed.

Lemma app_assoc (a b c : string) : (a ++ b) ++ c = a ++ (b ++ c).
Proof. induction a as [|x a IH]; simpl; [reflexivity | now rewrite IH]. Qed.

Lemma length_app (a b : string) :
  String.length (a ++ b) = (String.length a + String.length b)%nat.
Proof. induction a as [|x a IH]; simpl; [reflexivity | now rewrite IH]. Qed.

Lemma app_inv_head (a b c : string) : a ++ b = a ++ c -> b = c.
Proof.
  induction a as [|x a IH]; simpl; intros E; [exact E|].
  injection E as E. now apply IH.
Qed.

Lemma app_eq_prefix (a b x y : string) :
  String.length a = String.length b -> a ++ x = b ++ y -> a = b.
Proof.
  revert b. induction a as [|c a IH]; intros [|d b] L E;
    try discriminate; [reflexivity|].
  simpl in L, E. injection L as L. injection E as -> E.
  f_equal. now apply IH.
Qed.

Lemma take_app_length (a b : string) : take (String.length a) (a ++ b) = a.
Proof. induction a as [|x a IH]; simpl; [now destruct b | now rewrite IH]. Qed.

Lemma drop_app_length (a b : string) : drop (String.length a) (a ++ b) = b.
Proof. induction a as [|x a IH]; simpl; [reflexivity | exact IH]. Qed.

Lemma take_drop (n : nat) (s : string) : take n s ++ drop n s = s.
Proof.
  revert s; induction n as [|n IH]; intros [|a s]; simpl; try reflexivity.
  now rewrite IH.
Qed.

Lemma take_all (n : nat) (s : string) :
  (String.length s <= n)%nat -> take n s = s.
Proof.
  revert s; induction n as [|n IH]; intros [|a s]; simpl; intros L;
    try reflexivity; try lia.
  rewrite IH; [reflexivity | lia].
Qed.

Lemma length_take (n : nat) (s : string) :
  String.length (take n s) = Nat.min n (String.length s).
Proof.
  revert s; induction n as [|n IH]; intros [|a s]; simpl; try reflexivity.
  now rewrite IH.
Qed.

Lemma length_drop (n : nat) (s : string) :
  String.length (drop n s) = (String.length s - n)%nat.
Proof.
  revert s; induction n as [|n IH]; intros [|a s]; simpl; try reflexivity.
  apply IH.
Qed.

Lemma upto_app_length (a b : string) :
  upto (Z.of_nat (String.length a)) (a ++ b) = a.
Proof. unfold upto. rewrite Nat2Z.id. apply take_app_length. Qed.

Lemma from_app_length (a b : string) :
  from (Z.of_nat (String.length a)) (a ++ b) = b.
Proof. unfold from. rewrite Nat2Z.id. apply drop_app_length. Qed.

Lemma upto_from (i : Z) (s : string) : upto i s ++ from i s = s.
Proof. apply take_drop. Qed.

Lemma contains_app (c : ascii) (a b : string) :
  contains c (a ++ b) = contains c a || contains c b.
Proof.
  induction a as [|x a IH]; simpl; [reflexivity|].
  now rewrite IH, orb_assoc.
Qed.

Lemma forallb_app (p : ascii -> bool) (a b : string) :
  forallb p (a ++ b) = forallb p a && forallb p b.
Proof.
  induction a as [|x a IH]; simpl; [reflexivity|].
  now rewrite IH, andb_assoc.
Qed.

(** *** [find] and [rfind] *)

Lemma rfind_lower (c : ascii) (s : string) : -1 <= rfind c s.
Proof.
  induction s as [|a s IH]; simpl; [lia|].
  destruct (0 <=? rfind c s) eqn:E; [apply Z.leb_le in E; lia|].
  destruct (Ascii.eqb a c); lia.
Qed.

Lemma rfind_absent (c : ascii) (s : string) :
  contains c s = false <-> rfind c s = -1.
Proof.
  induction s as [|a s IH]; simpl; [tauto|].
  pose proof (rfind_lower c s) as L.
  destruct (0 <=? rfind c s) eqn:E.
  - apply Z.leb_le in E. split; intros H; [|lia].
    apply orb_false_iff in H as [_ H]. apply IH in H. lia.
  - apply Z.leb_gt in E. assert (R : rfind c s = -1) by lia.
    apply IH in R. rewrite R, orb_false_r.
    destruct (Ascii.eqb a c); split; intros; congruence || lia.
Qed.

Lemma rfind_present (c : ascii) (s : string) :
  contains c s = true <-> 0 <= rfind c s.
Proof.
  pose proof (rfind_absent c s) as A. pose proof (rfind_lower c s) as L.
  destruct (contains c s); split; intros H; try reflexivity.
  - destruct (Z.eq_dec (rfind c s) (-1)) as [E|E]; [|lia].
    apply A in E. discriminate.
  - discriminate.
  - assert (rfind c s = -1) by now apply A. lia.
Qed.

(** The last occurrence: what follows it has no [c]. *)
Lemma rfind_app (c : ascii) (a b : string) :
  contains c b = false ->
  rfind c (a ++ String c b) = Z.of_nat (String.length a).
Proof.
  intros Hb. induction a as [|x a IH]; simpl.
  - apply rfind_absent in Hb. rewrite Hb. simpl.
    now rewrite Ascii.eqb_refl.
  - rewrite IH.
    destruct (0 <=? Z.of_nat (String.length a)) eqn:E;
      [lia | apply Z.leb_gt in E; lia].
Qed.

Lemma rfind_split (c : ascii) (s : string) :
  contains c s = true ->
  exists a b, s = a ++ String c b /\ contains c b = false
              /\ rfind c s = Z.of_nat (String.length a).
Proof.
  induction s as [|x s IH]; simpl; [discriminate|].
  intros H. destruct (contains c s) eqn:Cs.
  - destruct (IH eq_refl) as (a & b & -> & Hb & R).
    exists (String x a), b. repeat split; trivial.
    rewrite R. simpl String.length.
    destruct (0 <=? Z.of_nat (String.length a)) eqn:E;
      [lia | apply Z.leb_gt in E; lia].
  - rewrite orb_false_r in H. apply Ascii.eqb_eq in H. subst x.
    exists "", s. repeat split; trivial.
    apply rfind_absent in Cs. rewrite Cs. simpl.
    now rewrite Ascii.eqb_refl.
Qed.

Lemma find_lower (c : ascii) (s : string) : -1 <= find c s.
Proof.
  induction s as [|a s IH]; simpl; [lia|].
  destruct (Ascii.eqb a c); [lia|].
  destruct (0 <=? find c s) eqn:E; [apply Z.leb_le in E; lia | lia].
Qed.

(** What [contains] sees in a suffix or in a filtered string, it sees in
    the string. *)
Lemma contains_drop (c : ascii) (n : nat) (s : string) :
  contains c (drop n s) = true -> contains c s = true.
Proof.
  revert s; induction n as [|n IH]; intros [|a s]; simpl; trivial.
  intros H. rewrite (IH _ H). apply orb_true_r.
Qed.

Lemma contains_take (c : ascii) (n : nat) (s : string) :
  contains c (take n s) = true -> contains c s = true.
Proof.
  revert s; induction n as [|n IH]; intros [|a s]; simpl; trivial;
    try discriminate.
  intros H. apply orb_true_iff in H as [H|H]; rewrite ?H; trivial.
  rewrite (IH _ H). apply orb_true_r.
Qed.

Lemma contains_filter (c : ascii) (p : ascii -> bool) (s : string) :
  contains c (filter p s) = true -> contains c s = true.
Proof.
  induction s as [|a s IH]; simpl; trivial.
  destruct (p a); simpl; intros H.
  - apply orb_true_iff in H as [H|H]; rewrite ?H; trivial.
    rewrite (IH H). apply orb_true_r.
  - rewrite (IH H). apply orb_true_r.
Qed.

Lemma contains_lstrip (c : ascii) (p : ascii -> bool) (s : string) :
  contains c (lstrip p s) = true -> contains c s = true.
Proof.
  induction s as [|a s IH]; simpl; trivial.
  destruct (p a); simpl; trivial.
  intros H. rewrite (IH H). apply orb_true_r.
Qed.

End PyStrFacts.

(** ** Decimal numerals: [int], [str], [zfill] *)

Module NumeralFacts.
Import PyStr PyStrFacts Spec.

Lemma is_digit_code (c : ascii) :
  is_digit c = true -> (48 <= code c <= 57)%nat.
Proof.
  unfold is_digit, in_range. intros H.
  apply andb_true_iff in H as [H1 H2].
  apply Nat.leb_le in H1, H2. lia.
Qed.

Lemma is_digit_char (c : ascii) :
  is_digit c = true -> c = digit_char (code c - 48).
Proof.
  intros H. apply is_digit_code in H. unfold digit_char, code in *.
  replace (48 + (nat_of_ascii c - 48))%nat with (nat_of_ascii c) by lia.
  now rewrite ascii_nat_embedding.
Qed.

Lemma code_digit_char (d : nat) : (d < 10)%nat -> code (digit_char d) = (48 + d)%nat.
Proof.
  intros H. unfold code, digit_char. apply nat_ascii_embedding. lia.
Qed.

Lemma digit_char_is_digit (d : nat) : (d < 10)%nat -> is_digit (digit_char d) = true.
Proof.
  intros H. unfold is_digit, in_range. rewrite code_digit_char by exact H.
  apply andb_true_iff; split; apply Nat.leb_le; lia.
Qed.

(** The value read with an accumulator: the accumulator is shifted by the
    number of characters. *)
Lemma int_acc_shift (s : string) (acc : nat) :
  int_acc acc s = (acc * 10 ^ String.length s + int s)%nat.
Proof.
  unfold int. revert acc. induction s as [|c s IH]; intros acc.
  - simpl. lia.
  - cbn [int_acc String.length]. rewrite IH, (IH (10 * 0 + _)%nat).
    rewrite Nat.pow_succ_r'. nia.
Qed.

Lemma int_bound (s : string) :
  forallb is_digit s = true -> (int s < 10 ^ String.length s)%nat.
Proof.
  induction s as [|c s IH]; intros H.
  - unfold int. simpl. lia.
  - cbn [forallb] in H. apply andb_true_iff in H as [Hc Hs].
    apply is_digit_code in Hc. specialize (IH Hs).
    unfold int. cbn [int_acc String.length].
    rewrite int_acc_shift, Nat.pow_succ_r'. nia.
Qed.

(** Two numerals of the same length with the same value are the same. *)
Lemma int_inj (s t : string) :
  String.length s = String.length t ->
  forallb is_digit s = true -> forallb is_digit t = true ->
  int s = int t -> s = t.
Proof.
  revert t. induction s as [|c s IH]; intros [|d t] L Hs Ht E;
    try discriminate; [reflexivity|].
  cbn [forallb] in Hs, Ht.
  apply andb_true_iff in Hs as [Hc Hs]. apply andb_true_iff in Ht as [Hd Ht].
  injection L as L.
  unfold int in E. cbn [int_acc] in E. rewrite !int_acc_shift in E.
  pose proof (int_bound s Hs) as Bs. pose proof (int_bound t Ht) as Bt.
  rewrite L in *.
  pose proof (is_digit_code c Hc) as Cc. pose proof (is_digit_code d Hd) as Cd.
  assert (code c - 48 = code d - 48 /\ int s = int t)%nat as [Ec Est].
  { apply (Nat.div_mod_unique (10 ^ String.length t)); trivial.
    rewrite !Nat.mul_0_r, !Nat.add_0_l in E.
    rewrite (Nat.mul_comm (10 ^ String.length t) (code c - 48)).
    rewrite (Nat.mul_comm (10 ^ String.length t) (code d - 48)).
    exact E. }
  rewrite (is_digit_char c Hc), (is_digit_char d Hd), Ec.
  f_equal. apply IH; trivial.
Qed.

Lemma int_zeros (k : nat) (s : string) : int (zeros k ++ s) = int s.
Proof. induction k as [|k IH]; [reflexivity | exact IH]. Qed.

Lemma length_zeros (k : nat) : String.length (zeros k) = k.
Proof. induction k as [|k IH]; simpl; [reflexivity | now rewrite IH]. Qed.

Lemma zeros_digits (k : nat) : forallb is_digit (zeros k) = true.
Proof. induction k as [|k IH]; simpl; [reflexivity | exact IH]. Qed.

(** [int] reads what [str] writes. *)
Lemma int_acc_of_uint (d : Decimal.uint) (acc : nat) :
  int_acc acc (NilEmpty.string_of_uint d) = Nat.of_uint_acc d acc.
Proof.
  revert acc.
  induction d as [|d IH|d IH|d IH|d IH|d IH|d IH|d IH|d IH|d IH|d IH];
    intros acc; cbn [NilEmpty.string_of_uint int_acc Nat.of_uint_acc];
    [reflexivity | rewrite IH, Nat.tail_mul_spec; f_equal;
                   change (code _ - 48)%nat with 0%nat
                   || change (code _ - 48)%nat with 1%nat
                   || change (code _ - 48)%nat with 2%nat
                   || change (code _ - 48)%nat with 3%nat
                   || change (code _ - 48)%nat with 4%nat
                   || change (code _ - 48)%nat with 5%nat
                   || change (code _ - 48)%nat with 6%nat
                   || change (code _ - 48)%nat with 7%nat
                   || change (code _ - 48)%nat with 8%nat
                   || change (code _ - 48)%nat with 9%nat; lia ..].
Qed.

Lemma int_str (n : nat) : int (str n) = n.
Proof.
  unfold int, str. rewrite int_acc_of_uint.
  apply DecimalNat.Unsigned.of_to.
Qed.

Lemma string_of_uint_digits (d : Decimal.uint) :
  forallb is_digit (NilEmpty.string_of_uint d) = true.
Proof. induction d; simpl; trivial. Qed.

Lemma str_digits (n : nat) : forallb is_digit (str n) = true.
Proof. apply string_of_uint_digits. Qed.

(** [str] writes a normal numeral: no leading zero besides ["0"] itself. *)
Lemma to_uint_normal (n : nat) :
  Nat.to_uint n = Decimal.unorm (Nat.to_uint n).
Proof.
  rewrite <- DecimalNat.Unsigned.to_of.
  now rewrite DecimalNat.Unsigned.of_to.
Qed.

Lemma unorm_not_Nil (d : Decimal.uint) : Decimal.unorm d <> Decimal.Nil.
Proof. unfold Decimal.unorm. destruct (Decimal.nzhead d); discriminate. Qed.

Lemma normal_leading_zero (d : Decimal.uint) :
  Decimal.unorm (Decimal.D0 d) = Decimal.D0 d -> d = Decimal.Nil.
Proof.
  intros E. rewrite DecimalFacts.unorm_D0 in E.
  destruct d as [|d|d|d|d|d|d|d|d|d|d]; trivial;
    match type of E with
    | Decimal.unorm ?x = _ =>
        assert (N : x <> Decimal.Nil) by discriminate;
        pose proof (DecimalFacts.nb_digits_unorm x N) as L;
        rewrite E in L; simpl in L; lia
    end.
Qed.

(** The first character of [str n]: a digit, and not ['0'] unless the
    numeral is ["0"]. *)
Lemma str_head (n : nat) :
  exists c r, str n = String c r /\ is_digit c = true
              /\ (r = "" \/ 1 <= code c - 48)%nat.
Proof.
  unfold str. pose proof (to_uint_normal n) as N.
  destruct (Nat.to_uint n) as [|d|d|d|d|d|d|d|d|d|d] eqn:E.
  - exfalso. symmetry in N. revert N. apply unorm_not_Nil.
  - symmetry in N. apply normal_leading_zero in N. subst d.
    eexists _, _. repeat split. now left.
  - eexists _, _. repeat split. right. apply Nat.le_refl.
  - eexists _, _. repeat split. right. cbv. lia.
  - eexists _, _. repeat split. right. cbv. lia.
  - eexists _, _. repeat split. right. cbv. lia.
  - eexists _, _. repeat split. right. cbv. lia.
  - eexists _, _. repeat split. right. cbv. lia.
  - eexists _, _. repeat split. right. cbv. lia.
  - eexists _, _. repeat split. right. cbv. lia.
  - eexists _, _. repeat split. right. cbv. lia.
Qed.

Lemma digit_not_sign (c : ascii) : is_digit c = true -> is_sign c = false.
Proof.
  intros H. apply is_digit_code in H. unfold is_sign.
  apply orb_false_iff; split; apply Ascii.eqb_neq; intros ->;
    cbv in H; lia.
Qed.

(** On the numeral of a natural number [zfill] only adds zeros in front. *)
Lemma zfill_str (w n : nat) :
  zfill w (str n) = zeros (w - String.length (str n)) ++ str n.
Proof.
  unfold zfill. destruct (Nat.leb w (String.length (str n))) eqn:L.
  - apply Nat.leb_le in L.
    now replace (w - String.length (str n))%nat with 0%nat by lia.
  - destruct (str_head n) as (c & r & E & D & _). rewrite E.
    now rewrite (digit_not_sign c D).
Qed.

Lemma int_zfill_str (w n : nat) : int (zfill w (str n)) = n.
Proof. now rewrite zfill_str, int_zeros, int_str. Qed.

Lemma zfill_str_inj (w n m : nat) :
  zfill w (str n) = zfill w (str m) -> n = m.
Proof.
  intros E. rewrite <- (int_zfill_str w n), <- (int_zfill_str w m).
  now rewrite E.
Qed.

Lemma zfill_str_digits (w n : nat) : forallb is_digit (zfill w (str n)) = true.
Proof.
  rewrite zfill_str, forallb_app, zeros_digits, str_digits. reflexivity.
Qed.

(** A number below [10 ^ k] is written with at most [k] characters. *)
Lemma length_str (n k : nat) :
  (0 < k)%nat -> (n < 10 ^ k)%nat -> (String.length (str n) <= k)%nat.
Proof.
  intros K B. destruct (str_head n) as (c & r & E & D & [->|H]).
  - rewrite E. simpl. lia.
  - pose proof (int_str n) as V. rewrite E in V |- *.
    unfold int in V. cbn [int_acc] in V. rewrite int_acc_shift in V.
    cbn [String.length].
    assert (P : (10 ^ String.length r < 10 ^ k)%nat) by nia.
    apply Nat.pow_lt_mono_r_iff in P; lia.
Qed.

Lemma length_zfill_str (n : nat) :
  (n < 10 ^ 5)%nat -> String.length (zfill 5 (str n)) = 5%nat.
Proof.
  intros B. rewrite zfill_str, length_app, length_zeros.
  pose proof (length_str n 5 ltac:(lia) B). lia.
Qed.

(** *** The five-digit form *)

Lemma pad5_five_digits (n : nat) : five_digits (pad5 n).
Proof.
  split; [reflexivity|]. unfold pad5. cbn [forallb].
  rewrite !digit_char_is_digit; trivial;
    apply Nat.mod_upper_bound; discriminate.
Qed.

Lemma int_pad5 (n : nat) : (n < 10 ^ 5)%nat -> int (pad5 n) = n.
Proof.
  intros B. unfold int, pad5. cbn [int_acc].
  rewrite !code_digit_char by (apply Nat.mod_upper_bound; discriminate).
  replace (10 ^ 5)%nat with (10 * (10 * (10 * (10 * 10))))%nat in B
    by reflexivity.
  pose proof (Nat.div_mod_eq n 10).
  pose proof (Nat.div_mod_eq (n / 10) 10).
  pose proof (Nat.div_mod_eq (n / 10 / 10) 10).
  pose proof (Nat.div_mod_eq (n / 10 / 10 / 10) 10).
  pose proof (Nat.div_mod_eq (n / 10 / 10 / 10 / 10) 10).
  pose proof (Nat.mod_upper_bound n 10 ltac:(discriminate)).
  pose proof (Nat.mod_upper_bound (n / 10) 10 ltac:(discriminate)).
  pose proof (Nat.mod_upper_bound (n / 10 / 10) 10 ltac:(discriminate)).
  pose proof (Nat.mod_upper_bound (n / 10 / 10 / 10) 10 ltac:(discriminate)).
  pose proof (Nat.mod_upper_bound (n / 10 / 10 / 10 / 10) 10
                ltac:(discriminate)).
  lia.
Qed.

(** Python's [str(n).zfill(5)] is the five-digit form of [n]. *)
Lemma zfill5_pad5 (n : nat) : (n < 10 ^ 5)%nat -> zfill 5 (str n) = pad5 n.
Proof.
  intros B. destruct (pad5_five_digits n) as [L D].
  apply int_inj.
  - now rewrite length_zfill_str, L.
  - apply zfill_str_digits.
  - exact D.
  - now rewrite int_zfill_str, int_pad5.
Qed.

Lemma format_05d_pad5 (n : nat) : (n < 10 ^ 5)%nat -> format_05d n = pad5 n.
Proof. apply zfill5_pad5. Qed.

Lemma five_digits_bound (t : string) : five_digits t -> (int t < 10 ^ 5)%nat.
Proof.
  intros [L D]. pose proof (int_bound t D) as B. now rewrite L in B.
Qed.

(** Five digits are the five-digit form of the number they denote. *)
Lemma pad5_int (t : string) : five_digits t -> pad5 (int t) = t.
Proof.
  intros F. pose proof (five_digits_bound t F) as B. destruct F as [L D].
  destruct (pad5_five_digits (int t)) as [L' D'].
  apply int_inj; trivial; [congruence | now apply int_pad5].
Qed.

Lemma pad5_inj (n m : nat) :
  (n < 10 ^ 5)%nat -> (m < 10 ^ 5)%nat -> pad5 n = pad5 m -> n = m.
Proof.
  intros Bn Bm E. rewrite <- (int_pad5 n Bn), <- (int_pad5 m Bm).
  now rewrite E.
Qed.

End NumeralFacts.

(** ** The regular expression *)

Module ReFacts.
Import PyStr PyStrFacts Spec NumeralFacts.

Lemma is_lf_line_feed (c : ascii) : Re.is_lf c = true <-> c = line_feed.
Proof.
  unfold Re.is_lf, code. split.
  - intros H. apply Nat.eqb_eq in H.
    rewrite <- (ascii_nat_embedding c), H. reflexivity.
  - intros ->. reflexivity.
Qed.

Lemma digit_not_lf (c : ascii) : is_digit c = true -> Re.is_lf c = false.
Proof.
  intros D. apply is_digit_code in D. unfold Re.is_lf.
  apply Nat.eqb_neq. lia.
Qed.

Lemma chomp_app (a b : string) :
  b <> "" -> Re.chomp (a ++ b) = a ++ Re.chomp b.
Proof.
  intros Hb. induction a as [|x a IH]; [reflexivity|].
  cbn [append Re.chomp]. destruct (a ++ b) eqn:E.
  - destruct a; [simpl in E; contradiction | discriminate].
  - now rewrite IH.
Qed.

Lemma chomp_cases (s : string) :
  Re.chomp s = s \/ s = Re.chomp s ++ String line_feed "".
Proof.
  induction s as [|a s IH]; [now left|].
  cbn [Re.chomp]. destruct s as [|b s].
  - destruct (Re.is_lf a) eqn:L; [right | now left].
    apply is_lf_line_feed in L. now subst.
  - destruct IH as [IH|IH]; [left | right].
    + now rewrite IH.
    + cbn [append]. now rewrite <- IH.
Qed.

Ltac explode s :=
  repeat (let c := fresh "c" in destruct s as [|c s]; try discriminate).

(** The matcher accepts exactly the stems of the multi-part shape, with
    the groups that shape determines. *)
Lemma match_parts_complete (stem base part total : string) :
  multipart_stem stem base part total ->
  Re.match_parts stem = Some (base, part, total).
Proof.
  intros (Hb & Hlf & [Lp Dp] & [Lt Dt] & Hs).
  explode part. explode total. clear Lp Lt.
  cbn [forallb] in Dp, Dt.
  assert (D5 : Re.is_lf c8 = false).
  { apply digit_not_lf.
    repeat (apply andb_true_iff in Dt as [? Dt]); assumption. }
  set (tail := String "-" (String c (String c0 (String c1 (String c2
                (String c3 ("-of-" ++ String c4 (String c5 (String c6
                  (String c7 (String c8 ""))))))))))).
  assert (C : Re.chomp stem = base ++ tail).
  { destruct Hs as [->| ->].
    - change (base ++ "-" ++ _) with (base ++ tail).
      rewrite chomp_app by discriminate. f_equal.
      unfold tail. cbn. now rewrite D5.
    - change ((base ++ "-" ++ _) ++ String line_feed "")
        with ((base ++ tail) ++ String line_feed "").
      rewrite app_assoc, chomp_app by discriminate. f_equal. }
  unfold Re.match_parts. rewrite C, length_app.
  change (String.length tail) with 15%nat.
  replace (String.length base + 15 - 15)%nat with (String.length base) by lia.
  rewrite take_app_length, drop_app_length, Hlf.
  assert (L : Nat.ltb 15 (String.length base + 15) = true).
  { apply Nat.ltb_lt. destruct base; [contradiction | simpl; lia]. }
  rewrite L. unfold tail. cbv -[is_digit andb]. rewrite Dp, Dt. reflexivity.
Qed.

Lemma slices15 (a0 a1 a2 a3 a4 a5 a6 a7 a8 a9 b0 b1 b2 b3 b4 : ascii) :
  let tail :=
    String a0 (String a1 (String a2 (String a3 (String a4 (String a5
      (String a6 (String a7 (String a8 (String a9 (String b0 (String b1
        (String b2 (String b3 (String b4 "")))))))))))))) in
  slice 0 1 tail = String a0 ""
  /\ slice 1 6 tail
     = String a1 (String a2 (String a3 (String a4 (String a5 ""))))
  /\ slice 6 10 tail = String a6 (String a7 (String a8 (String a9 "")))
  /\ slice 10 15 tail
     = String b0 (String b1 (String b2 (String b3 (String b4 "")))).
Proof. repeat split. Qed.

Lemma match_parts_sound (stem base part total : string) :
  Re.match_parts stem = Some (base, part, total) ->
  multipart_stem stem base part total.
Proof.
  unfold Re.match_parts.
  pose proof (chomp_cases stem) as C.
  remember (Re.chomp stem) as body eqn:Ebody.
  remember (String.length body) as n eqn:En.
  pose proof (take_drop (n - 15) body) as TD.
  pose proof (length_drop (n - 15) body) as LD.
  pose proof (length_take (n - 15) body) as LT.
  rewrite <- En in LD, LT.
  remember (take (n - 15) body) as b eqn:Eb.
  remember (drop (n - 15) body) as tail eqn:Et.
  destruct (Nat.ltb 15 n) eqn:L; [|discriminate]. apply Nat.ltb_lt in L.
  destruct (forallb (fun c => negb (Re.is_lf c)) b) eqn:NL; [|discriminate].
  replace (n - (n - 15))%nat with 15%nat in LD by lia.
  explode tail. clear LD.
  destruct (slices15 c c0 c1 c2 c3 c4 c5 c6 c7 c8 c9 c10 c11 c12 c13)
    as (S1 & S2 & S3 & S4).
  cbv zeta in S1, S2, S3, S4. rewrite S1, S2, S3, S4. cbn [andb].
  destruct (String.eqb_spec (String c "") "-") as [E0|]; [|discriminate].
  injection E0 as ->. cbn [andb].
  destruct (forallb is_digit (String c0 _)) eqn:Dp; [|discriminate].
  destruct (String.eqb_spec (String c5 (String c6 (String c7 (String c8 ""))))
              "-of-") as [Eof|]; [|discriminate].
  injection Eof as -> -> -> ->. cbn [andb].
  destruct (forallb is_digit (String c9 _)) eqn:Dt; [|discriminate].
  intros H. injection H as <- <- <-.
  repeat split; trivial.
  - intros E. rewrite E in LT. simpl in LT. lia.
  - destruct C as [C|C];
      [left; rewrite <- C | right; rewrite C at 1; f_equal];
      rewrite <- TD; reflexivity.
Qed.

Lemma match_parts_none (stem : string) :
  Re.match_parts stem = None <->
  ~ exists base part total, multipart_stem stem base part total.
Proof.
  split.
  - intros N (b & p & t & H). apply match_parts_complete in H. congruence.
  - intros N. destruct (Re.match_parts stem) as [[[b p] t]|] eqn:E; trivial.
    exfalso. apply N. exists b, p, t. now apply match_parts_sound.
Qed.

End ReFacts.

(** ** Paths and URLs *)

Module PathFacts.
Import PyStr PyStrFacts Urllib OsPath Planner.

(** The URL cut at its last slash. *)
Lemma base_url_of_split (url : string) :
  contains "/" url = true ->
  exists dir file,
    url = dir ++ "/" ++ file /\ contains "/" file = false
    /\ base_url_of url = dir.
Proof.
  intros C. unfold base_url_of. rewrite C.
  destruct (rfind_split "/" url C) as (dir & file & -> & F & R).
  exists dir, file. repeat split; trivial.
  rewrite R. apply upto_app_length.
Qed.

(** [splitext] cuts its argument in two; the extension is empty or starts
    at the last dot. *)
Lemma splitext_spec (s stem ext : string) :
  splitext s = (stem, ext) ->
  s = stem ++ ext
  /\ (ext = "" \/ exists e, ext = String "." e /\ contains "." e = false)
  /\ (contains "." s = false -> ext = "").
Proof.
  unfold splitext.
  destruct (_ && _) eqn:C; intros E; injection E as <- <-.
  - apply andb_true_iff in C as [C _]. apply Z.ltb_lt in C.
    pose proof (rfind_lower "/" s) as L.
    assert (P : contains "." s = true) by (apply rfind_present; lia).
    destruct (rfind_split "." s P) as (a & b & -> & B & R).
    rewrite R, upto_app_length, from_app_length.
    repeat split; [right; now exists b | rewrite P; discriminate].
  - rewrite app_nil_r. repeat split; trivial. now left.
Qed.

(** *** The last piece of a split path *)

Lemma split_not_nil (c : ascii) (s : string) : split c s <> [].
Proof.
  induction s as [|a s IH]; simpl; [discriminate|].
  destruct (Ascii.eqb a c); [discriminate|].
  destruct (split c s); discriminate.
Qed.

Lemma last_cons_not_nil {A} (x d : A) (l : list A) :
  l <> [] -> last (x :: l) d = last l d.
Proof. destruct l; [contradiction | reflexivity]. Qed.

Lemma split_absent (c : ascii) (s : string) :
  contains c s = false -> split c s = [s].
Proof.
  induction s as [|a s IH]; simpl; [reflexivity|].
  intros H. apply orb_false_iff in H as [Ha Hs].
  now rewrite Ha, (IH Hs).
Qed.

Lemma split_present (c : ascii) (s : string) :
  contains c s = true -> exists h x t, split c s = h :: x :: t.
Proof.
  induction s as [|a s IH]; simpl; [discriminate|].
  destruct (Ascii.eqb a c) eqn:E; simpl; intros H.
  - pose proof (split_not_nil c s) as N.
    destruct (split c s) as [|x t]; [contradiction|]. now exists "", x, t.
  - destruct (IH H) as (h & x & t & ->). now exists (String a h), x, t.
Qed.

(** The last piece of [s.split(c)] is what follows the last [c]. *)
Lemma last_split (c : ascii) (s : string) :
  last (split c s) "" = from (rfind c s + 1) s.
Proof.
  induction s as [|a s IH]; [reflexivity|].
  pose proof (rfind_lower c s) as L.
  cbn [split rfind].
  destruct (0 <=? rfind c s) eqn:R.
  - apply Z.leb_le in R.
    assert (P : contains c s = true) by now apply rfind_present.
    destruct (split_present c s P) as (h & x & t & E).
    assert (F : from (rfind c s + 1 + 1) (String a s)
                = from (rfind c s + 1) s).
    { unfold from.
      replace (Z.to_nat (rfind c s + 1 + 1))
        with (S (Z.to_nat (rfind c s + 1))) by lia.
      reflexivity. }
    rewrite F, <- IH, E. now destruct (Ascii.eqb a c).
  - apply Z.leb_gt in R. assert (A : rfind c s = -1) by lia.
    apply rfind_absent in A. rewrite (split_absent c s A).
    destruct (Ascii.eqb a c); reflexivity.
Qed.

Lemma basename_last_split (p : string) :
  basename p = last (split "/" p) "".
Proof. unfold basename. now rewrite last_split. Qed.

Lemma last_split_lstrip (c : ascii) (s : string) :
  last (split c (lstrip (fun a => Ascii.eqb a c) s)) ""
  = last (split c s) "".
Proof.
  induction s as [|a s IH]; [reflexivity|].
  cbn [lstrip split]. destruct (Ascii.eqb a c) eqn:E.
  - rewrite IH. symmetry. apply last_cons_not_nil, split_not_nil.
  - cbn [split]. now rewrite E.
Qed.

Lemma rstrip_id (s : string) :
  ends_with_slash s = false -> rstrip is_slash s = s.
Proof.
  induction s as [|a s IH]; [reflexivity|].
  cbn [ends_with_slash rstrip]. destruct s as [|b s].
  - intros E. cbn. unfold is_slash. now rewrite E.
  - intros E. rewrite (IH E). reflexivity.
Qed.

Lemma ends_with_slash_lstrip (s : string) :
  ends_with_slash s = false ->
  ends_with_slash (lstrip is_slash s) = false.
Proof.
  induction s as [|a s IH]; [reflexivity|].
  cbn [lstrip]. destruct (is_slash a) eqn:E; trivial.
  cbn [ends_with_slash]. destruct s as [|b s].
  - unfold is_slash in E. congruence.
  - exact IH.
Qed.

(** Without a trailing slash, the last of the segments the planner counts
    is the base name the planner takes as file name. *)
Lemma last_segment_basename (p : string) :
  ends_with_slash p = false ->
  last (path_segments p) "" = basename p.
Proof.
  intros E. unfold path_segments, strip.
  rewrite rstrip_id by now apply ends_with_slash_lstrip.
  rewrite basename_last_split. apply (last_split_lstrip "/").
Qed.

(** *** A host needs a slash *)

Lemma upto2_slashes (s : string) :
  String.eqb (upto 2 s) "//" = true -> contains "/" s = true.
Proof.
  intros E. apply String.eqb_eq in E.
  apply (contains_take "/" (Z.to_nat 2)). fold (upto 2 s). now rewrite E.
Qed.

Lemma urlsplit_netloc `{NetlocChecks} (url sch net u q f : string) :
  urlsplit url = Some (sch, net, u, q, f) ->
  net <> "" -> contains "/" url = true.
Proof.
  unfold urlsplit.
  set (url1 := filter _ (lstrip _ url)).
  assert (U1 : contains "/" url1 = true -> contains "/" url = true).
  { intros C. apply contains_filter in C. now apply contains_lstrip in C. }
  destruct (_ && _ && _) eqn:C1.
  - destruct (String.eqb (upto 2 (from (find ":" url1 + 1) url1)) "//")
      eqn:C2.
    + intros _ _. apply U1. apply upto2_slashes in C2.
      now apply contains_drop in C2.
    + cbn. repeat (match goal with
                   | |- context [if ?c then _ else _] => destruct c
                   end; unfold split_once; cbn);
        intros E; try discriminate; injection E; intros; subst;
        contradiction.
  - destruct (String.eqb (upto 2 url1) "//") eqn:C2.
    + intros _ _. apply U1. now apply upto2_slashes in C2.
    + cbn. repeat (match goal with
                   | |- context [if ?c then _ else _] => destruct c
                   end; unfold split_once; cbn);
        intros E; try discriminate; injection E; intros; subst;
        contradiction.
Qed.

Lemma parse_checked_slash `{NetlocChecks} (url : string) (p : ParseResult) :
  parse_checked url = Some p -> contains "/" url = true.
Proof.
  unfold parse_checked, urlparse.
  destruct (urlsplit url) as [[[[[sch net] u] q] f]|] eqn:E; [|discriminate].
  destruct (_ && _) eqn:C; destruct (_splitparams u); cbn;
    destruct (String.eqb sch ""); cbn; try discriminate;
    destruct (String.eqb_spec net ""); try discriminate;
    intros _; now apply (urlsplit_netloc url sch net u q f).
Qed.

End PathFacts.

(** ** The URL planner *)

Module PlannerProps.
Import PyStr PyStrFacts Urllib OsPath Planner Spec NumeralFacts ReFacts
       PathFacts.

(** What the planner computes once the URL has passed the two checks. *)
Lemma parse_valid `{NetlocChecks} (url : string) (p : ParseResult)
    (stem ext : string) :
  parse_checked url = Some p ->
  (2 <= List.length (path_segments (path p)))%nat ->
  splitext (basename (path p)) = (stem, ext) ->
  parse_huggingface_model_url url =
  let author := nth 0 (path_segments (path p)) "" in
  let model_repo := nth 1 (path_segments (path p)) "" in
  match Re.match_parts stem with
  | Some (base_name, _, total) =>
      ([],
       Some
         (List.map
            (fun i =>
               {| DownloadUrl :=
                    base_url_of url ++ "/"
                    ++ part_name base_name (int total) i ++ ext;
                  Author := author;
                  ModelRepo := model_repo;
                  ModelName := part_name base_name (int total) i;
                  Extension := ext |})
            (seq 1 (int total))))
  | None =>
      ([],
       Some
         [ {| DownloadUrl := url;
              Author := author;
              ModelRepo := model_repo;
              ModelName := stem;
              Extension := ext |} ])
  end.
Proof.
  intros P L E. unfold parse_huggingface_model_url. rewrite P.
  destruct (Nat.ltb_spec (List.length (path_segments (path p))) 2) as [C|_];
    [lia|].
  rewrite E. reflexivity.
Qed.

(** The name built by the loop body is the five-digit name. *)
Lemma part_name_multipart (base : string) (T i : nat) :
  (T < 10 ^ 5)%nat -> (i <= T)%nat ->
  part_name base T i = multipart_name base T i.
Proof.
  intros BT Bi. unfold part_name, multipart_name.
  rewrite zfill5_pad5 by lia. now rewrite format_05d_pad5.
Qed.

Lemma multipart_name_inj (base : string) (T i j : nat) :
  (i < 10 ^ 5)%nat -> (j < 10 ^ 5)%nat ->
  multipart_name base T i = multipart_name base T j -> i = j.
Proof.
  intros Bi Bj E. unfold multipart_name in E.
  apply app_inv_head in E. apply (app_inv_head "-") in E.
  apply (pad5_inj i j Bi Bj). revert E. apply app_eq_prefix.
  destruct (pad5_five_digits i) as [-> _].
  now destruct (pad5_five_digits j) as [-> _].
Qed.

Lemma multipart_names_NoDup (base : string) (T : nat) :
  (T < 10 ^ 5)%nat ->
  NoDup (List.map (multipart_name base T) (seq 1 T)).
Proof.
  intros BT. apply NoDup_map_NoDup_ForallPairs; [|apply seq_NoDup].
  intros i j Hi Hj E. apply in_seq in Hi, Hj.
  apply (multipart_name_inj base T); trivial; lia.
Qed.

(** C1: a valid URL whose file stem has the shape
    [<base>-<part>-of-<total>] is planned as the [T] parts [1..T] in
    ascending order, [T] being the number [total] denotes.  Part [i] is
    named [<base>-<i on five digits>-of-<T on five digits>]; its download
    URL is the input URL cut at its last slash, then a slash, the name and
    the extension; all parts carry the first path segment as author, the
    second as repository and the same extension; the names are pairwise
    distinct. *)
Theorem C1_multipart_plan `{NetlocChecks} (url : string) (p : ParseResult)
    (stem ext base part total : string) :
  parse_checked url = Some p ->
  (2 <= List.length (path_segments (path p)))%nat ->
  splitext (basename (path p)) = (stem, ext) ->
  multipart_stem stem base part total ->
  let T := int total in
  let author := nth 0 (path_segments (path p)) "" in
  let repo := nth 1 (path_segments (path p)) "" in
  exists dir file,
    url = dir ++ "/" ++ file
    /\ contains "/" file = false
    /\ plan url
       = Some (List.map (multipart_task dir author repo base T ext) (seq 1 T))
    /\ forall tasks, plan url = Some tasks ->
         List.length tasks = T
         /\ NoDup (List.map ModelName tasks)
         /\ forall m, In m tasks ->
              Author m = author /\ ModelRepo m = repo /\ Extension m = ext.
Proof.
  intros P L E M T author repo.
  destruct (base_url_of_split url (parse_checked_slash url p P))
    as (dir & file & U & F & B).
  assert (BT : (T < 10 ^ 5)%nat).
  { apply five_digits_bound. now destruct M as (_ & _ & _ & ? & _). }
  assert (R : plan url
              = Some (List.map (multipart_task dir author repo base T ext)
                               (seq 1 T))).
  { unfold plan. rewrite (parse_valid url p stem ext P L E).
    rewrite (match_parts_complete stem base part total M). cbn [snd].
    f_equal. apply map_ext_in. intros i Hi. apply in_seq in Hi.
    fold T. rewrite B, part_name_multipart by lia. reflexivity. }
  exists dir, file. split; [exact U|]. split; [exact F|]. split; [exact R|].
  intros tasks PT. rewrite R in PT. injection PT as <-.
  split; [now rewrite length_map, length_seq|]. split.
  - rewrite map_map. cbn [multipart_task ModelName].
    now apply multipart_names_NoDup.
  - intros m I. apply in_map_iff in I as (i & <- & _). now repeat split.
Qed.

(** The example of the specification:
    [https://host/alice/modelX/file-00002-of-00004.bin]. *)
Lemma C1_multipart_plan_witness :
  let url := "https://host/alice/modelX/file-00002-of-00004.bin" in
  let p := example_parse "/alice/modelX/file-00002-of-00004.bin" in
  @parse_checked lenient url = Some p
  /\ (2 <= List.length (path_segments (path p)))%nat
  /\ splitext (basename (path p)) = ("file-00002-of-00004", ".bin")
  /\ multipart_stem "file-00002-of-00004" "file" "00002" "00004"
  /\ exists dir file,
       url = dir ++ "/" ++ file
       /\ contains "/" file = false
       /\ @plan lenient url
          = Some (List.map (multipart_task dir "alice" "modelX" "file" 4 ".bin")
                           (seq 1 4))
       /\ forall tasks, @plan lenient url = Some tasks ->
            List.length tasks = 4%nat
            /\ NoDup (List.map ModelName tasks)
            /\ forall m, In m tasks ->
                 Author m = "alice" /\ ModelRepo m = "modelX"
                 /\ Extension m = ".bin".
Proof.
  intros url p.
  assert (M : multipart_stem "file-00002-of-00004" "file" "00002" "00004").
  { repeat split; try discriminate. now left. }
  split; [reflexivity|]. split; [cbv; lia|]. split; [reflexivity|].
  split; [exact M|].
  exact (@C1_multipart_plan lenient url p "file-00002-of-00004" ".bin"
           "file" "00002" "00004" eq_refl
           (le_S 2 2 (le_n 2)) eq_refl M).
Defined.

Lemma plan_single `{NetlocChecks} (url : string) (p : ParseResult)
    (stem ext : string) :
  parse_checked url = Some p ->
  (2 <= List.length (path_segments (path p)))%nat ->
  splitext (basename (path p)) = (stem, ext) ->
  (~ exists base part total, multipart_stem stem base part total) ->
  plan url
  = Some [ {| DownloadUrl := url;
              Author := nth 0 (path_segments (path p)) "";
              ModelRepo := nth 1 (path_segments (path p)) "";
              ModelName := stem;
              Extension := ext |} ].
Proof.
  intros P L E N. unfold plan. rewrite (parse_valid url p stem ext P L E).
  apply match_parts_none in N. now rewrite N.
Qed.

(** C2: a valid URL whose file stem does not have the multi-part shape is
    planned as one task: the download URL is the input URL unchanged, the
    name is the stem of the final path component, and the extension is what
    [splitext] cuts off, which is empty or starts with its dot (and is empty
    when the component has no dot). *)
Theorem C2_single_file_plan `{NetlocChecks} (url : string) (p : ParseResult)
    (stem ext : string) :
  parse_checked url = Some p ->
  (2 <= List.length (path_segments (path p)))%nat ->
  splitext (basename (path p)) = (stem, ext) ->
  (~ exists base part total, multipart_stem stem base part total) ->
  plan url
  = Some [ {| DownloadUrl := url;
              Author := nth 0 (path_segments (path p)) "";
              ModelRepo := nth 1 (path_segments (path p)) "";
              ModelName := stem;
              Extension := ext |} ]
  /\ basename (path p) = stem ++ ext
  /\ (ext = "" \/ exists e, ext = String "." e /\ contains "." e = false)
  /\ (contains "." (basename (path p)) = false -> ext = "").
Proof.
  intros P L E N. split.
  - now apply (plan_single url p).
  - now apply splitext_spec.
Qed.

(** The example of the specification:
    [https://host/alice/modelX/weights.bin]. *)
Lemma C2_single_file_plan_witness :
  let url := "https://host/alice/modelX/weights.bin" in
  let p := example_parse "/alice/modelX/weights.bin" in
  @parse_checked lenient url = Some p
  /\ (2 <= List.length (path_segments (path p)))%nat
  /\ splitext (basename (path p)) = ("weights", ".bin")
  /\ (~ exists base part total, multipart_stem "weights" base part total)
  /\ @plan lenient url
     = Some [ {| DownloadUrl := url; Author := "alice";
                 ModelRepo := "modelX"; ModelName := "weights";
                 Extension := ".bin" |} ]
  /\ basename (path p) = "weights" ++ ".bin".
Proof.
  intros url p.
  assert (N : ~ exists base part total,
                multipart_stem "weights" base part total).
  { apply match_parts_none. reflexivity. }
  split; [reflexivity|]. split; [cbv; lia|]. split; [reflexivity|].
  split; [exact N|].
  destruct (@C2_single_file_plan lenient url p "weights" ".bin" eq_refl
              (le_S 2 2 (le_n 2)) eq_refl N) as (R & B & _).
  split; [exact R | exact B].
Defined.

(** C9: a valid URL whose file stem has the multi-part shape with the total
    [00000] is planned as the empty list: the planner returns a list, not
    [None], and that list has no task (so it is not the single-file plan
    either). *)
Theorem C9_zero_total_empty_plan `{NetlocChecks} (url : string)
    (p : ParseResult) (stem ext base part : string) :
  parse_checked url = Some p ->
  (2 <= List.length (path_segments (path p)))%nat ->
  splitext (basename (path p)) = (stem, ext) ->
  multipart_stem stem base part "00000" ->
  parse_huggingface_model_url url = ([], Some []).
Proof.
  intros P L E M. rewrite (parse_valid url p stem ext P L E).
  now rewrite (match_parts_complete stem base part "00000" M).
Qed.

Lemma C9_zero_total_empty_plan_witness :
  let url := "https://host/alice/modelX/file-00001-of-00000.bin" in
  let p := example_parse "/alice/modelX/file-00001-of-00000.bin" in
  @parse_checked lenient url = Some p
  /\ (2 <= List.length (path_segments (path p)))%nat
  /\ splitext (basename (path p)) = ("file-00001-of-00000", ".bin")
  /\ multipart_stem "file-00001-of-00000" "file" "00001" "00000"
  /\ @parse_huggingface_model_url lenient url = ([], Some []).
Proof.
  intros url p.
  assert (M : multipart_stem "file-00001-of-00000" "file" "00001" "00000").
  { repeat split; try discriminate. now left. }
  split; [reflexivity|]. split; [cbv; lia|]. split; [reflexivity|].
  split; [exact M|].
  exact (@C9_zero_total_empty_plan lenient url p "file-00001-of-00000" ".bin"
           "file" "00001" eq_refl (le_S 2 2 (le_n 2)) eq_refl M).
Defined.

(** C3, as the code has it: the planner returns [None], and so no task at
    all, exactly when the URL is rejected ([urlparse] raises, or the scheme
    or the host is empty) or its path has fewer than two segments.  The two
    cases print different lines on the console, ["Invalid URL."] and
    ["URL structure is invalid."]; the value returned is [None] in both. *)
Theorem C3_parse_failures `{NetlocChecks} (url : string) :
  (plan url = None <->
     parse_checked url = None
     \/ exists p, parse_checked url = Some p
                  /\ (List.length (path_segments (path p)) < 2)%nat)
  /\ (parse_checked url = None <->
        urlparse url = None
        \/ exists p, urlparse url = Some p
                     /\ (scheme p = "" \/ netloc p = ""))
  /\ (parse_checked url = None ->
        parse_huggingface_model_url url = (["Invalid URL."], None))
  /\ (forall p, parse_checked url = Some p ->
        (List.length (path_segments (path p)) < 2)%nat ->
        parse_huggingface_model_url url
        = (["URL structure is invalid."], None)).
Proof.
  split; [|split; [|split]].
  - unfold plan, parse_huggingface_model_url.
    destruct (parse_checked url) as [p|]; [|split; auto].
    destruct (Nat.ltb_spec (List.length (path_segments (path p))) 2)
      as [C|C].
    + split; [intros _; right; now exists p | reflexivity].
    + destruct (splitext (basename (path p))) as [stem ext].
      destruct (Re.match_parts stem) as [[[b pt] t]|]; cbn [snd];
        (split; [discriminate|]);
        intros [D | (q & Q & L)]; try discriminate;
        injection Q as <-; lia.
  - unfold parse_checked. destruct (urlparse url) as [p|]; [|split; auto].
    destruct (String.eqb_spec (scheme p) ""); cbn [orb].
    + split; [intros _; right; exists p; auto | reflexivity].
    + destruct (String.eqb_spec (netloc p) "").
      * split; [intros _; right; exists p; auto | reflexivity].
      * split; [discriminate|].
        intros [D | (q & Q & [S|S])]; try discriminate;
          injection Q as <-; contradiction.
  - intros P. unfold parse_huggingface_model_url. now rewrite P.
  - intros p P L. unfold parse_huggingface_model_url. rewrite P.
    destruct (Nat.ltb_spec (List.length (path_segments (path p))) 2);
      [reflexivity | lia].
Qed.

(** A URL without scheme and a URL with a single path segment: both are
    answered by [None], so nothing computed from the returned value tells
    the two kinds of failure apart. *)
Lemma C3_failure_kinds_same_value :
  let no_scheme := "host/alice/modelX/weights.bin" in
  let one_segment := "https://host/alice" in
  @parse_checked lenient no_scheme = None
  /\ (exists p, @parse_checked lenient one_segment = Some p
                /\ (List.length (path_segments (path p)) < 2)%nat)
  /\ ~ exists kind : option (list ModelInfo) -> ParseError,
         kind (@plan lenient no_scheme) = InvalidUrl
         /\ kind (@plan lenient one_segment) = MalformedPath.
Proof.
  intros no_scheme one_segment. split; [reflexivity|]. split.
  - exists (example_parse "/alice"). split; [reflexivity | cbv; lia].
  - intros (kind & K1 & K2).
    change (@plan lenient one_segment) with (@plan lenient no_scheme) in K2.
    congruence.
Qed.

(** C10, as the code has it: a valid URL whose path has exactly two
    segments is never refused; when moreover the path has no trailing
    slash and the stem of the repository segment does not have the
    multi-part shape, the plan is one task named by that stem, with the
    extension of that segment and the input URL unchanged as download
    URL. *)
Theorem C10_two_segment_plan `{NetlocChecks} (url : string) (p : ParseResult)
    (author repo : string) :
  parse_checked url = Some p ->
  path_segments (path p) = [author; repo] ->
  (exists tasks, plan url = Some tasks)
  /\ (ends_with_slash (path p) = false ->
      (~ exists base part total,
           multipart_stem (fst (splitext repo)) base part total) ->
      plan url
      = Some [ {| DownloadUrl := url;
                  Author := author;
                  ModelRepo := repo;
                  ModelName := fst (splitext repo);
                  Extension := snd (splitext repo) |} ]).
Proof.
  intros P S.
  assert (L : (2 <= List.length (path_segments (path p)))%nat)
    by (rewrite S; simpl; lia).
  split.
  - destruct (splitext (basename (path p))) as [stem ext] eqn:E.
    unfold plan. rewrite (parse_valid url p stem ext P L E).
    destruct (Re.match_parts stem) as [[[b pt] t]|]; cbn; eauto.
  - intros T N.
    assert (B : basename (path p) = repo).
    { rewrite <- (last_segment_basename (path p) T), S. reflexivity. }
    destruct (splitext repo) as [stem ext] eqn:E. rewrite <- B in E.
    rewrite (plan_single url p stem ext P L E N), S. reflexivity.
Qed.

Lemma C10_two_segment_plan_witness :
  let url := "https://host/alice/modelX.v2" in
  let p := example_parse "/alice/modelX.v2" in
  @parse_checked lenient url = Some p
  /\ path_segments (path p) = ["alice"; "modelX.v2"]
  /\ ends_with_slash (path p) = false
  /\ (~ exists base part total,
          multipart_stem (fst (splitext "modelX.v2")) base part total)
  /\ (exists tasks, @plan lenient url = Some tasks)
  /\ @plan lenient url
     = Some [ {| DownloadUrl := url; Author := "alice";
                 ModelRepo := "modelX.v2"; ModelName := "modelX";
                 Extension := ".v2" |} ].
Proof.
  intros url p.
  assert (N : ~ exists base part total,
                multipart_stem (fst (splitext "modelX.v2")) base part total).
  { apply match_parts_none. reflexivity. }
  split; [reflexivity|]. split; [reflexivity|]. split; [reflexivity|].
  split; [exact N|].
  destruct (@C10_two_segment_plan lenient url p "alice" "modelX.v2"
              eq_refl eq_refl) as [S R].
  split; [exact S | exact (R eq_refl N)].
Defined.

(** Two valid URLs with exactly two path segments whose plan is not the one
    task named after the repository segment: a repository segment of the
    multi-part shape is expanded into its parts, and after a trailing slash
    the file name is empty. *)
Lemma C10_repo_segment_not_always_the_name :
  (let url := "https://host/alice/pack-00001-of-00002" in
   exists p, @parse_checked lenient url = Some p
     /\ path_segments (path p) = ["alice"; "pack-00001-of-00002"]
     /\ List.map ModelName (models_of_plan (@plan lenient url))
        = ["pack-00001-of-00002"; "pack-00002-of-00002"]
     /\ ~ exists m, @plan lenient url = Some [m])
  /\ (let url := "https://host/alice/modelX/" in
      exists p, @parse_checked lenient url = Some p
        /\ path_segments (path p) = ["alice"; "modelX"]
        /\ fst (splitext "modelX") = "modelX"
        /\ List.map ModelName (models_of_plan (@plan lenient url)) = [""]).
Proof.
  split.
  - exists (example_parse "/alice/pack-00001-of-00002").
    repeat split. intros (m & E). vm_compute in E. discriminate E.
  - exists (example_parse "/alice/modelX/"). repeat split.
Qed.

End PlannerProps.

(** ** The download orchestrator *)

Module OrchestratorProps.
Import PyStr Orchestrator.

Section Run.

Variable inst : Install.
Variable sessions : Z.
Variable download_directory : string.
Variable script : nat -> TaskScript.

Abbreviation download_one :=
  (download_one inst sessions download_directory).
Abbreviation for_models :=
  (for_models inst sessions download_directory script).
Abbreviation start_actions :=
  (start_actions inst sessions download_directory).
Abbreviation stretch_actions :=
  (stretch_actions inst sessions download_directory).

Ltac norm_lists :=
  repeat first [rewrite <- app_assoc | progress cbn [List.app]].

Ltac run_step :=
  unfold bind, ret, is_set, user, clear, set_process, set_downloading_state,
    with_app, put, act; cbn.

(** *** The poll loop *)

Lemma poll_loop_undisturbed (h : Handle) (t : bool) (ps : list Poll)
    (w : World) :
  stop_event (app w) = false ->
  Forall no_stop ps ->
  poll_loop h t ps w
  = (tt, {| app := app w;
            log_queue := log_queue w ++ forwarded ps;
            actions := actions w |}).
Proof.
  revert w. induction ps as [|p ps IH]; intros [[d pr st] lg ac] S F;
    cbn in S; subst st.
  - cbn. now rewrite app_nil_r.
  - inversion F as [|? ? Hp Hps]; subst. cbn [poll_loop forwarded flat_map].
    destruct (String.eqb (readline p) ""); run_step; rewrite Hp; cbn;
      rewrite IH by trivial; cbn; now rewrite <- ?app_assoc.
Qed.

Lemma poll_loop_stop (h : Handle) (t : bool) (before after : list Poll)
    (p : Poll) (w : World) :
  stop_event (app w) = false ->
  Forall no_stop before ->
  stop_pressed p = true ->
  poll_loop h t (before ++ p :: after) w
  = (tt, {| app := {| downloading := downloading (app w);
                      aria2c_process := aria2c_process (app w);
                      stop_event := true |};
            log_queue := log_queue w ++ forwarded (before ++ [p])
                         ++ stop_log t;
            actions := actions w ++ stop_actions h t |}).
Proof.
  revert w. induction before as [|q before IH]; intros [[d pr st] lg ac] S F P;
    cbn in S; subst st.
  - cbn [List.app poll_loop forwarded flat_map].
    destruct (String.eqb (readline p) ""); run_step; rewrite P; cbn;
      unfold stop_process; run_step; destruct t; run_step;
      now rewrite <- ?app_assoc.
  - inversion F as [|? ? Hq Hb]; subst.
    cbn [List.app poll_loop forwarded flat_map].
    destruct (String.eqb (readline q) ""); run_step; rewrite Hq; cbn;
      rewrite IH by trivial; cbn; now rewrite <- ?app_assoc.
Qed.

(** *** One task *)

(** Either STOP is never pressed during the loop, or there is a first
    iteration in which it has been. *)
Lemma polls_cases (ps : list Poll) :
  Forall no_stop ps
  \/ exists before p after,
       ps = (before ++ p :: after)%list /\ Forall no_stop before
       /\ stop_pressed p = true.
Proof.
  induction ps as [|q ps IH]; [now left|].
  destruct (stop_pressed q) eqn:Q.
  - right. now exists [], q, ps.
  - destruct IH as [IH | (before & p & after & -> & F & P)].
    + left. now constructor.
    + right. exists (q :: before), p, after. repeat split; trivial.
      now constructor.
Qed.

(** The stop event found set at the top of the loop body (STOP pressed
    before the task starts): nothing is spawned, the loop is left, and the
    stop event stays set. *)
Lemma download_one_cancelled (h : Handle) (model : ModelInfo)
    (sc : TaskScript) (w : World) :
  stop_event (app w) || stop_before_start sc = true ->
  download_one h model sc w
  = (false, {| app := {| downloading := downloading (app w);
                         aria2c_process := aria2c_process (app w);
                         stop_event := true |};
               log_queue := log_queue w ++ [MsgCancelled (ModelName model)];
               actions := actions w |}).
Proof.
  intros B. destruct w as [[d pr st] lg ac]. cbn in B.
  unfold Orchestrator.download_one. run_step. rewrite B. reflexivity.
Qed.

(** STOP never pressed: the task runs to its end and the loop goes on. *)
Lemma download_one_undisturbed (h : Handle) (model : ModelInfo)
    (sc : TaskScript) (w : World) :
  stop_event (app w) = false ->
  undisturbed sc ->
  download_one h model sc w
  = (true, {| app := {| downloading := downloading (app w);
                        aria2c_process := None;
                        stop_event := false |};
              log_queue := log_queue w ++ task_log model sc;
              actions := actions w ++ start_actions h model |}).
Proof.
  intros S (U1 & U2 & U3). destruct w as [[d pr st] lg ac].
  cbn in S; subst st.
  unfold Orchestrator.download_one, task_log, outcome. run_step.
  rewrite U1. cbn. rewrite poll_loop_undisturbed by trivial. cbn.
  rewrite U3. cbn.
  destruct (returncode sc =? 0); cbn; unfold Orchestrator.start_actions;
    now rewrite <- !app_assoc.
Qed.

(** STOP seen inside the poll loop: the process is stopped, the stop event
    cleared, the loop left. *)
Lemma download_one_stopped (h : Handle) (model : ModelInfo)
    (sc : TaskScript) (before after : list Poll) (p : Poll) (w : World) :
  stop_event (app w) = false ->
  stop_before_start sc = false ->
  polls sc = (before ++ p :: after)%list ->
  Forall no_stop before ->
  stop_pressed p = true ->
  download_one h model sc w
  = (false, {| app := {| downloading := downloading (app w);
                         aria2c_process := Some h;
                         stop_event := false |};
               log_queue := log_queue w
                            ++ MsgRunning (ModelName model)
                               :: forwarded (before ++ [p])
                            ++ stop_log (wait_times_out sc);
               actions := actions w ++ start_actions h model
                          ++ stop_actions h (wait_times_out sc) |}).
Proof.
  intros S B E F P. destruct w as [[d pr st] lg ac]. cbn in S; subst st.
  unfold Orchestrator.download_one. run_step.
  rewrite B, E. cbn. rewrite poll_loop_stop by trivial. cbn.
  unfold Orchestrator.start_actions. now rewrite <- !app_assoc.
Qed.

(** STOP pressed after the last look of the poll loop, the process having
    exited by itself: no signal is sent, the stop event is cleared and the
    loop left. *)
Lemma download_one_stopped_late (h : Handle) (model : ModelInfo)
    (sc : TaskScript) (w : World) :
  stop_event (app w) = false ->
  stop_before_start sc = false ->
  Forall no_stop (polls sc) ->
  stop_after_loop sc = true ->
  download_one h model sc w
  = (false, {| app := {| downloading := downloading (app w);
                         aria2c_process := Some h;
                         stop_event := false |};
               log_queue := log_queue w
                            ++ MsgRunning (ModelName model)
                               :: forwarded (polls sc);
               actions := actions w ++ start_actions h model |}).
Proof.
  intros S B F L. destruct w as [[d pr st] lg ac]. cbn in S; subst st.
  unfold Orchestrator.download_one. run_step.
  rewrite B. cbn. rewrite poll_loop_undisturbed by trivial. cbn.
  rewrite L. cbn.
  unfold Orchestrator.start_actions. now rewrite <- !app_assoc.
Qed.


Lemma download_one_continues (h : Handle) (model : ModelInfo)
    (sc : TaskScript) (w w' : World) :
  download_one h model sc w = (true, w') -> stop_event (app w') = false.
Proof.
  destruct (stop_event (app w) || stop_before_start sc) eqn:B.
  - rewrite download_one_cancelled by trivial. discriminate.
  - apply orb_false_iff in B as [S B].
    destruct (polls_cases (polls sc))
      as [F | (before & p & after & E & F & P)].
    + destruct (stop_after_loop sc) eqn:A.
      * rewrite download_one_stopped_late by trivial. discriminate.
      * rewrite download_one_undisturbed by (trivial; now repeat split).
        intros [= <-]. reflexivity.
    + rewrite (download_one_stopped h model sc before after p) by trivial.
      discriminate.
Qed.


(** *** The loop over the plan *)


Lemma process_after_None (models : list ModelInfo) :
  process_after models None = None.
Proof. now destruct models. Qed.

(** A stretch of the plan during which STOP is not pressed. *)
Lemma for_models_stretch (done rest : list ModelInfo) (index : nat)
    (w : World) :
  stop_event (app w) = false ->
  (forall j, (index <= j < index + List.length done)%nat ->
             undisturbed (script j)) ->
  for_models index (done ++ rest) w
  = for_models (index + List.length done) rest
      {| app := {| downloading := downloading (app w);
                   aria2c_process :=
                     process_after done (aria2c_process (app w));
                   stop_event := false |};
         log_queue := log_queue w ++ stretch_log script index done;
         actions := actions w ++ stretch_actions index done |}.
Proof.
  revert index w. induction done as [|model done IH]; intros index w Hs U.
  - destruct w as [[d pr st] lg ac]. cbn in Hs; subst st. cbn.
    now rewrite Nat.add_0_r, !app_nil_r.
  - cbn [List.app Orchestrator.for_models]. unfold bind.
    rewrite download_one_undisturbed by (trivial; apply U; simpl; lia).
    rewrite IH by (trivial; intros j J; apply U; simpl; lia).
    cbn [log_queue actions Orchestrator.app downloading aria2c_process
         stop_event stretch_log Orchestrator.stretch_actions List.length].
    rewrite process_after_None, <- !app_assoc, <- plus_n_Sm.
    reflexivity.
Qed.


(** *** What the actions of a run contain *)

Lemma spawned_app (l1 l2 : list Action) :
  spawned (l1 ++ l2) = (spawned l1 ++ spawned l2)%list.
Proof. apply flat_map_app. Qed.

Lemma signals_to_app (h : Handle) (l1 l2 : list Action) :
  signals_to h (l1 ++ l2) = (signals_to h l1 ++ signals_to h l2)%list.
Proof. apply filter_app. Qed.

Lemma spawned_stretch (models : list ModelInfo) (index : nat) :
  spawned (stretch_actions index models) = seq index (List.length models).
Proof.
  revert index. induction models as [|m models IH]; intros index;
    [reflexivity|].
  cbn. now rewrite IH.
Qed.

Lemma signals_to_stretch (h : Handle) (models : list ModelInfo)
    (index : nat) :
  signals_to h (stretch_actions index models) = [].
Proof.
  revert index. induction models as [|m models IH]; intros index;
    [reflexivity|].
  cbn. apply IH.
Qed.

Lemma signals_to_stop (h : Handle) (t : bool) :
  signals_to h (stop_actions h t) = stop_actions h t.
Proof. destruct t; cbn; now rewrite Nat.eqb_refl. Qed.


(** *** A whole run *)

(** With the tool in place, a plan and a destination, the run is the loop
    followed by the closing message. *)
Lemma run_loop (models : list ModelInfo) (w : World) :
  aria2c_exists inst = true ->
  models <> [] ->
  download_directory <> "" ->
  run inst (Some models) download_directory sessions script w
  = snd ((for_models 0 models ;; put MsgEnd ;; set_downloading_state false)
           w).
Proof.
  intros T N D. unfold run, download_in_thread. rewrite T. cbn [negb].
  destruct models as [|m models]; [contradiction|]. cbn [no_models].
  destruct (String.eqb_spec download_directory ""); [contradiction|].
  reflexivity.
Qed.

Lemma run_loop_fields (models : list ModelInfo) (w : World) :
  aria2c_exists inst = true ->
  models <> [] ->
  download_directory <> "" ->
  let w1 := snd (for_models 0 models w) in
  let w' := run inst (Some models) download_directory sessions script w in
  log_queue w' = (log_queue w1 ++ [MsgEnd])%list
  /\ actions w' = actions w1
  /\ downloading (app w') = false
  /\ aria2c_process (app w') = aria2c_process (app w1)
  /\ stop_event (app w') = stop_event (app w1).
Proof.
  intros T N D w1 w'. unfold w'. rewrite run_loop by trivial.
  unfold bind. fold w1. destruct (for_models 0 models w) as [u w2].
  cbn in w1. subst w1. repeat split.
Qed.

(** *** The claims about a run *)

(** C5: when the downloader binary is missing, or the plan is empty (or
    there is none), or the destination is empty, the run performs no action
    at all (no process is spawned), puts exactly one message on the queue
    and resets the downloading flag; the message is the one of the first
    failing check, in the order binary, plan, destination. *)
Theorem C5_precondition_failure (model_info_array : option (list ModelInfo))
    (w : World) :
  aria2c_exists inst = false \/ no_models model_info_array = true
  \/ download_directory = "" ->
  let w' :=
    run inst model_info_array download_directory sessions script w in
  actions w' = actions w
  /\ log_queue w'
     = (log_queue w
        ++ [ if negb (aria2c_exists inst) then MsgToolMissing
             else if no_models model_info_array then MsgNoModelInfo
             else MsgNoDirectory ])%list
  /\ downloading (app w') = false
  /\ aria2c_process (app w') = aria2c_process (app w)
  /\ stop_event (app w') = stop_event (app w).
Proof.
  intros H. unfold run, download_in_thread.
  destruct (aria2c_exists inst); cbn [negb]; [|now repeat split].
  destruct (no_models model_info_array); [now repeat split|].
  destruct H as [H|[H|H]]; try discriminate. subst download_directory.
  now repeat split.
Qed.

(** C4: in a run over [done ++ model :: rest], with STOP not pressed while
    the tasks of [done] are downloaded, let STOP be pressed while the
    process of [model] (the process [k]) is being polled, so that some
    iteration of its poll loop finds the stop event set.  Then that process
    is asked to terminate, waited for with a timeout of 5 seconds and killed
    exactly when the wait times out; the processes spawned in the whole run
    are [0..k], none for the tasks of [rest]; and the run ends: the closing
    message is put, the downloading flag reset and the stop event
    cleared. *)
Theorem C4_stop_while_streaming (done rest : list ModelInfo)
    (model : ModelInfo) (before after : list Poll) (p : Poll) (a : App) :
  let k := List.length done in
  aria2c_exists inst = true ->
  download_directory <> "" ->
  (forall j, (j < k)%nat -> undisturbed (script j)) ->
  stop_before_start (script k) = false ->
  polls (script k) = (before ++ p :: after)%list ->
  Forall no_stop before ->
  stop_pressed p = true ->
  let times_out := wait_times_out (script k) in
  let w' :=
    run inst (Some (done ++ model :: rest)%list) download_directory sessions
      script (started_from a) in
  actions w'
  = (stretch_actions 0 done ++ start_actions k model
     ++ [Terminate k; Wait k 5] ++ (if times_out then [Kill k] else []))%list
  /\ signals_to k (actions w')
     = ([Terminate k; Wait k 5] ++ (if times_out then [Kill k] else []))%list
  /\ spawned (actions w') = seq 0 (S k)
  /\ (forall j, In j (spawned (actions w')) -> (j <= k)%nat)
  /\ log_queue w'
     = (stretch_log script 0 done
        ++ MsgRunning (ModelName model) :: forwarded (before ++ [p])
        ++ stop_log times_out ++ [MsgEnd])%list
  /\ downloading (app w') = false
  /\ stop_event (app w') = false.
Proof.
  intros k T D U B E F P times_out w'.
  assert (N : (done ++ model :: rest)%list <> []) by now destruct done.
  destruct (run_loop_fields (done ++ model :: rest) (started_from a) T N D)
    as (HL & HA & HD & _ & HS).
  fold w' in HL, HA, HD, HS.
  rewrite (for_models_stretch done (model :: rest) 0 (started_from a))
    in HL, HA, HS by (trivial; intros j J; apply U; fold k; lia).
  cbn [Nat.add Orchestrator.for_models] in HL, HA, HS. fold k in HL, HA, HS.
  unfold bind in HL, HA, HS.
  rewrite (download_one_stopped k model (script k) before after p)
    in HL, HA, HS by trivial.
  unfold ret in HL, HA, HS.
  cbn [log_queue actions Orchestrator.app downloading aria2c_process
       stop_event started_from List.app snd] in HL, HA, HS.
  fold times_out in HL, HA.
  assert (A : actions w'
              = (stretch_actions 0 done ++ start_actions k model
                 ++ stop_actions k times_out)%list) by exact HA.
  assert (Sp : spawned (actions w') = seq 0 (S k)).
  { rewrite A, !spawned_app, spawned_stretch, seq_S. fold k.
    destruct times_out; reflexivity. }
  split; [exact A|]. split; [|split; [exact Sp|split; [|split; [|split]]]].
  - rewrite A, !signals_to_app, signals_to_stretch, signals_to_stop.
    reflexivity.
  - intros j J. rewrite Sp in J. apply in_seq in J. lia.
  - rewrite HL. norm_lists. reflexivity.
  - exact HD.
  - exact HS.
Qed.


End Run.

(** *** The scenario *)

Lemma example_plan_planned :
  @plan lenient "https://host/alice/modelX/file-00001-of-00003.bin"
  = Some example_plan.
Proof. vm_compute. reflexivity. Qed.

Lemma second_task_undisturbed_before (sc : TaskScript) (j : nat) :
  (j < 1)%nat -> undisturbed (second_task sc j).
Proof.
  intros J. replace j with 0%nat by lia.
  split; [reflexivity|]. split; [|reflexivity].
  apply Forall_cons; [reflexivity | apply Forall_nil].
Defined.

(** The binary is missing: one message, no action, downloading reset. *)
Lemma C5_precondition_failure_witness :
  let inst := {| aria2c_path := aria2c_path example_install;
                 aria2c_exists := false |} in
  let w' :=
    run inst (Some example_plan) "/downloads" 2 (fun _ => calm)
      (started_from idle) in
  (aria2c_exists inst = false \/ no_models (Some example_plan) = true
   \/ "/downloads" = "")
  /\ actions w' = []
  /\ log_queue w' = [MsgToolMissing]
  /\ downloading (app w') = false.
Proof.
  intros inst w'.
  assert (H : aria2c_exists inst = false
              \/ no_models (Some example_plan) = true \/ "/downloads" = "")
    by (left; reflexivity).
  split; [exact H|].
  destruct (C5_precondition_failure inst 2 "/downloads" (fun _ => calm)
              (Some example_plan) (started_from idle) H)
    as (A & L & D & _).
  split; [exact A|]. split; [exact L | exact D].
Defined.

(** Three parts; STOP is pressed while the second is being downloaded. *)
Lemma C4_stop_while_streaming_witness :
  let script := second_task stop_in_loop in
  let w' :=
    run example_install (Some example_plan) "/downloads" 2 script
      (started_from idle) in
  aria2c_exists example_install = true
  /\ (forall j, (j < 1)%nat -> undisturbed (script j))
  /\ stop_before_start (script 1%nat) = false
  /\ signals_to 1 (actions w') = [Terminate 1; Wait 1 5; Kill 1]
  /\ spawned (actions w') = [0; 1]%nat
  /\ (forall j, In j (spawned (actions w')) -> (j <= 1)%nat)
  /\ downloading (app w') = false
  /\ stop_event (app w') = false.
Proof.
  intros script w'.
  assert (D : "/downloads" <> "") by discriminate.
  pose proof (second_task_undisturbed_before stop_in_loop) as U.
  assert (F : Forall no_stop
                [ {| readline := line "[#1 3%]"; stop_pressed := false |} ])
    by (apply Forall_cons; [reflexivity | apply Forall_nil]).
  split; [reflexivity|]. split; [exact U|]. split; [reflexivity|].
  destruct (C4_stop_while_streaming example_install 2 "/downloads" script
              [example_model 1] [example_model 3] (example_model 2)
              [ {| readline := line "[#1 3%]"; stop_pressed := false |} ]
              [ {| readline := line "[#1 9%]"; stop_pressed := false |} ]
              {| readline := line "[#1 7%]"; stop_pressed := true |}
              idle eq_refl D U eq_refl eq_refl F eq_refl)
    as (_ & Sg & Sp & Le & _ & Dn & St).
  split; [exact Sg|]. split; [exact Sp|]. split; [exact Le|].
  split; [exact Dn | exact St].
Defined.


(** C7, where the code departs from it: STOP pressed between the end of the
    first download and the check that opens the second one.  The worker
    logs the cancellation and leaves the loop; the stop event is still set
    when the run has ended.  (A stop seen after the process was spawned is
    cleared, see [download_one_stopped] and [download_one_stopped_late].) *)
Lemma C7_stop_event_left_set :
  let w' :=
    run example_install (Some example_plan) "/downloads" 2
      (second_task stop_at_start) (started_from idle) in
  log_queue w'
  = [ MsgRunning "file-00001-of-00003"; MsgOutput "[#1 100%]";
      MsgFinished "file-00001-of-00003";
      MsgCancelled "file-00002-of-00003"; MsgEnd ]
  /\ spawned (actions w') = [0%nat]
  /\ downloading (app w') = false
  /\ stop_event (app w') = true.
Proof. vm_compute. repeat split. Qed.

(** C4, where the claim as worded fails.  STOP is pressed while the second
    process is streaming, during the sleep that ends an iteration of its
    poll loop, and the process exits before [poll()] is called again: no
    iteration finds the stop event set, the check after the loop does.  The
    process is sent no termination request, is not waited for and not
    killed; the third task is not started all the same, and the run
    ends. *)
Lemma C4_stop_during_sleep_no_signal :
  let script := second_task Runs.stop_after_exit in
  let w' :=
    run example_install (Some example_plan) "/downloads" 2 script
      (started_from idle) in
  stop_before_start (script 1%nat) = false
  /\ polls (script 1%nat) <> []
  /\ stop_after_loop (script 1%nat) = true
  /\ signals_to 1 (actions w') = []
  /\ Runs.signals (actions w') = []
  /\ spawned (actions w') = [0; 1]%nat
  /\ downloading (app w') = false
  /\ stop_event (app w') = false.
Proof.
  vm_compute. repeat split. discriminate.
Qed.

(** C8, where the code departs from it: after a stop seen while the second
    process is polled, the run ends with the handle of that process still
    stored.  (A task that runs to its end releases it, see
    [download_one_undisturbed].) *)
Lemma C8_process_handle_left_set :
  let w' :=
    run example_install (Some example_plan) "/downloads" 2
      (second_task stop_in_loop) (started_from idle) in
  signals_to 1 (actions w') = [Terminate 1; Wait 1 5; Kill 1]
  /\ downloading (app w') = false
  /\ aria2c_process (app w') = Some 1%nat.
Proof. vm_compute. repeat split. Qed.

End OrchestratorProps.

(** ** More about the download orchestrator *)

Module OrchestratorMore.
Import PyStr Orchestrator Runs OrchestratorProps.

Ltac norm_lists :=
  repeat first [rewrite <- app_assoc | progress cbn [List.app]].

Section Run.

Variable inst : Install.
Variable sessions : Z.
Variable download_directory : string.
Variable script : nat -> TaskScript.

Abbreviation download_one :=
  (download_one inst sessions download_directory).
Abbreviation for_models :=
  (for_models inst sessions download_directory script).
Abbreviation start_actions :=
  (start_actions inst sessions download_directory).
Abbreviation stretch_actions :=
  (stretch_actions inst sessions download_directory).
Abbreviation run := (run inst).

Lemma signals_app (l1 l2 : list Action) :
  signals (l1 ++ l2) = (signals l1 ++ signals l2)%list.
Proof. apply filter_app. Qed.

Lemma signals_stretch (models : list ModelInfo) (index : nat) :
  signals (stretch_actions index models) = [].
Proof.
  revert index. induction models as [|m models IH]; intros index;
    [reflexivity | apply IH].
Qed.


Lemma spawned_stop (h : Handle) (t : bool) : spawned (stop_actions h t) = [].
Proof. now destruct t. Qed.

Lemma download_one_fate (h : Handle) (model : ModelInfo) (sc : TaskScript)
    (w : World) :
  Fate inst sessions download_directory h model sc w
    (download_one h model sc w).
Proof.
  destruct (stop_event (app w) || stop_before_start sc) eqn:B.
  - rewrite download_one_cancelled by trivial. now constructor.
  - apply orb_false_iff in B as [Hs B].
    destruct (polls_cases (polls sc))
      as [F | (before & p & after & E & F & P)].
    + destruct (stop_after_loop sc) eqn:A.
      * rewrite download_one_stopped_late by trivial. now constructor.
      * rewrite download_one_undisturbed by (trivial; now repeat split).
        constructor; trivial. now repeat split.
    + rewrite (download_one_stopped inst sessions download_directory
                 h model sc before after p) by trivial.
      now apply (Stopped inst sessions download_directory h model sc w
                   before after p).
Qed.



Lemma forwarded_quiet (ps : list Poll) : Forall quiet (forwarded ps).
Proof.
  induction ps as [|p ps IH]; [constructor|].
  cbn. destruct (String.eqb (readline p) ""); cbn; trivial.
  now constructor.
Qed.

Lemma task_log_quiet (model : ModelInfo) (sc : TaskScript) :
  Forall quiet (task_log model sc).
Proof.
  unfold task_log. constructor; [reflexivity|].
  apply Forall_app. split; [apply forwarded_quiet|].
  constructor; [|constructor]. unfold outcome.
  now destruct (returncode sc =? 0).
Qed.

Lemma stop_log_quiet (t : bool) : Forall quiet (stop_log t).
Proof. destruct t; repeat constructor. Qed.





(** X6.  STOP pressed when the process of a task has already exited by
    itself (no iteration of the poll loop saw the stop event, the check
    after the loop does): the process gets no signal, the task gets neither
    its success nor its error message whatever the exit code, the following
    tasks are not started, and the stop event is cleared. *)
Theorem run_stopped_after_exit (done rest : list ModelInfo)
    (model : ModelInfo) (a : App) :
  let k := List.length done in
  aria2c_exists inst = true ->
  download_directory <> "" ->
  never_stopped script k ->
  stop_before_start (script k) = false ->
  Forall no_stop (polls (script k)) ->
  stop_after_loop (script k) = true ->
  let w' :=
    run (Some (done ++ model :: rest)%list) download_directory sessions
      script (started_from a) in
  log_queue w'
  = (stretch_log script 0 done
     ++ MsgRunning (ModelName model) :: forwarded (polls (script k))
     ++ [MsgEnd])%list
  /\ actions w' = (stretch_actions 0 done ++ start_actions k model)%list
  /\ spawned (actions w') = seq 0 (S k)
  /\ signals (actions w') = []
  /\ downloading (app w') = false
  /\ stop_event (app w') = false.
Proof.
  intros k T D U B F A w'.
  assert (N : (done ++ model :: rest)%list <> []) by now destruct done.
  destruct (run_loop_fields inst sessions download_directory script
              (done ++ model :: rest) (started_from a) T N D)
    as (HL & HA & HD & _ & HS).
  fold w' in HL, HA, HD, HS.
  rewrite (for_models_stretch inst sessions download_directory script
             done (model :: rest) 0 (started_from a)) in HL, HA, HS
    by (trivial; intros j J; apply U; fold k; lia).
  cbn [Nat.add Orchestrator.for_models] in HL, HA, HS. fold k in HL, HA, HS.
  unfold bind in HL, HA, HS.
  rewrite download_one_stopped_late in HL, HA, HS by trivial.
  unfold ret in HL, HA, HS.
  cbn [log_queue actions Orchestrator.app downloading aria2c_process
       stop_event started_from List.app snd] in HL, HA, HS.
  assert (Ac : actions w'
               = (stretch_actions 0 done ++ start_actions k model)%list)
    by exact HA.
  split; [rewrite HL; norm_lists; reflexivity|]. split; [exact Ac|].
  split; [rewrite Ac, spawned_app, spawned_stretch, seq_S; reflexivity|].
  split; [rewrite Ac, signals_app, signals_stretch; reflexivity|].
  split; [exact HD | exact HS].
Qed.

End Run.

Lemma calm_undisturbed : undisturbed calm.
Proof.
  split; [reflexivity|]. split; [|reflexivity].
  apply Forall_cons; [reflexivity | apply Forall_nil].
Defined.



Lemma never_stopped_before_second (sc : TaskScript) :
  never_stopped (second_task sc) 1.
Proof.
  intros j J. destruct j as [|j]; [apply calm_undisturbed | lia].
Defined.

(** Three parts, STOP pressed when the second process has just exited. *)
Lemma run_stopped_after_exit_witness :
  let script := second_task stop_after_exit in
  let w' :=
    run example_install (Some example_plan) "/downloads" 2 script
      (started_from idle) in
  never_stopped script 1
  /\ Forall no_stop (polls (script 1%nat))
  /\ stop_after_loop (script 1%nat) = true
  /\ log_queue w'
     = (stretch_log script 0 [example_model 1]
        ++ MsgRunning (ModelName (example_model 2))
           :: forwarded (polls (script 1%nat)) ++ [MsgEnd])%list
  /\ spawned (actions w') = [0; 1]%nat
  /\ signals (actions w') = []
  /\ stop_event (app w') = false.
Proof.
  intros script w'.
  pose proof (never_stopped_before_second stop_after_exit) as U.
  assert (D : "/downloads" <> "") by discriminate.
  assert (F : Forall no_stop (polls (script 1%nat)))
    by (apply Forall_cons; [reflexivity | apply Forall_nil]).
  split; [exact U|]. split; [exact F|]. split; [reflexivity|].
  destruct (run_stopped_after_exit example_install 2 "/downloads" script
              [example_model 1] [example_model 3] (example_model 2) idle
              eq_refl D U eq_refl F eq_refl)
    as (L & _ & Sp & Sg & _ & St).
  split; [exact L|]. split; [exact Sp|]. split; [exact Sg | exact St].
Defined.

End OrchestratorMore.

(** ** The worker when the operating system refuses a call *)

Module FaultProps.
Import PyStr Orchestrator Runs Faults OrchestratorProps OrchestratorMore.

Ltac run_fault_step :=
  repeat (progress unfold bindx, lift, raise, makedirs, popen, is_set, user,
            clear, set_process, set_downloading_state, with_app, put, act,
            bind, ret);
  cbn [fst snd app log_queue actions downloading aria2c_process stop_event].

Lemma starts_app (l1 l2 : list Action) :
  starts (l1 ++ l2) = (starts l1 ++ starts l2)%list.
Proof. apply filter_app. Qed.

Lemma starts_stop (h : Handle) (t : bool) : starts (stop_actions h t) = [].
Proof. now destruct t. Qed.

Section Run.

Variable inst : Install.
Variable sessions : Z.
Variable download_directory : string.
Variable script : nat -> TaskScript.
Variable faults : nat -> OsOutcome.

(** When both calls succeed the body of the loop is the one of the worker
    above. *)
Lemma download_one_no_fault (h : Handle) (model : ModelInfo)
    (sc : TaskScript) (w : World) :
  Faults.download_one inst sessions download_directory h model sc
    BothSucceed w
  = (inr (fst (Orchestrator.download_one inst sessions download_directory
                 h model sc w)),
     snd (Orchestrator.download_one inst sessions download_directory
            h model sc w)).
Proof.
  destruct w as [[d pr st] lg ac].
  unfold Faults.download_one, Orchestrator.download_one. run_fault_step.
  destruct (st || stop_before_start sc); [reflexivity|].
  run_fault_step.
  match goal with
  | |- context [poll_loop ?a ?b ?c ?x] =>
      destruct (poll_loop a b c x) as [[] [[d2 pr2 st2] lg2 ac2]]
  end.
  run_fault_step.
  destruct (st2 || stop_after_loop sc); [reflexivity|].
  destruct (returncode sc =? 0); reflexivity.
Qed.

(** STOP found pressed at the check that opens the body: no call is made,
    whatever the operating system would have done with it. *)
Lemma download_one_fault_cancelled (h : Handle) (model : ModelInfo)
    (sc : TaskScript) (os : OsOutcome) (w : World) :
  stop_event (app w) || stop_before_start sc = true ->
  Faults.download_one inst sessions download_directory h model sc os w
  = (inr false,
     {| app := {| downloading := downloading (app w);
                  aria2c_process := aria2c_process (app w);
                  stop_event := true |};
        log_queue := log_queue w ++ [MsgCancelled (ModelName model)];
        actions := actions w |}).
Proof.
  intros B. destruct w as [[d pr st] lg ac]. cbn in B.
  unfold Faults.download_one. run_fault_step. rewrite B. reflexivity.
Qed.

(** [os.makedirs] raises: nothing was logged or done for the task. *)
Lemma download_one_makedirs_raises (h : Handle) (model : ModelInfo)
    (sc : TaskScript) (w : World) :
  stop_event (app w) || stop_before_start sc = false ->
  Faults.download_one inst sessions download_directory h model sc
    MakedirsRaises w
  = (inl (MakedirsError (output_path download_directory model)),
     {| app := {| downloading := downloading (app w);
                  aria2c_process := aria2c_process (app w);
                  stop_event := false |};
        log_queue := log_queue w;
        actions := actions w |}).
Proof.
  intros B. destruct w as [[d pr st] lg ac]. cbn in B.
  unfold Faults.download_one. run_fault_step. rewrite B. reflexivity.
Qed.

(** [Popen] raises: the directory exists and the task was announced. *)
Lemma download_one_popen_raises (h : Handle) (model : ModelInfo)
    (sc : TaskScript) (w : World) :
  stop_event (app w) || stop_before_start sc = false ->
  Faults.download_one inst sessions download_directory h model sc
    PopenRaises w
  = (inl (PopenError (aria2c_args inst sessions download_directory model)),
     {| app := {| downloading := downloading (app w);
                  aria2c_process := aria2c_process (app w);
                  stop_event := false |};
        log_queue := log_queue w ++ [MsgRunning (ModelName model)];
        actions := actions w
                   ++ [Makedirs (output_path download_directory model)] |}).
Proof.
  intros B. destruct w as [[d pr st] lg ac]. cbn in B.
  unfold Faults.download_one. run_fault_step. rewrite B. reflexivity.
Qed.



(** What the loop adds to the world, whatever the scripts: messages other
    than closing ones, and, for the models of an initial segment of the
    plan in order, the creation of the directory followed by that of the
    process; the loop is left by an exception exactly when it reaches,
    without STOP being pressed, a task for which a call is refused. *)
Lemma for_models_faults_shape (models : list ModelInfo) (index : nat)
    (w : World) :
  let r :=
    Faults.for_models inst sessions download_directory script faults index
      models w in
  exists L E k,
    log_queue (snd r) = (log_queue w ++ L)%list
    /\ actions (snd r) = (actions w ++ E)%list
    /\ Forall quiet L
    /\ (k <= List.length models)%nat
    /\ downloading (app (snd r)) = downloading (app w)
    /\ (forall j, (j < k)%nat -> faults (index + j)%nat = BothSucceed)
    /\ spawned E = seq index k
    /\ ((fst r = inr tt
         /\ starts E
            = stretch_actions inst sessions download_directory index
                (firstn k models))
        \/ exists model e,
             nth_error models k = Some model
             /\ uncaught inst sessions download_directory
                  (faults (index + k)%nat) model = Some e
             /\ fst r = inl e
             /\ starts E
                = (stretch_actions inst sessions download_directory index
                     (firstn k models)
                   ++ orphan_directory download_directory (inl e)
                        (Some model))%list).
Proof.
  revert index w. induction models as [|model rest IH]; intros index w r.
  - exists [], [], 0%nat. unfold r. cbn. rewrite !app_nil_r.
    repeat split; trivial; try lia. left. now split.
  - unfold r. clear r. cbn [Faults.for_models]. unfold bindx.
    destruct (stop_event (app w) || stop_before_start (script index)) eqn:B.
    { rewrite download_one_fault_cancelled by exact B.
      exists [MsgCancelled (ModelName model)], [], 0%nat.
      cbn. rewrite app_nil_r.
      repeat split; trivial; try lia; [repeat constructor|].
      left. now split. }
    destruct (faults index) eqn:Fx.
    + rewrite download_one_no_fault.
      destruct (download_one_fate inst sessions download_directory index
                  model (script index) w)
        as [B' | Hs U | before after p Hs B' E F P | Hs B' F A].
      * rewrite B in B'. discriminate B'.
      * cbn [fst snd].
        match goal with
        | |- context [Faults.for_models _ _ _ _ _ _ _ ?w1] =>
            pose proof (IH (S index) w1) as H; cbv zeta in H;
            destruct H as (L & E & k & HL & HA & Q & K & Dn & NF & Sp & Cs)
        end.
        exists (task_log model (script index) ++ L)%list,
               (start_actions inst sessions download_directory index model
                ++ E)%list, (S k).
        rewrite HL, HA, Dn. cbn [log_queue actions app downloading].
        rewrite <- !app_assoc.
        split; [reflexivity|]. split; [reflexivity|].
        split; [apply Forall_app; split; trivial; apply task_log_quiet|].
        split; [simpl; lia|]. split; [reflexivity|].
        split.
        { intros [|j] J.
          - now rewrite Nat.add_0_r.
          - replace (index + S j)%nat with (S index + j)%nat by lia.
            apply NF. lia. }
        split; [now rewrite spawned_app, Sp|].
        rewrite starts_app. cbn [firstn stretch_actions nth_error].
        replace (index + S k)%nat with (S index + k)%nat by lia.
        destruct Cs as [(R & St) | (m & e & Nm & Un & R & St)].
        -- left. split; [exact R|]. now rewrite St.
        -- right. exists m, e. repeat split; trivial.
           rewrite St. now rewrite <- !app_assoc.
      * exists (MsgRunning (ModelName model) :: forwarded (before ++ [p])
                ++ stop_log (wait_times_out (script index)))%list,
               (start_actions inst sessions download_directory index model
                ++ stop_actions index (wait_times_out (script index)))%list,
               1%nat.
        cbn [fst snd log_queue actions app downloading].
        split; [reflexivity|]. split; [reflexivity|].
        split; [constructor; [reflexivity|]; apply Forall_app; split;
                [apply forwarded_quiet | apply stop_log_quiet]|].
        split; [simpl; lia|]. split; [reflexivity|].
        split.
        { intros j J. replace j with 0%nat by lia.
          now rewrite Nat.add_0_r. }
        split; [rewrite spawned_app, spawned_stop; reflexivity|].
        left. split; [reflexivity|].
        rewrite starts_app, starts_stop. cbn. now rewrite ?app_nil_r.
      * exists (MsgRunning (ModelName model)
                :: forwarded (polls (script index)))%list,
               (start_actions inst sessions download_directory index model),
               1%nat.
        cbn [fst snd log_queue actions app downloading].
        split; [reflexivity|]. split; [reflexivity|].
        split; [constructor; [reflexivity | apply forwarded_quiet]|].
        split; [simpl; lia|]. split; [reflexivity|].
        split.
        { intros j J. replace j with 0%nat by lia.
          now rewrite Nat.add_0_r. }
        split; [reflexivity|].
        left. split; [reflexivity|]. cbn. now rewrite ?app_nil_r.
    + rewrite download_one_makedirs_raises by exact B.
      exists [], [], 0%nat. cbn. rewrite !app_nil_r.
      repeat split; trivial; try lia.
      right. exists model, (MakedirsError (output_path download_directory
                                             model)).
      rewrite Nat.add_0_r, Fx. repeat split.
    + rewrite download_one_popen_raises by exact B.
      exists [MsgRunning (ModelName model)],
             [Makedirs (output_path download_directory model)], 0%nat.
      cbn.
      repeat split; trivial; try lia; [repeat constructor|].
      right. exists model,
        (PopenError (aria2c_args inst sessions download_directory model)).
      rewrite Nat.add_0_r, Fx. repeat split.
Qed.

(** A stretch of the plan during which no call is refused and STOP is not
    pressed. *)
Lemma for_models_fault_stretch (done rest : list ModelInfo) (index : nat)
    (w : World) :
  stop_event (app w) = false ->
  (forall j, (index <= j < index + List.length done)%nat ->
             undisturbed (script j)) ->
  (forall j, (index <= j < index + List.length done)%nat ->
             faults j = BothSucceed) ->
  Faults.for_models inst sessions download_directory script faults index
    (done ++ rest) w
  = Faults.for_models inst sessions download_directory script faults
      (index + List.length done) rest
      {| app := {| downloading := downloading (app w);
                   aria2c_process :=
                     process_after done (aria2c_process (app w));
                   stop_event := false |};
         log_queue := log_queue w ++ stretch_log script index done;
         actions := actions w
                    ++ stretch_actions inst sessions download_directory
                         index done |}.
Proof.
  revert index w. induction done as [|model done IH]; intros index w Hs U F.
  - destruct w as [[d pr st] lg ac]. cbn in Hs; subst st. cbn.
    now rewrite Nat.add_0_r, !app_nil_r.
  - cbn [List.app Faults.for_models]. unfold bindx.
    rewrite (F index) by (simpl; lia). rewrite download_one_no_fault.
    rewrite download_one_undisturbed by (trivial; apply U; simpl; lia).
    cbn [fst snd].
    rewrite IH
      by (trivial; intros j J; first [apply U | apply F]; simpl; lia).
    cbn [log_queue actions app downloading aria2c_process stop_event
         List.length stretch_log stretch_actions process_after].
    rewrite <- !app_assoc.
    replace (S index + List.length done)%nat
      with (index + S (List.length done))%nat by lia.
    now destruct done.
Qed.


(** X2.  However a run goes, the calls that create a directory or a
    process are, for the models of an initial segment of the plan in plan
    order, [os.makedirs] for the directory of the model followed by [Popen]
    with the argument list of the model, the [i]-th process for the [i]-th
    model: no model is started twice, none is skipped, and no process is
    started before its directory was created.  One more directory follows,
    that of the next model, exactly when [Popen] raised for it. *)
Theorem run_starts_in_plan_order
    (model_info_array : option (list ModelInfo)) (w : World) :
  let models := models_of_plan model_info_array in
  let r :=
    Faults.run inst model_info_array download_directory sessions script
      faults w in
  exists E k,
    actions (snd r) = (actions w ++ E)%list
    /\ (k <= List.length models)%nat
    /\ spawned E = seq 0 k
    /\ starts E
       = (stretch_actions inst sessions download_directory 0
            (firstn k models)
          ++ orphan_directory download_directory (fst r)
               (nth_error models k))%list.
Proof.
  intros models r.
  assert (Pre : forall m,
            let r1 := lift (put m ;; set_downloading_state false) w in
            exists E k,
              actions (snd r1) = (actions w ++ E)%list
              /\ (k <= List.length models)%nat
              /\ spawned E = seq 0 k
              /\ starts E
                 = (stretch_actions inst sessions download_directory 0
                      (firstn k models)
                    ++ orphan_directory download_directory (fst r1)
                         (nth_error models k))%list).
  { intros m. exists [], 0%nat. cbn. rewrite app_nil_r.
    repeat split; trivial. lia. }
  unfold r, Faults.run, Faults.download_in_thread.
  destruct (aria2c_exists inst); cbn [negb]; [|now apply Pre].
  destruct (no_models model_info_array); [now apply Pre|].
  destruct (String.eqb download_directory ""); [now apply Pre|].
  fold models. unfold bindx.
  pose proof (for_models_faults_shape models 0 w) as H. cbv zeta in H.
  destruct H as (L & E & k & HL & HA & Q & K & Dn & NF & Sp & Cs).
  destruct (Faults.for_models inst sessions download_directory script
              faults 0 models w) as [[e0|[]] w1];
    cbn [fst snd] in HL, HA, Dn, Cs; exists E, k.
  - cbn [fst snd]. destruct Cs as [(R & _) | (model & e & Nm & Un & R & St)];
      [discriminate R|].
    injection R as <-. rewrite Nm. now repeat split.
  - cbn. destruct Cs as [(_ & St) | (model & e & _ & _ & R & _)];
      [|discriminate R].
    rewrite St, app_nil_r. now repeat split.
Qed.


(** X5.  STOP found pressed when a task is about to start, the tasks before
    it having run with no call refused and STOP not pressed: the worker
    returns; after the messages of the earlier tasks it puts the line that
    the download is cancelled for that task and the following ones, which
    names the task, then the line that ends the loop; it creates no
    directory and spawns no process for that task nor for the following
    ones, whatever the operating system would have done with the calls,
    sends no signal, and resets the downloading flag. *)
Theorem run_cancelled_before_task (done rest : list ModelInfo)
    (model : ModelInfo) (a : App) :
  let k := List.length done in
  aria2c_exists inst = true ->
  download_directory <> "" ->
  never_stopped script k ->
  no_fault faults k ->
  stop_before_start (script k) = true ->
  let r :=
    Faults.run inst (Some (done ++ model :: rest)%list) download_directory
      sessions script faults (started_from a) in
  fst r = inr tt
  /\ log_queue (snd r)
     = (stretch_log script 0 done
        ++ [MsgCancelled (ModelName model); MsgEnd])%list
  /\ List.map render (log_queue (snd r))
     = (List.map render (stretch_log script 0 done)
        ++ [ ("Download cancelled for: " ++ ModelName model
              ++ " (and subsequent downloads)")%string;
             "Download finished or cancelled." ])%list
  /\ actions (snd r)
     = stretch_actions inst sessions download_directory 0 done
  /\ spawned (actions (snd r)) = seq 0 k
  /\ signals (actions (snd r)) = []
  /\ downloading (app (snd r)) = false.
Proof.
  intros k T D U F B r.
  assert (R : r = (inr tt,
                   {| app := {| downloading := false;
                                aria2c_process :=
                                  process_after done (aria2c_process a);
                                stop_event := true |};
                      log_queue := stretch_log script 0 done
                                   ++ [MsgCancelled (ModelName model);
                                       MsgEnd];
                      actions := stretch_actions inst sessions
                                   download_directory 0 done |})).
  { unfold r, Faults.run, Faults.download_in_thread. rewrite T.
    cbn [negb].
    replace (no_models (Some (done ++ model :: rest)%list)) with false
      by now destruct done.
    destruct (String.eqb_spec download_directory ""); [contradiction|].
    cbn [models_of_plan]. unfold bindx.
    rewrite for_models_fault_stretch
      by (trivial; intros j J; first [apply U | apply F]; fold k; lia).
    cbn [Nat.add Faults.for_models]. fold k. unfold bindx.
    rewrite download_one_fault_cancelled by (rewrite B; apply orb_true_r).
    cbn. now rewrite <- app_assoc. }
  rewrite R. cbn [fst snd log_queue actions app downloading].
  split; [reflexivity|]. split; [reflexivity|].
  split; [now rewrite map_app|]. split; [reflexivity|].
  split; [apply spawned_stretch | split; [apply signals_stretch|reflexivity]].
Qed.

End Run.

(** The second of three parts cannot be started. *)
Lemma second_fails_before (os : OsOutcome) : no_fault (second_fails os) 1.
Proof. intros j J. now replace j with 0%nat by lia. Defined.



(** Three parts, STOP pressed just before the second is looked at; the
    destination could not have been created for it. *)
Lemma run_cancelled_before_task_witness :
  let script := second_task stop_at_start in
  let r :=
    Faults.run example_install (Some example_plan) "/downloads" 2 script
      (second_fails MakedirsRaises) (started_from idle) in
  never_stopped script 1
  /\ stop_before_start (script 1%nat) = true
  /\ fst r = inr tt
  /\ List.map render (log_queue (snd r))
     = [ "Running aria2c for: file-00001-of-00003"; "[#1 100%]";
         "Download finished for: file-00001-of-00003";
         "Download cancelled for: file-00002-of-00003"
         ++ " (and subsequent downloads)";
         "Download finished or cancelled." ]
  /\ spawned (actions (snd r)) = [0%nat]
  /\ signals (actions (snd r)) = [].
Proof.
  intros script r.
  pose proof (never_stopped_before_second stop_at_start) as U.
  assert (D : "/downloads" <> "") by discriminate.
  split; [exact U|]. split; [reflexivity|].
  destruct (run_cancelled_before_task example_install 2 "/downloads" script
              (second_fails MakedirsRaises)
              [example_model 1] [example_model 3] (example_model 2) idle
              eq_refl D U (second_fails_before MakedirsRaises) eq_refl)
    as (R & _ & L & _ & Sp & Sg & _).
  split; [exact R|]. split; [exact L|]. split; [exact Sp | exact Sg].
Defined.


(** Three parts; the program cannot be run for the second: the thread dies
    with the downloading flag set, the directory of the second part made
    and its download announced. *)
Lemma second_popen_refused :
  let r :=
    Faults.run example_install (Some example_plan) "/downloads" 2
      (fun _ => calm) (second_fails PopenRaises) (started_from idle) in
  fst r
  = inl (PopenError (aria2c_args example_install 2 "/downloads"
                       (example_model 2)))
  /\ downloading (app (snd r)) = true
  /\ List.map render (log_queue (snd r))
     = [ "Running aria2c for: file-00001-of-00003"; "[#1 100%]";
         "Download finished for: file-00001-of-00003";
         "Running aria2c for: file-00002-of-00003" ]
  /\ spawned (actions (snd r)) = [0%nat]
  /\ made_dirs (actions (snd r))
     = ["/downloads/alice/modelX"; "/downloads/alice/modelX"].
Proof. vm_compute. repeat split. Qed.

End FaultProps.

(** ** More about the URL planner *)

Module PlannerMore.
Import PyStr PyStrFacts Urllib OsPath Planner Spec NumeralFacts ReFacts
       PathFacts PlannerProps.

(** The two shapes a plan can have. *)
Lemma plan_cases `{NetlocChecks} (url : string) (tasks : list ModelInfo) :
  plan url = Some tasks ->
  exists p stem ext,
    parse_checked url = Some p
    /\ (2 <= List.length (path_segments (path p)))%nat
    /\ splitext (basename (path p)) = (stem, ext)
    /\ let author := nth 0 (path_segments (path p)) "" in
       let repo := nth 1 (path_segments (path p)) "" in
       (exists base part total,
          multipart_stem stem base part total
          /\ tasks
             = List.map
                 (fun i =>
                    {| DownloadUrl :=
                         base_url_of url ++ "/"
                         ++ part_name base (int total) i ++ ext;
                       Author := author;
                       ModelRepo := repo;
                       ModelName := part_name base (int total) i;
                       Extension := ext |})
                 (seq 1 (int total)))
       \/ ((~ exists base part total, multipart_stem stem base part total)
           /\ tasks
              = [ {| DownloadUrl := url; Author := author;
                     ModelRepo := repo; ModelName := stem;
                     Extension := ext |} ]).
Proof.
  unfold plan. intros P.
  destruct (parse_checked url) as [p|] eqn:C;
    [|unfold parse_huggingface_model_url in P; rewrite C in P;
      discriminate].
  destruct (Nat.ltb_spec (List.length (path_segments (path p))) 2) as [L|L].
  { unfold parse_huggingface_model_url in P. rewrite C in P.
    destruct (Nat.ltb_spec (List.length (path_segments (path p))) 2);
      [discriminate | lia]. }
  destruct (splitext (basename (path p))) as [stem ext] eqn:E.
  rewrite (parse_valid url p stem ext C L E) in P.
  exists p, stem, ext. repeat split; trivial. cbv zeta in P |- *.
  destruct (Re.match_parts stem) as [[[base part] total]|] eqn:M;
    cbn [snd] in P; injection P as <-.
  - left. exists base, part, total. split; [|reflexivity].
    now apply match_parts_sound.
  - right. split; [|reflexivity]. now apply match_parts_none.
Qed.

(** X7.  A plan never has 100000 tasks or more: the total is read from five
    digits. *)
Theorem plan_size_bound `{NetlocChecks} (url : string)
    (tasks : list ModelInfo) :
  plan url = Some tasks -> (List.length tasks < 10 ^ 5)%nat.
Proof.
  intros P. destruct (plan_cases url tasks P)
    as (p & stem & ext & _ & _ & _ & [(b & pt & t & M & ->) | (_ & ->)]).
  - rewrite length_map, length_seq. apply five_digits_bound.
    now destruct M as (_ & _ & _ & ? & _).
  - cbn [List.length]. apply Nat.pow_gt_1; lia.
Qed.

Lemma plan_size_bound_witness :
  @plan lenient "https://host/alice/modelX/file-00001-of-00003.bin"
  = Some Orchestrator.example_plan
  /\ (List.length Orchestrator.example_plan < 10 ^ 5)%nat.
Proof.
  assert (P : @plan lenient
                "https://host/alice/modelX/file-00001-of-00003.bin"
              = Some Orchestrator.example_plan)
    by (vm_compute; reflexivity).
  split; [exact P|].
  exact (@plan_size_bound lenient _ _ P).
Defined.

(** *** Segments and file names *)

Lemma split_pieces (c : ascii) (s x : string) :
  In x (split c s) -> contains c x = false.
Proof.
  revert x. induction s as [|a s IH]; intros x I.
  - destruct I as [<-|[]]. reflexivity.
  - cbn [split] in I. destruct (Ascii.eqb a c) eqn:E.
    + destruct I as [<-|I]; [reflexivity | now apply IH].
    + pose proof (split_not_nil c s) as N.
      destruct (split c s) as [|h t]; [contradiction|].
      destruct I as [<-|I].
      * cbn. rewrite E. apply IH. now left.
      * apply IH. now right.
Qed.

Lemma lstrip_head (p : ascii -> bool) (s : string) :
  lstrip p s = "" \/ exists a r, lstrip p s = String a r /\ p a = false.
Proof.
  induction s as [|a s IH]; [now left|].
  cbn. destruct (p a) eqn:E; [exact IH | right; eauto].
Qed.

Lemma rstrip_head (p : ascii -> bool) (a : ascii) (r : string) :
  p a = false -> exists r', rstrip p (String a r) = String a r'.
Proof.
  intros E. cbn. destruct (rstrip p r); [rewrite E|]; eauto.
Qed.

(** The first of at least two segments is not empty. *)
Lemma first_segment_not_empty (p : string) :
  (2 <= List.length (path_segments p))%nat ->
  nth 0 (path_segments p) "" <> "".
Proof.
  unfold path_segments, strip.
  destruct (lstrip_head is_slash p) as [-> | (a & r & -> & E)].
  - cbn. lia.
  - destruct (rstrip_head is_slash a r E) as (r' & ->). intros _.
    cbn [split]. unfold is_slash in E. rewrite E.
    pose proof (split_not_nil "/" r') as N.
    destruct (split "/" r'); [contradiction | discriminate].
Qed.

Lemma nth_segment_no_slash (p : string) (n : nat) :
  (n < List.length (path_segments p))%nat ->
  contains "/" (nth n (path_segments p) "") = false.
Proof.
  intros L. apply (split_pieces "/" (strip is_slash p)).
  now apply nth_In.
Qed.

Lemma basename_no_slash (p : string) : contains "/" (basename p) = false.
Proof.
  unfold basename. destruct (contains "/" p) eqn:C.
  - destruct (rfind_split "/" p C) as (a & b & -> & B & R).
    rewrite R. unfold from.
    replace (Z.to_nat (Z.of_nat (String.length a) + 1))
      with (String.length (a ++ "/")) by (rewrite length_app; simpl; lia).
    change (a ++ String "/" b) with (a ++ "/" ++ b).
    now rewrite <- app_assoc, drop_app_length.
  - apply rfind_absent in C as R. rewrite R. exact C.
Qed.

Lemma digits_no_slash (s : string) :
  forallb is_digit s = true -> contains "/" s = false.
Proof.
  induction s as [|a s IH]; [reflexivity|].
  cbn. intros D. apply andb_true_iff in D as [Da Ds].
  rewrite (IH Ds), orb_false_r. apply Ascii.eqb_neq. intros ->.
  discriminate Da.
Qed.

Lemma contains_prefix (c : ascii) (a b : string) :
  contains c (a ++ b) = false -> contains c a = false.
Proof.
  rewrite contains_app. intros N. now apply orb_false_iff in N as [N _].
Qed.

Lemma part_name_no_slash (base : string) (T i : nat) :
  contains "/" base = false -> contains "/" (part_name base T i) = false.
Proof.
  intros B. unfold part_name, format_05d.
  rewrite !contains_app, B.
  rewrite (digits_no_slash (zfill 5 (str i))) by apply zfill_str_digits.
  rewrite (digits_no_slash (zfill 5 (str T))) by apply zfill_str_digits.
  reflexivity.
Qed.

Lemma plan_tasks_share_fields_aux `{NetlocChecks} (url : string)
    (tasks : list ModelInfo) :
  plan url = Some tasks ->
  exists author repo ext,
    author <> ""
    /\ contains "/" author = false
    /\ contains "/" repo = false
    /\ forall m, In m tasks ->
         Author m = author /\ ModelRepo m = repo /\ Extension m = ext.
Proof.
  intros P. destruct (plan_cases url tasks P)
    as (p & stem & ext & _ & L & _ & D).
  exists (nth 0 (path_segments (path p)) ""),
         (nth 1 (path_segments (path p)) ""), ext.
  split; [now apply first_segment_not_empty|].
  split; [apply nth_segment_no_slash; lia|].
  split; [apply nth_segment_no_slash; lia|].
  intros m I. cbv zeta in D.
  destruct D as [(b & pt & t & _ & ->) | (_ & ->)].
  - apply in_map_iff in I as (i & <- & _). now repeat split.
  - destruct I as [<-|[]]. now repeat split.
Qed.

(** X8.  Whatever the URL, the tasks of a plan carry the same author, the
    same repository and the same extension; the author is not empty, and
    neither the author nor the repository contains a slash. *)
Theorem plan_tasks_share_fields `{NetlocChecks} (url : string)
    (tasks : list ModelInfo) :
  plan url = Some tasks ->
  exists author repo ext,
    author <> ""
    /\ contains "/" author = false
    /\ contains "/" repo = false
    /\ forall m, In m tasks ->
         Author m = author /\ ModelRepo m = repo /\ Extension m = ext.
Proof. apply plan_tasks_share_fields_aux. Qed.

Lemma plan_tasks_share_fields_witness :
  @plan lenient "https://host/alice/modelX/file-00001-of-00003.bin"
  = Some Orchestrator.example_plan
  /\ exists author repo ext,
       author <> ""
       /\ contains "/" author = false
       /\ contains "/" repo = false
       /\ forall m, In m Orchestrator.example_plan ->
            Author m = author /\ ModelRepo m = repo /\ Extension m = ext.
Proof.
  assert (P : @plan lenient
                "https://host/alice/modelX/file-00001-of-00003.bin"
              = Some Orchestrator.example_plan)
    by (vm_compute; reflexivity).
  split; [exact P|].
  exact (@plan_tasks_share_fields lenient _ _ P).
Defined.

(** X9.  Whatever the URL, the file name under which a task is saved (name
    followed by extension) contains no slash: the option [-o] is never
    given a path with a directory part. *)
Theorem plan_file_names_plain `{NetlocChecks} (url : string)
    (tasks : list ModelInfo) :
  plan url = Some tasks ->
  forall m, In m tasks ->
    contains "/" (ModelName m ++ Extension m) = false.
Proof.
  intros P m I. destruct (plan_cases url tasks P)
    as (p & stem & ext & _ & _ & E & D).
  apply splitext_spec in E as (B & _).
  pose proof (basename_no_slash (path p)) as N.
  rewrite B, contains_app in N. apply orb_false_iff in N as [Ns Ne].
  cbv zeta in D. destruct D as [(b & pt & t & M & ->) | (_ & ->)].
  - apply in_map_iff in I as (i & <- & _). cbn [ModelName Extension].
    rewrite contains_app, Ne, orb_false_r. apply part_name_no_slash.
    destruct M as (_ & _ & _ & _ & [S|S]); rewrite S in Ns;
      [|apply contains_prefix in Ns]; now apply contains_prefix in Ns.
  - destruct I as [<-|[]]. cbn [ModelName Extension].
    now rewrite contains_app, Ns, Ne.
Qed.

(** No more than that: the name can be [..]. *)
Lemma file_name_can_be_dotdot :
  List.map (fun m => ModelName m ++ Extension m)
    (models_of_plan (@plan lenient "https://host/alice/repo/.."))
  = [".."].
Proof. vm_compute. reflexivity. Qed.

Lemma plan_file_names_plain_witness :
  @plan lenient "https://host/alice/modelX/file-00001-of-00003.bin"
  = Some Orchestrator.example_plan
  /\ forall m, In m Orchestrator.example_plan ->
       contains "/" (ModelName m ++ Extension m) = false.
Proof.
  assert (P : @plan lenient
                "https://host/alice/modelX/file-00001-of-00003.bin"
              = Some Orchestrator.example_plan)
    by (vm_compute; reflexivity).
  split; [exact P|].
  exact (@plan_file_names_plain lenient _ _ P).
Defined.

(** X10.  The plan does not depend on the part the URL names: two valid URLs
    with the same directory, author and repository whose file stems differ
    only in the part number (same base, same total, same extension) have the
    same plan. *)
Theorem plan_independent_of_part `{NetlocChecks} (url1 url2 : string)
    (p1 p2 : ParseResult) (stem1 stem2 ext base part1 part2 total : string) :
  parse_checked url1 = Some p1 ->
  parse_checked url2 = Some p2 ->
  (2 <= List.length (path_segments (path p1)))%nat ->
  nth 0 (path_segments (path p1)) "" = nth 0 (path_segments (path p2)) "" ->
  nth 1 (path_segments (path p1)) "" = nth 1 (path_segments (path p2)) "" ->
  List.length (path_segments (path p1))
  = List.length (path_segments (path p2)) ->
  base_url_of url1 = base_url_of url2 ->
  splitext (basename (path p1)) = (stem1, ext) ->
  splitext (basename (path p2)) = (stem2, ext) ->
  multipart_stem stem1 base part1 total ->
  multipart_stem stem2 base part2 total ->
  plan url1 = plan url2.
Proof.
  intros P1 P2 L A R Len B E1 E2 M1 M2. unfold plan.
  rewrite (parse_valid url1 p1 stem1 ext P1 L E1).
  rewrite (parse_valid url2 p2 stem2 ext P2 ltac:(lia) E2).
  rewrite (match_parts_complete stem1 base part1 total M1).
  rewrite (match_parts_complete stem2 base part2 total M2).
  cbv zeta. now rewrite A, R, B.
Qed.

Lemma plan_independent_of_part_witness :
  let url1 := "https://host/alice/modelX/file-00001-of-00003.bin" in
  let url2 := "https://host/alice/modelX/file-00003-of-00003.bin" in
  @plan lenient url1 = @plan lenient url2.
Proof.
  intros url1 url2.
  assert (M1 : multipart_stem "file-00001-of-00003" "file" "00001" "00003").
  { repeat split; try discriminate. now left. }
  assert (M2 : multipart_stem "file-00003-of-00003" "file" "00003" "00003").
  { repeat split; try discriminate. now left. }
  exact (@plan_independent_of_part lenient url1 url2
           (example_parse "/alice/modelX/file-00001-of-00003.bin")
           (example_parse "/alice/modelX/file-00003-of-00003.bin")
           "file-00001-of-00003" "file-00003-of-00003" ".bin" "file"
           "00001" "00003" "00003"
           eq_refl eq_refl (le_S 2 2 (le_n 2)) eq_refl eq_refl eq_refl
           eq_refl eq_refl eq_refl M1 M2).
Defined.

End PlannerMore.

(** ** From a URL to the processes spawned *)

Module Pipeline.
Import PyStr PyStrFacts Urllib OsPath Planner Spec NumeralFacts ReFacts
       PathFacts PlannerProps PlannerMore.
Import Orchestrator Runs OrchestratorProps OrchestratorMore.
Import FaultProps.







(** The text of the path only: its components can be [..]. *)
Lemma output_path_can_leave_destination :
  List.map (output_path "/downloads")
    (models_of_plan (@plan lenient "https://host/../../weights.bin"))
  = ["/downloads/../.."].
Proof. vm_compute. reflexivity. Qed.










End Pipeline.

(** ** The configuration file *)

Module ConfigProps.
Import PyStr Config.

Lemma dict_get_set_same (key : string) (default value : JValue) (d : Dict) :
  dict_get key default (dict_set key value d) = value.
Proof.
  induction d as [|[k v] d IH]; cbn.
  - now rewrite String.eqb_refl.
  - destruct (String.eqb k key) eqn:E; cbn; rewrite E; [reflexivity|].
    exact IH.
Qed.

Lemma dict_get_set_other (key other : string) (default value : JValue)
    (d : Dict) :
  other <> key ->
  dict_get other default (dict_set key value d) = dict_get other default d.
Proof.
  intros N. induction d as [|[k v] d IH]; cbn.
  - destruct (String.eqb_spec key other); [congruence | reflexivity].
  - destruct (String.eqb_spec k key) as [->|K]; cbn.
    + destruct (String.eqb_spec key other); [congruence | reflexivity].
    + destruct (String.eqb k other); [reflexivity | exact IH].
Qed.

(** What the two assignments leave in the dict. *)
Lemma updated_directory (dp : option string) (ss : option Z) (d : Dict) :
  dict_get "DIRECTORY" (JStr "") (updated dp ss d)
  = match dp with
    | Some dir => JStr dir
    | None => dict_get "DIRECTORY" (JStr "") d
    end.
Proof.
  unfold updated. destruct ss as [n|], dp as [dir|];
    rewrite ?dict_get_set_other by discriminate;
    rewrite ?dict_get_set_same; reflexivity.
Qed.

Lemma updated_sessions (dp : option string) (ss : option Z) (d : Dict) :
  dict_get "SESSIONS" (JInt 2) (updated dp ss d)
  = match ss with
    | Some n => JInt n
    | None => dict_get "SESSIONS" (JInt 2) d
    end.
Proof.
  unfold updated. destruct ss as [n|], dp as [dir|];
    rewrite ?dict_get_set_same;
    rewrite ?dict_get_set_other by discriminate; reflexivity.
Qed.

Lemma updated_other (dp : option string) (ss : option Z) (d : Dict)
    (key : string) (default : JValue) :
  key <> "DIRECTORY" -> key <> "SESSIONS" ->
  dict_get key default (updated dp ss d) = dict_get key default d.
Proof.
  intros N1 N2. unfold updated. destruct ss as [n|], dp as [dir|];
    now rewrite ?dict_get_set_other by trivial.
Qed.


(** On a usable disk a call succeeds and leaves a usable disk whose file
    holds the updated dict. *)
Lemma manage_usable (dp : option string) (ss : option Z) (disk : Disk) :
  usable disk ->
  let d1 := updated dp ss (stored disk) in
  result_of (manage_app_config dp ss disk)
  = Returned (dict_get "DIRECTORY" (JStr "") d1)
             (dict_get "SESSIONS" (JInt 2) d1)
  /\ (is_missing (config_file disk) || given dp || given ss = true ->
      disk_of (manage_app_config dp ss disk)
      = with_file disk (Holds (Object d1)))
  /\ (is_missing (config_file disk) || given dp || given ss = false ->
      disk_of (manage_app_config dp ss disk) = disk).
Proof.
  intros (D & A & W & F). destruct disk as [dx ax f wx].
  cbn in D, A, W, F. subst dx ax wx.
  destruct F as [-> | (d & ->)]; cbn;
    destruct dp as [dir|], ss as [n|]; cbn; repeat split;
    try discriminate; reflexivity.
Qed.

(** What a call says on a usable disk. *)
Lemma manage_usable_notices (dp : option string) (ss : option Z)
    (disk : Disk) :
  usable disk ->
  notices_of (manage_app_config dp ss disk)
  = ((if is_missing (config_file disk) then [SaidCreatingFile] else [])
     ++ (if given dp then [SaidDirectoryUpdated] else [])
     ++ (if given ss then [SaidSessionsUpdated] else []))%list.
Proof.
  intros (D & A & W & F). destruct disk as [dx ax f wx].
  cbn in D, A, W, F. subst dx ax wx.
  destruct F as [-> | (d & ->)]; destruct dp as [dir|], ss as [n|];
    reflexivity.
Qed.

(** X14.  What is saved is what is read back: on a disk where
    [aria2c.exe] is in place, the file is absent or holds a JSON object and
    the writes go through, a call returns for each setting the value given,
    or, when none is given, the stored one (the default one when the file
    or the key is absent); a following call without arguments returns the
    same pair, says nothing and leaves the disk as it is. *)
Theorem config_round_trip (dp : option string) (ss : option Z)
    (disk : Disk) :
  usable disk ->
  let r := manage_app_config dp ss disk in
  let directory :=
    match dp with
    | Some dir => JStr dir
    | None => dict_get "DIRECTORY" (JStr "") (stored disk)
    end in
  let sessions :=
    match ss with
    | Some n => JInt n
    | None => dict_get "SESSIONS" (JInt 2) (stored disk)
    end in
  result_of r = Returned directory sessions
  /\ manage_app_config None None (disk_of r)
     = (Returned directory sessions, disk_of r, []).
Proof.
  intros U r directory sessions.
  destruct (manage_usable dp ss disk U) as (R & _ & _).
  fold r in R. cbv zeta in R.
  rewrite updated_directory, updated_sessions in R.
  split; [exact R|].
  unfold r, directory, sessions. destruct U as (D & A & W & F).
  destruct disk as [dx ax f wx]. cbn in D, A, W, F. subst dx ax wx.
  destruct F as [-> | (d & ->)]; destruct dp as [dir|], ss as [n|];
    unfold manage_app_config, load_update_save, stored, disk_of, result_of;
    cbn -[dict_get updated];
    rewrite ?updated_directory, ?updated_sessions; reflexivity.
Qed.

Lemma settled_disk_usable : usable settled_disk.
Proof.
  split; [reflexivity|]. split; [reflexivity|]. split; [reflexivity|].
  right. now eexists.
Defined.

Lemma fresh_disk_usable : usable fresh_disk.
Proof.
  split; [reflexivity|]. split; [reflexivity|]. split; [reflexivity|].
  now left.
Defined.

Lemma config_round_trip_witness :
  let r := manage_app_config (Some "/data") None settled_disk in
  usable settled_disk
  /\ result_of r = Returned (JStr "/data") (JInt 4)
  /\ manage_app_config None None (disk_of r)
     = (Returned (JStr "/data") (JInt 4), disk_of r, []).
Proof.
  intros r. split; [exact settled_disk_usable|].
  exact (config_round_trip (Some "/data") None settled_disk
           settled_disk_usable).
Defined.

(** X15.  Saving one setting keeps the rest: on a disk whose file holds a
    JSON object, a call with new values leaves in the file every key other
    than the ones it sets with the value it had, the unset one of the two
    settings included. *)
Theorem config_update_preserves_others (dp : option string) (ss : option Z)
    (disk : Disk) (d : Dict) :
  usable disk ->
  config_file disk = Holds (Object d) ->
  exists d',
    config_file (disk_of (manage_app_config dp ss disk)) = Holds (Object d')
    /\ (forall key default,
          key <> "DIRECTORY" -> key <> "SESSIONS" ->
          dict_get key default d' = dict_get key default d)
    /\ (dp = None ->
        forall default,
          dict_get "DIRECTORY" default d' = dict_get "DIRECTORY" default d)
    /\ (ss = None ->
        forall default,
          dict_get "SESSIONS" default d' = dict_get "SESSIONS" default d).
Proof.
  intros (D & A & W & _) F. destruct disk as [dx ax f wx].
  cbn in D, A, W, F. subst dx ax wx f.
  exists (updated dp ss d). split.
  - destruct dp, ss; reflexivity.
  - split; [intros key default N1 N2; now apply updated_other|].
    split; intros ->; intros default; unfold updated.
    + destruct ss; [now rewrite dict_get_set_other by discriminate|].
      reflexivity.
    + destruct dp; [now rewrite dict_get_set_other by discriminate|].
      reflexivity.
Qed.

Lemma config_update_preserves_others_witness :
  let disk' := disk_of (manage_app_config (Some "/data") None settled_disk) in
  usable settled_disk
  /\ exists d',
       config_file disk' = Holds (Object d')
       /\ dict_get "THEME" JNone d' = JStr "dark"
       /\ dict_get "SESSIONS" JNone d' = JInt 4.
Proof.
  intros disk'. split; [exact settled_disk_usable|].
  destruct (config_update_preserves_others (Some "/data") None settled_disk
              _ settled_disk_usable eq_refl)
    as (d' & F & Other & _ & Sess).
  exists d'. split; [exact F|]. split.
  - rewrite Other; [reflexivity | discriminate | discriminate].
  - now rewrite Sess.
Defined.

(** X16.  First use: with [aria2c.exe] in place and no configuration file
    yet, a call creates the file with an empty directory and 2 sessions, the
    values given replacing these; it returns the values the file then holds,
    and says that it creates the file. *)
Theorem config_first_use (dp : option string) (ss : option Z) (disk : Disk) :
  usable disk ->
  config_file disk = Missing ->
  let r := manage_app_config dp ss disk in
  result_of r
  = Returned (JStr (match dp with Some dir => dir | None => "" end))
             (JInt (match ss with Some n => n | None => 2 end))
  /\ config_file (disk_of r)
     = Holds (Object [ ("DIRECTORY",
                        JStr (match dp with Some dir => dir | None => "" end));
                       ("SESSIONS",
                        JInt (match ss with Some n => n | None => 2 end)) ])
  /\ hd_error (notices_of r) = Some SaidCreatingFile.
Proof.
  intros (D & A & W & _) F. destruct disk as [dx ax f wx].
  cbn in D, A, W, F. subst dx ax wx f.
  destruct dp, ss; repeat split.
Qed.

Lemma config_first_use_witness :
  let r := manage_app_config None (Some 5) fresh_disk in
  usable fresh_disk
  /\ result_of r = Returned (JStr "") (JInt 5)
  /\ config_file (disk_of r)
     = Holds (Object [("DIRECTORY", JStr ""); ("SESSIONS", JInt 5)]).
Proof.
  intros r. split; [exact fresh_disk_usable|].
  destruct (config_first_use None (Some 5) fresh_disk fresh_disk_usable
              eq_refl) as (R & F & _).
  split; [exact R | exact F].
Defined.



(** X18.  A call without arguments never modifies an existing configuration
    file, whatever it holds: only a missing file is ever written by reading
    the settings. *)
Theorem config_read_only (disk : Disk) :
  well_formed disk ->
  is_missing (config_file disk) = false ->
  disk_of (manage_app_config None None disk) = disk.
Proof.
  intros (_ & Wf) M. specialize (Wf M).
  destruct disk as [dx ax f wx]. cbn in Wf, M. subst dx.
  unfold manage_app_config. cbn.
  destruct ax; cbn; [|reflexivity].
  destruct f as [| |[d|]]; try discriminate; reflexivity.
Qed.

Lemma config_read_only_witness :
  well_formed settled_disk
  /\ disk_of (manage_app_config None None settled_disk) = settled_disk.
Proof.
  assert (W : well_formed settled_disk) by (split; reflexivity).
  split; [exact W|].
  exact (config_read_only settled_disk W eq_refl).
Defined.

(** X19.  On a file system, where [aria2c.exe] cannot exist without its
    directory, the function changes nothing but [config.json]: the call of
    [os.makedirs] is never reached with a directory to create. *)
Theorem config_only_touches_file (dp : option string) (ss : option Z)
    (disk : Disk) :
  well_formed disk ->
  let disk' := disk_of (manage_app_config dp ss disk) in
  disk' = with_file disk (config_file disk').
Proof.
  intros (Wf & _). destruct disk as [dx ax f wx]. cbn in Wf.
  unfold manage_app_config. cbn.
  destruct ax; cbn; [|reflexivity]. rewrite (Wf eq_refl).
  destruct f as [| |[d|]]; destruct wx, dp, ss; reflexivity.
Qed.

Lemma config_only_touches_file_witness :
  let disk' := disk_of (manage_app_config (Some "/data") None fresh_disk) in
  well_formed fresh_disk
  /\ disk' = with_file fresh_disk (config_file disk').
Proof.
  intros disk'.
  assert (W : well_formed fresh_disk) by (split; [reflexivity | discriminate]).
  split; [exact W|].
  exact (config_only_touches_file (Some "/data") None fresh_disk W).
Defined.

End ConfigProps.

(** ** [int], the sessions field and the buttons *)

Module GuiProps.
Import PyStr PyStrFacts NumeralFacts PyInt Config Planner Orchestrator Gui.
Import Spec ConfigProps.

(** *** [int] on strings of digits *)

Lemma isdigit_char_not_space (c : ascii) :
  isdigit_char c = true -> is_int_space c = false.
Proof.
  unfold isdigit_char, is_int_space, is_digit, in_range.
  generalize (code c); intros n H.
  assert (K : (48 <= n <= 57 \/ n = 178 \/ n = 179 \/ n = 185)%nat).
  { apply orb_prop in H as [H | H];
      [apply orb_prop in H as [H | H];
       [apply orb_prop in H as [H | H]|]|].
    - apply andb_prop in H as [A B].
      apply Nat.leb_le in A. apply Nat.leb_le in B. lia.
    - apply Nat.eqb_eq in H. lia.
    - apply Nat.eqb_eq in H. lia.
    - apply Nat.eqb_eq in H. lia. }
  clear H.
  repeat match goal with
         | |- context [Nat.leb ?a ?b] => destruct (Nat.leb_spec a b)
         | |- context [Nat.eqb ?a ?b] => destruct (Nat.eqb_spec a b)
         end; cbn; try reflexivity; lia.
Qed.

Lemma is_digit_isdigit_char (c : ascii) :
  is_digit c = true -> isdigit_char c = true.
Proof. unfold isdigit_char. now intros ->. Qed.

Lemma lstrip_kept (p : ascii -> bool) (s : string) :
  forallb (fun c => negb (p c)) s = true -> lstrip p s = s.
Proof.
  destruct s as [|a r]; cbn; [reflexivity|].
  destruct (p a); [discriminate | reflexivity].
Qed.

Lemma rstrip_kept (p : ascii -> bool) (s : string) :
  forallb (fun c => negb (p c)) s = true -> rstrip p s = s.
Proof.
  induction s as [|a r IH]; cbn; [reflexivity|].
  intros H. apply andb_prop in H as [A R]. rewrite (IH R).
  destruct r; [|reflexivity]. destruct (p a); [discriminate | reflexivity].
Qed.

Lemma forallb_impl (p q : ascii -> bool) (s : string) :
  (forall c, p c = true -> q c = true) ->
  forallb p s = true -> forallb q s = true.
Proof.
  intros I. induction s as [|a r IH]; cbn; [reflexivity|].
  intros H. apply andb_prop in H as [A R]. now rewrite (I a A), (IH R).
Qed.

Lemma strip_isdigit (s : string) :
  forallb isdigit_char s = true -> strip is_int_space s = s.
Proof.
  intros D.
  assert (K : forallb (fun c => negb (is_int_space c)) s = true).
  { revert D. apply forallb_impl. intros c C.
    now rewrite (isdigit_char_not_space c C). }
  unfold strip. rewrite (lstrip_kept _ _ K). now apply rstrip_kept.
Qed.

Lemma sign_split_isdigit (s : string) :
  forallb isdigit_char s = true -> sign_split s = (false, s).
Proof.
  destruct s as [|c r]; cbn; [reflexivity|].
  intros H. apply andb_prop in H as [C _].
  destruct (Ascii.eqb_spec c "-") as [->|_]; [discriminate C|].
  destruct (Ascii.eqb_spec c "+") as [->|_]; [discriminate C|].
  reflexivity.
Qed.

(** On decimal digits [int_body] is the Horner scheme of [int_acc]. *)
Lemma int_body_digits (s : string) (a count : nat) (after : bool) :
  forallb is_digit s = true ->
  after = true \/ s <> "" ->
  int_body (Z.of_nat a) count after s
  = Some (Z.of_nat (int_acc a s), (count + String.length s)%nat).
Proof.
  revert a count after. induction s as [|c r IH]; intros a count after D N.
  - destruct N as [-> | N]; [|contradiction]. cbn. now rewrite Nat.add_0_r.
  - cbn [forallb] in D. cbn [int_body int_acc String.length].
    apply andb_prop in D as [C R]. rewrite C.
    replace (10 * Z.of_nat a + Z.of_nat (code c - 48))
      with (Z.of_nat (10 * a + (code c - 48))) by lia.
    rewrite (IH _ _ true R (or_introl eq_refl)). f_equal. f_equal. lia.
Qed.

(** A superscript digit, which [isdigit] lets through, stops [int]. *)
Lemma int_body_some_digits (s : string) (acc : Z) (count : nat)
    (after : bool) (r : Z * nat) :
  forallb isdigit_char s = true ->
  int_body acc count after s = Some r ->
  forallb is_digit s = true.
Proof.
  revert acc count after. induction s as [|c t IH]; intros acc count after D E.
  - reflexivity.
  - cbn in D, E |- *. apply andb_prop in D as [C T].
    destruct (is_digit c) eqn:G.
    + cbn. now apply IH in E.
    + exfalso. destruct (Ascii.eqb_spec c "_") as [->|_];
        [discriminate C | discriminate E].
Qed.

Lemma int_body_not_digits (s : string) (acc : Z) (count : nat)
    (after : bool) :
  forallb isdigit_char s = true ->
  forallb is_digit s = false ->
  int_body acc count after s = None.
Proof.
  intros D F. destruct (int_body acc count after s) as [r|] eqn:E;
    [|reflexivity].
  rewrite (int_body_some_digits s acc count after r D E) in F. discriminate.
Qed.

(** [int] on a string [isdigit] accepts. *)
Lemma py_int_isdigit `{IntLimits} (s : string) :
  isdigit s = true ->
  py_int s
  = if forallb is_digit s && negb (over_limit (String.length s))
    then Some (Z.of_nat (int s)) else None.
Proof.
  unfold isdigit. intros I. apply andb_prop in I as [N D].
  unfold py_int. rewrite (strip_isdigit s D), (sign_split_isdigit s D).
  destruct (forallb is_digit s) eqn:F; cbn [andb].
  - change 0 with (Z.of_nat 0).
    rewrite (int_body_digits s 0 0 false F).
    + cbn [Nat.add]. now destruct (over_limit (String.length s)).
    + right. intros ->. discriminate N.
  - now rewrite (int_body_not_digits s 0 0 false D F).
Qed.

Lemma code_inj (c d : ascii) : code c = code d -> c = d.
Proof.
  unfold code. intros E.
  now rewrite <- (ascii_nat_embedding c), E, ascii_nat_embedding.
Qed.

(** The strings of digits whose value is between 1 and 9. *)
Lemma small_value (s : string) :
  forallb is_digit s = true ->
  (1 <= int s <= 9)%nat ->
  exists k d, s = zeros k ++ String d "" /\ in_range 49 57 d = true.
Proof.
  induction s as [|c r IH]; intros D V.
  - cbv in V. lia.
  - cbn in D. apply andb_prop in D as [C R].
    unfold int in V. cbn [int_acc] in V. rewrite int_acc_shift in V.
    pose proof (is_digit_code c C) as B.
    destruct (Nat.eq_dec (code c) 48) as [Z0 | NZ].
    + rewrite Z0 in V. cbn in V.
      destruct (IH R ltac:(lia)) as (k & d & -> & Hd).
      exists (S k), d. split; [|exact Hd]. cbn. f_equal.
      apply code_inj. now rewrite Z0.
    + destruct r as [|e r].
      * exists 0%nat, c. split; [reflexivity|].
        unfold in_range. apply andb_true_intro.
        split; apply Nat.leb_le; lia.
      * exfalso. cbn [String.length] in V.
        assert (10 <= 10 ^ S (String.length r))%nat.
        { rewrite Nat.pow_succ_r'.
          pose proof (Nat.pow_nonzero 10 (String.length r)). nia. }
        nia.
Qed.

Lemma nonzero_is_digit (d : ascii) :
  in_range 49 57 d = true -> is_digit d = true.
Proof.
  unfold is_digit, in_range. intros H. apply andb_prop in H as [A B].
  apply Nat.leb_le in A. rewrite B, andb_true_r. apply Nat.leb_le. lia.
Qed.

Lemma nonzero_code (d : ascii) :
  in_range 49 57 d = true -> (1 <= code d - 48 <= 9)%nat.
Proof.
  unfold in_range. intros H. apply andb_prop in H as [A B].
  apply Nat.leb_le in A. apply Nat.leb_le in B. lia.
Qed.

Lemma zeros_digit_digits (k : nat) (d : ascii) :
  is_digit d = true -> forallb is_digit (zeros k ++ String d "") = true.
Proof.
  intros D. rewrite forallb_app, zeros_digits. cbn. now rewrite D.
Qed.

Lemma zeros_digit_value (k : nat) (d : ascii) :
  int (zeros k ++ String d "") = (code d - 48)%nat.
Proof. rewrite int_zeros. reflexivity. Qed.

Lemma zeros_digit_length (k : nat) (d : ascii) :
  String.length (zeros k ++ String d "") = S k.
Proof. rewrite length_app, length_zeros. cbn. lia. Qed.

Lemma zeros_digit_not_empty (k : nat) (d : ascii) :
  String.eqb (zeros k ++ String d "") "" = false.
Proof. now destruct k. Qed.

Lemma zeros_digit_isdigit (k : nat) (d : ascii) :
  is_digit d = true -> isdigit (zeros k ++ String d "") = true.
Proof.
  intros D. unfold isdigit. rewrite zeros_digit_not_empty. cbn [negb andb].
  apply (forallb_impl is_digit); [exact is_digit_isdigit_char|].
  now apply zeros_digit_digits.
Qed.

(** [int] drops leading zeros. *)
Lemma py_int_zeros_digit `{IntLimits} (k : nat) (d : ascii) :
  is_digit d = true ->
  over_limit (S k) = false ->
  py_int (zeros k ++ String d "") = Some (Z.of_nat (code d - 48)).
Proof.
  intros D L. rewrite (py_int_isdigit _ (zeros_digit_isdigit k d D)).
  now rewrite (zeros_digit_digits k d D), zeros_digit_length, L,
    zeros_digit_value.
Qed.

Lemma over_limit_mono `{IntLimits} (n m : nat) :
  (n <= m)%nat -> over_limit m = false -> over_limit n = false.
Proof.
  unfold over_limit. destruct max_str_digits as [x|]; [|reflexivity].
  intros L B. apply Nat.ltb_ge in B. apply Nat.ltb_ge. lia.
Qed.

(** The validator on the strings it accepts, and what it does otherwise. *)
Lemma validate_cases `{IntLimits} (s : string) :
  s <> "" ->
  validate_sessions_input s
  = if negb (isdigit s) then Some false
    else if negb (forallb is_digit s) || over_limit (String.length s)
         then None
         else Some ((1 <=? int s)%nat && (int s <=? 9)%nat).
Proof.
  intros N. unfold validate_sessions_input.
  destruct (String.eqb_spec s ""); [contradiction|].
  destruct (isdigit s) eqn:I; cbn [negb]; [|reflexivity].
  rewrite (py_int_isdigit s I).
  destruct (forallb is_digit s); cbn [negb andb orb]; [|reflexivity].
  destruct (over_limit (String.length s)); cbn [negb]; [reflexivity|].
  destruct (Nat.leb_spec 1 (int s)), (Nat.leb_spec (int s) 9),
    (Z.ltb_spec (Z.of_nat (int s)) 1), (Z.ltb_spec 9 (Z.of_nat (int s)));
    cbn; try reflexivity; lia.
Qed.

Lemma validate_accepted `{IntLimits} (s : string) :
  validate_sessions_input s = Some true
  <-> s = ""
      \/ exists k d, s = zeros k ++ String d ""
                     /\ in_range 49 57 d = true
                     /\ over_limit (S k) = false.
Proof.
  destruct (String.eqb_spec s "") as [-> | N].
  { split; [now left | reflexivity]. }
  rewrite (validate_cases s N). split.
  - intros V. right.
    destruct (isdigit s); cbn [negb] in V; [|discriminate].
    destruct (forallb is_digit s) eqn:F; cbn [negb orb] in V;
      [|discriminate].
    destruct (over_limit (String.length s)) eqn:L; [discriminate|].
    destruct (Nat.leb_spec 1 (int s)) as [A|A]; [|discriminate].
    destruct (Nat.leb_spec (int s) 9) as [B|B]; [|discriminate].
    destruct (small_value s F (conj A B)) as (k & d & -> & Hd).
    exists k, d. repeat split; trivial.
    now rewrite zeros_digit_length in L.
  - intros [-> | (k & d & -> & Hd & L)]; [contradiction|].
    pose proof (nonzero_is_digit d Hd) as D.
    pose proof (nonzero_code d Hd) as C.
    rewrite (zeros_digit_isdigit k d D), (zeros_digit_digits k d D),
      zeros_digit_length, L, zeros_digit_value. cbn [negb orb].
    f_equal. apply andb_true_intro. split; apply Nat.leb_le; lia.
Qed.

(** X20.  The key validator of the sessions field accepts exactly the empty
    text and the texts made of zeros followed by one digit from 1 to 9 (the
    whole no longer than the interpreter's limit on the digits [int]
    converts), for text of code points below 256. *)
Theorem validate_sessions_accepts `{IntLimits} (s : string) :
  validate_sessions_input s = Some true
  <-> s = ""
      \/ exists k d, s = zeros k ++ String d ""
                     /\ in_range 49 57 d = true
                     /\ over_limit (S k) = false.
Proof. exact (validate_accepted s). Qed.

(** X21.  The key validator raises instead of answering exactly on the texts
    [isdigit] accepts and [int] refuses: non-empty texts of digits and
    superscript digits (one, two, three) that hold a superscript or are
    longer than the interpreter's limit on the digits [int] converts. *)
Theorem validate_sessions_raises `{IntLimits} (s : string) :
  validate_sessions_input s = None
  <-> isdigit s = true
      /\ (forallb is_digit s = false
          \/ over_limit (String.length s) = true).
Proof.
  destruct (String.eqb_spec s "") as [-> | N].
  { split; [discriminate | intros [I _]; discriminate I]. }
  rewrite (validate_cases s N).
  destruct (isdigit s); cbn [negb].
  - destruct (forallb is_digit s); cbn [negb orb].
    + destruct (over_limit (String.length s)).
      * split; [now auto | reflexivity].
      * split; [discriminate | intros [_ [F | F]]; discriminate F].
    + split; [now auto | reflexivity].
  - split; [discriminate | intros [I _]; discriminate I].
Qed.

(** *** The START and STOP button *)

Lemma py_int_empty `{IntLimits} : py_int "" = None.
Proof. reflexivity. Qed.

Lemma on_start_click_starts `{IntLimits} (g : Window) (n : Z) :
  downloading (core g) = false ->
  py_int (sessions g) = Some n ->
  on_start_click g
  = ({| core := app (started_from (core g));
        parsed_model_info := parsed_model_info g;
        queue := queue g;
        url_entry := url_entry g;
        dir_entry := dir_entry g;
        sessions := sessions g;
        log_text := "Download started in the background..." ++ newline;
        start_button :=
          {| text := "STOP"; command := OnStopClick; enabled := true |};
        url_entry_enabled := false;
        dir_entry_enabled := false;
        sessions_entry_enabled := false |},
     [StartThread (parsed_model_info g) (dir_entry g) n]).
Proof.
  intros D P. unfold on_start_click. rewrite D.
  destruct (String.eqb_spec (sessions g) "") as [E|_].
  - rewrite E, py_int_empty in P. discriminate P.
  - rewrite P. reflexivity.
Qed.

Lemma str_int_digit (d : ascii) :
  in_range 49 57 d = true ->
  str_int (Z.of_nat (code d - 48)) = String d "".
Proof.
  intros R. pose proof (nonzero_code d R) as C.
  rewrite (is_digit_char d (nonzero_is_digit d R)) at 2.
  destruct (code d - 48)%nat as [|[|[|[|[|[|[|[|[|[|m]]]]]]]]]];
    try lia; reflexivity.
Qed.

(** X22.  With a text the key validator accepted in the sessions field,
    START on an idle window starts the worker: the number of sessions handed
    over is the digit of the field, between 1 and 9, zeros in front dropped,
    and [aria2c] is given that one digit; the worker begins with the
    downloading flag set and the stop event clear; the button now reads
    STOP, the three fields are disabled and the log view holds the one line
    that the download started. *)
Theorem start_with_validated_sessions `{IntLimits} (g : Window) :
  downloading (core g) = false ->
  sessions g <> "" ->
  validate_sessions_input (sessions g) = Some true ->
  exists k d g1,
    let n := Z.of_nat (code d - 48) in
    sessions g = zeros k ++ String d ""
    /\ 1 <= n <= 9
    /\ str_int n = String d ""
    /\ on_start_click g
       = (g1, [StartThread (parsed_model_info g) (dir_entry g) n])
    /\ worker_world g1 = started_from (core g)
    /\ start_button g1
       = {| text := "STOP"; command := OnStopClick; enabled := true |}
    /\ url_entry_enabled g1 = false
    /\ dir_entry_enabled g1 = false
    /\ sessions_entry_enabled g1 = false
    /\ log_text g1 = "Download started in the background..." ++ newline.
Proof.
  intros D N V. apply validate_accepted in V.
  destruct V as [V | (k & d & E & R & L)]; [contradiction|].
  pose proof (nonzero_code d R) as C.
  assert (P : py_int (sessions g) = Some (Z.of_nat (code d - 48))).
  { rewrite E. apply py_int_zeros_digit; [now apply nonzero_is_digit|exact L]. }
  exists k, d. eexists. cbv zeta.
  rewrite (on_start_click_starts g _ D P).
  repeat split; try reflexivity; try lia; trivial.
  now apply str_int_digit.
Qed.

Lemma start_with_validated_sessions_witness :
  exists k d g1,
    let n := Z.of_nat (code d - 48) in
    sessions example_window = zeros k ++ String d ""
    /\ 1 <= n <= 9
    /\ str_int n = String d ""
    /\ @on_start_click cpython_limits example_window
       = (g1, [StartThread (parsed_model_info example_window)
                 (dir_entry example_window) n])
    /\ worker_world g1 = started_from (core example_window)
    /\ start_button g1
       = {| text := "STOP"; command := OnStopClick; enabled := true |}
    /\ url_entry_enabled g1 = false
    /\ dir_entry_enabled g1 = false
    /\ sessions_entry_enabled g1 = false
    /\ log_text g1 = "Download started in the background..." ++ newline.
Proof.
  apply (@start_with_validated_sessions cpython_limits example_window).
  - reflexivity.
  - discriminate.
  - vm_compute. reflexivity.
Defined.

(** X23.  START starts a worker exactly when no download is running and
    [int] reads the sessions field; the number handed over is whatever [int]
    reads, with no check of the range.  Otherwise the window is left as it
    is. *)
Theorem start_click_guard `{IntLimits} (g : Window) :
  ((exists p d n, In (StartThread p d n) (snd (on_start_click g)))
   <-> downloading (core g) = false
       /\ exists n, py_int (sessions g) = Some n)
  /\ (forall n, downloading (core g) = false ->
        py_int (sessions g) = Some n ->
        snd (on_start_click g)
        = [StartThread (parsed_model_info g) (dir_entry g) n])
  /\ (downloading (core g) = true \/ py_int (sessions g) = None ->
      fst (on_start_click g) = g).
Proof.
  split; [split|split].
  - intros (p & d & n & I). unfold on_start_click in I.
    destruct (downloading (core g)); [destruct I|].
    split; [reflexivity|].
    destruct (String.eqb_spec (sessions g) "") as [E|_].
    + destruct I as [I | []]. discriminate I.
    + destruct (py_int (sessions g)) as [m|]; [now exists m|].
      destruct I as [I | []]. discriminate I.
  - intros (D & n & P). rewrite (on_start_click_starts g n D P).
    exists (parsed_model_info g), (dir_entry g), n. now left.
  - intros n D P. now rewrite (on_start_click_starts g n D P).
  - intros [D | P]; unfold on_start_click.
    + now rewrite D.
    + destruct (downloading (core g)); [reflexivity|].
      destruct (String.eqb (sessions g) ""); [reflexivity|].
      now rewrite P.
Qed.



Lemma events_stopping `{IntLimits} (l : list Event) (g : Window) :
  downloading (core g) = true ->
  stop_event (core g) = true ->
  enabled (start_button g) = false ->
  snd (events l g) = []
  /\ downloading (core (fst (events l g))) = true
  /\ stop_event (core (fst (events l g))) = true
  /\ enabled (start_button (fst (events l g))) = false.
Proof.
  revert g. induction l as [|e l IH]; intros g D S E; [now cbn|].
  cbn [events]. destruct e as [|process].
  - unfold handle, click. rewrite E.
    specialize (IH g D S E). destruct (events l g) as [g2 e2]. exact IH.
  - unfold handle.
    specialize (IH (set_process process g) D S E).
    destruct (events l (set_process process g)) as [g2 e2]. exact IH.
Qed.

Lemma events_running `{IntLimits} (l : list Event) (g : Window) :
  downloading (core g) = true ->
  stop_event (core g) = false ->
  start_button g
  = {| text := "STOP"; command := OnStopClick; enabled := true |} ->
  snd (events l g) = []
  /\ downloading (core (fst (events l g))) = true
  /\ (In Click l ->
      stop_event (core (fst (events l g))) = true
      /\ enabled (start_button (fst (events l g))) = false)
  /\ (~ In Click l ->
      stop_event (core (fst (events l g))) = false
      /\ start_button (fst (events l g)) = start_button g).
Proof.
  revert g. induction l as [|e l IH]; intros g D S B.
  - cbn. split; [reflexivity|]. split; [exact D|].
    split; [intros [] | intros _; now split].
  - cbn [events]. destruct e as [|process].
    + unfold handle, click. rewrite B. cbn [enabled command].
      destruct (events_stopping l (on_stop_click g)) as (A1 & A2 & A3 & A4).
      * unfold on_stop_click. now rewrite D.
      * unfold on_stop_click. now rewrite D.
      * unfold on_stop_click. now rewrite D.
      * destruct (events l (on_stop_click g)) as [g2 e2].
        cbn [fst snd] in *. subst e2.
        split; [reflexivity|]. split; [exact A2|].
        split; [intros _; now split|].
        intros N. exfalso. apply N. now left.
    + unfold handle.
      destruct (IH (set_process process g) D S B) as (A1 & A2 & A3 & A4).
      destruct (events l (set_process process g)) as [g2 e2].
      cbn [fst snd] in *. subst e2.
      split; [reflexivity|]. split; [exact A2|]. split.
      * intros [I | I]; [discriminate I | now apply A3].
      * intros N. apply A4. intros I. apply N. now right.
Qed.

(** X25.  One worker at a time, and one STOP per run.  After START has
    started the worker, and until the worker ends the run, no sequence of
    clicks on the button (with the worker recording its processes in
    between) starts a second worker or shows an error box, and the
    downloading flag stays set.  The first click sets the stop event and
    disables the button, which later clicks leave so; without a click the
    stop event stays clear. *)
Theorem one_worker_at_a_time `{IntLimits} (g : Window) (n : Z)
    (l : list Event) :
  downloading (core g) = false ->
  py_int (sessions g) = Some n ->
  let after := events l (fst (on_start_click g)) in
  snd after = []
  /\ downloading (core (fst after)) = true
  /\ (In Click l ->
      stop_event (core (fst after)) = true
      /\ enabled (start_button (fst after)) = false)
  /\ (~ In Click l ->
      stop_event (core (fst after)) = false
      /\ start_button (fst after)
         = {| text := "STOP"; command := OnStopClick; enabled := true |}).
Proof.
  intros D P after. unfold after.
  rewrite (on_start_click_starts g n D P). cbn [fst].
  apply events_running; reflexivity.
Qed.

Lemma one_worker_at_a_time_witness :
  let after :=
    @events cpython_limits
      [WorkerSetsProcess (Some 0%nat); Click; Click;
       WorkerSetsProcess None; Click]
      (fst (@on_start_click cpython_limits example_window)) in
  snd after = []
  /\ downloading (core (fst after)) = true
  /\ (In Click [WorkerSetsProcess (Some 0%nat); Click; Click;
                WorkerSetsProcess None; Click] ->
      stop_event (core (fst after)) = true
      /\ enabled (start_button (fst after)) = false)
  /\ (~ In Click [WorkerSetsProcess (Some 0%nat); Click; Click;
                  WorkerSetsProcess None; Click] ->
      stop_event (core (fst after)) = false
      /\ start_button (fst after)
         = {| text := "STOP"; command := OnStopClick; enabled := true |}).
Proof.
  apply (@one_worker_at_a_time cpython_limits example_window 3).
  - reflexivity.
  - vm_compute. reflexivity.
Defined.




(** *** The URL field and the log view *)

(** X27.  A URL for which the planner gives no plan, or an empty one, is
    shown as invalid; START is not held back by that, and the worker it
    starts puts the one message that there is nothing to download, spawns no
    process, creates no directory and resets the downloading flag. *)
Theorem invalid_url_downloads_nothing `{Urllib.NetlocChecks} `{IntLimits}
    (inst : Install) (script : nat -> TaskScript) (url : string)
    (g : Window) (n : Z) :
  no_models (plan url) = true ->
  aria2c_exists inst = true ->
  downloading (core g) = false ->
  py_int (sessions g) = Some n ->
  let g1 := parse_and_display_model_info url g in
  log_text g1
  = "Invalid URL or unable to parse model information." ++ newline
  /\ snd (on_start_click g1) = [StartThread (plan url) (dir_entry g) n]
  /\ let w' := run inst (plan url) (dir_entry g) n script
                 (worker_world (fst (on_start_click g1))) in
     log_queue w' = [MsgNoModelInfo]
     /\ actions w' = []
     /\ downloading (app w') = false.
Proof.
  intros N T D P g1.
  assert (L : log_text g1
              = "Invalid URL or unable to parse model information."
                ++ newline).
  { unfold g1, parse_and_display_model_info. cbn [log_text]. now rewrite N. }
  split; [exact L|].
  rewrite (on_start_click_starts g1 n D P).
  split; [reflexivity|]. cbv zeta. cbn [fst].
  unfold run, download_in_thread. rewrite T. cbn [negb].
  change (parsed_model_info g1) with (plan url). rewrite N.
  split; [reflexivity|]. split; reflexivity.
Qed.

Lemma invalid_url_downloads_nothing_witness :
  let g1 :=
    @parse_and_display_model_info lenient "https://host/alice"
      example_window in
  log_text g1
  = "Invalid URL or unable to parse model information." ++ newline
  /\ snd (@on_start_click cpython_limits g1)
     = [StartThread (@plan lenient "https://host/alice")
          (dir_entry example_window) 3]
  /\ let w' := run example_install (@plan lenient "https://host/alice")
                 (dir_entry example_window) 3 (fun _ => calm)
                 (worker_world (fst (@on_start_click cpython_limits g1))) in
     log_queue w' = [MsgNoModelInfo]
     /\ actions w' = []
     /\ downloading (app w') = false.
Proof.
  apply (@invalid_url_downloads_nothing lenient cpython_limits
           example_install (fun _ => calm) "https://host/alice"
           example_window 3).
  - vm_compute. reflexivity.
  - reflexivity.
  - reflexivity.
  - vm_compute. reflexivity.
Defined.

Lemma fold_left_lines (messages : list string) (shown : string) :
  forall more,
    fold_left (fun shown message => shown ++ message ++ newline)
      (messages ++ more)%list shown
    = fold_left (fun shown message => shown ++ message ++ newline) more
        (fold_left (fun shown message => shown ++ message ++ newline)
           messages shown).
Proof. intros more. apply fold_left_app. Qed.

(** X28.  The log view shows the messages of the worker in the order they
    were queued, each followed by a line feed, however the polling of the
    queue falls between them: two rounds of polling, with messages queued
    before each, leave the window as one round after all the messages does.
    *)
Theorem log_lines_in_order (g : Window) (first second : list string) :
  periodic_log_update
    (enqueue second (periodic_log_update (enqueue first g)))
  = periodic_log_update (enqueue (first ++ second) g)
  /\ forall message,
       queue g = [] ->
       log_text (periodic_log_update (enqueue [message] g))
       = log_text g ++ message ++ newline.
Proof.
  split.
  - unfold periodic_log_update, enqueue. cbn. f_equal.
    rewrite List.app_assoc. symmetry. apply fold_left_lines.
  - intros message Q. unfold periodic_log_update, enqueue. cbn.
    now rewrite Q.
Qed.

(** *** The settings across a restart *)

Lemma usable_after (dp : option string) (ss : option Z) (disk : Disk) :
  usable disk -> usable (disk_of (manage_app_config dp ss disk)).
Proof.
  intros U. destruct (manage_usable dp ss disk U) as (_ & Ch & Same).
  destruct (is_missing (config_file disk) || given dp || given ss).
  - rewrite (Ch eq_refl). destruct U as (A & B & C & _).
    repeat split; trivial. right. eexists. reflexivity.
  - now rewrite (Same eq_refl).
Qed.

Lemma saved_then_loaded (dp : option string) (ss : option Z) (disk : Disk) :
  usable disk ->
  given dp || given ss = true ->
  exists directory sessions,
    result_of (manage_app_config dp ss disk) = Returned directory sessions
    /\ result_of (manage_app_config None None
                    (disk_of (manage_app_config dp ss disk)))
       = Returned directory sessions
    /\ (forall dir, dp = Some dir -> directory = JStr dir)
    /\ (forall n, ss = Some n -> sessions = JInt n)
    /\ (dp = None ->
        forall directory0 sessions0,
          result_of (manage_app_config None None disk)
          = Returned directory0 sessions0 ->
          directory = directory0).
Proof.
  intros U G.
  destruct (manage_usable dp ss disk U) as (R & Ch & _).
  pose proof (usable_after dp ss disk U) as U'.
  destruct (manage_usable None None _ U') as (R' & _ & _).
  assert (G' : is_missing (config_file disk) || given dp || given ss = true)
    by (rewrite <- orb_assoc, G; apply orb_true_r).
  rewrite (Ch G') in R' |- *.
  cbn [config_file with_file updated] in R'.
  rewrite R, R'. do 2 eexists. split; [reflexivity|].
  split; [reflexivity|]. split; [|split].
  - intros dir ->. now rewrite updated_directory.
  - intros n ->. now rewrite updated_sessions.
  - intros -> directory0 sessions0 R0.
    destruct (manage_usable None None disk U) as (Q & _ & _).
    rewrite Q in R0. cbn [updated] in R0. injection R0 as <- _.
    now rewrite updated_directory.
Qed.

(** X29.  The settings survive a restart.  On a disk where the settings can
    be kept, leaving the directory field raises nothing and prints that the
    directory was updated (after the line that the file is created, when
    there was none); leaving the sessions field next, with a text the key
    validator accepted, raises nothing and prints that the number of
    sessions was updated, and [print] is not called for a complaint; at the
    next start [manage_app_config()] returns the directory as typed and the
    number of sessions, and the sessions field is filled with its one
    digit, zeros in front dropped, which the validator accepts again. *)
Theorem settings_survive_restart `{IntLimits} (g : Window) (disk : Disk) :
  usable disk ->
  sessions g <> "" ->
  validate_sessions_input (sessions g) = Some true ->
  let left_dir := on_dir_lost_focus g disk in
  exists k d disk',
    sessions g = zeros k ++ String d ""
    /\ result_of left_dir
       = Returned (JStr (dir_entry g))
                  (dict_get "SESSIONS" (JInt 2) (stored disk))
    /\ notices_of left_dir
       = ((if is_missing (config_file disk) then [SaidCreatingFile] else [])
          ++ [SaidDirectoryUpdated])%list
    /\ on_sessions_lost_focus g (disk_of left_dir)
       = (None, disk', [Told SaidSessionsUpdated])
    /\ result_of (manage_app_config None None disk')
       = Returned (JStr (dir_entry g)) (JInt (Z.of_nat (code d - 48)))
    /\ initial_sessions (JInt (Z.of_nat (code d - 48))) = String d ""
    /\ validate_sessions_input (String d "") = Some true.
Proof.
  intros U N V left_dir. apply validate_accepted in V.
  destruct V as [V | (k & d & E & R & L)]; [contradiction|].
  assert (P : py_int (sessions g) = Some (Z.of_nat (code d - 48))).
  { rewrite E. apply py_int_zeros_digit; [now apply nonzero_is_digit|exact L]. }
  exists k, d. eexists. split; [exact E|].
  unfold left_dir, on_dir_lost_focus.
  split.
  { destruct (manage_usable (Some (dir_entry g)) None disk U) as (R0 & _).
    rewrite R0. cbv zeta. now rewrite updated_directory, updated_sessions. }
  split.
  { rewrite (manage_usable_notices _ _ disk U). cbn [given].
    now rewrite List.app_nil_r. }
  unfold on_sessions_lost_focus.
  destruct (String.eqb_spec (sessions g) ""); [contradiction|]. rewrite P.
  set (disk1 := disk_of (manage_app_config (Some (dir_entry g)) None disk)).
  assert (U1 : usable disk1) by now apply usable_after.
  destruct (saved_then_loaded (Some (dir_entry g)) None disk U eq_refl)
    as (dir1 & ses1 & _ & R1 & D1 & _).
  fold disk1 in R1. specialize (D1 _ eq_refl). subst dir1.
  destruct (saved_then_loaded None (Some (Z.of_nat (code d - 48))) disk1
              U1 eq_refl)
    as (dir2 & ses2 & R2 & R3 & _ & S2 & D2).
  specialize (S2 _ eq_refl). subst ses2.
  specialize (D2 eq_refl _ _ R1). subst dir2.
  rewrite R2.
  assert (Nt : notices_of
                 (manage_app_config None (Some (Z.of_nat (code d - 48)))
                    disk1)
               = [SaidSessionsUpdated]).
  { rewrite (manage_usable_notices _ _ disk1 U1). cbn [given].
    destruct (manage_usable (Some (dir_entry g)) None disk U)
      as (_ & Ch & _).
    unfold disk1.
    rewrite Ch by (cbn [given]; rewrite orb_false_r; apply orb_true_r).
    reflexivity. }
  rewrite Nt. split; [reflexivity|]. split; [exact R3|]. split.
  - cbn [initial_sessions py_str]. now apply str_int_digit.
  - apply validate_accepted. right. exists 0%nat, d.
    repeat split; trivial. apply (over_limit_mono 1 (S k)); [lia|exact L].
Qed.

Lemma settings_survive_restart_witness :
  let left_dir := on_dir_lost_focus example_window fresh_disk in
  exists k d disk',
    sessions example_window = zeros k ++ String d ""
    /\ result_of left_dir
       = Returned (JStr (dir_entry example_window))
                  (dict_get "SESSIONS" (JInt 2) (stored fresh_disk))
    /\ notices_of left_dir
       = ((if is_missing (config_file fresh_disk)
           then [SaidCreatingFile] else [])
          ++ [SaidDirectoryUpdated])%list
    /\ @on_sessions_lost_focus cpython_limits example_window
         (disk_of left_dir)
       = (None, disk', [Told SaidSessionsUpdated])
    /\ result_of (manage_app_config None None disk')
       = Returned (JStr (dir_entry example_window))
                  (JInt (Z.of_nat (code d - 48)))
    /\ initial_sessions (JInt (Z.of_nat (code d - 48))) = String d ""
    /\ @validate_sessions_input cpython_limits (String d "") = Some true.
Proof.
  apply (@settings_survive_restart cpython_limits example_window fresh_disk).
  - repeat split; try reflexivity. now left.
  - discriminate.
  - vm_compute. reflexivity.
Defined.

(** *** [int] reads what [str] writes *)

Lemma of_uint_acc_pos (d : Decimal.uint) (q : positive) :
  Nat.of_uint_acc d (Pos.to_nat q) = Pos.to_nat (Pos.of_uint_acc d q).
Proof.
  revert q.
  induction d as [|d IH|d IH|d IH|d IH|d IH|d IH|d IH|d IH|d IH|d IH];
    intros q; cbn [Nat.of_uint_acc Pos.of_uint_acc];
    [reflexivity | rewrite <- IH, Nat.tail_mul_spec; f_equal; lia ..].
Qed.

Lemma of_uint_pos (d : Decimal.uint) :
  Nat.of_uint d = N.to_nat (Pos.of_uint d).
Proof.
  unfold Nat.of_uint.
  induction d as [|d IH|d IH|d IH|d IH|d IH|d IH|d IH|d IH|d IH|d IH];
    cbn [Nat.of_uint_acc Pos.of_uint N.to_nat];
    [reflexivity | exact IH | rewrite <- of_uint_acc_pos; reflexivity ..].
Qed.

Lemma int_pos (p : positive) :
  int (NilEmpty.string_of_uint (Pos.to_uint p)) = Pos.to_nat p.
Proof.
  unfold int. rewrite int_acc_of_uint. fold (Nat.of_uint (Pos.to_uint p)).
  now rewrite of_uint_pos, DecimalPos.Unsigned.of_to.
Qed.

Lemma string_of_uint_not_empty (d : Decimal.uint) :
  d <> Decimal.Nil -> NilEmpty.string_of_uint d <> "".
Proof. destruct d; [contradiction | discriminate ..]. Qed.

Lemma digits_isdigit (s : string) :
  s <> "" -> forallb is_digit s = true -> isdigit s = true.
Proof.
  intros N D. unfold isdigit.
  destruct (String.eqb_spec s ""); [contradiction|]. cbn [negb andb].
  revert D. apply forallb_impl. exact is_digit_isdigit_char.
Qed.

Lemma py_int_digits `{IntLimits} (s : string) :
  s <> "" ->
  forallb is_digit s = true ->
  over_limit (String.length s) = false ->
  py_int s = Some (Z.of_nat (int s))
  /\ py_int (String "-" s) = Some (- Z.of_nat (int s)).
Proof.
  intros N D L. split.
  - rewrite (py_int_isdigit s (digits_isdigit s N D)). now rewrite D, L.
  - pose proof (strip_isdigit s
                  (forallb_impl _ _ s is_digit_isdigit_char D)) as St.
    unfold strip in St. unfold py_int, strip. cbn [lstrip].
    change (is_int_space "-") with false. cbv iota.
    assert (R : rstrip is_int_space (String "-" s) = String "-" s).
    { cbn [rstrip].
      assert (K : rstrip is_int_space s = s).
      { pose proof (forallb_impl is_digit
                      (fun c => negb (is_int_space c)) s) as F.
        apply rstrip_kept, F; [|exact D].
        intros c C.
        now rewrite (isdigit_char_not_space c (is_digit_isdigit_char c C)). }
      rewrite K. destruct s; [contradiction | reflexivity]. }
    rewrite R. cbn [sign_split]. change (Ascii.eqb "-" "-") with true.
    cbv iota. change 0 with (Z.of_nat 0).
    rewrite (int_body_digits s 0 0 false D (or_intror N)).
    cbn [Nat.add]. now rewrite L.
Qed.

(** [int(str(z)) == z], as long as [z] has no more digits than the
    interpreter converts. *)
Lemma py_int_str_int `{IntLimits} (z : Z) :
  over_limit (String.length (str_int (Z.abs z))) = false ->
  py_int (str_int z) = Some z.
Proof.
  destruct z as [|p|p]; unfold str_int;
    cbn [Z.abs Z.to_int NilEmpty.string_of_int]; intros L.
  - destruct (py_int_digits "0") as (P & _); trivial. discriminate.
  - destruct (py_int_digits (NilEmpty.string_of_uint (Pos.to_uint p)))
      as (P & _); trivial.
    + apply string_of_uint_not_empty, DecimalPos.Unsigned.to_uint_nonnil.
    + apply string_of_uint_digits.
    + rewrite P, int_pos. f_equal. lia.
  - destruct (py_int_digits (NilEmpty.string_of_uint (Pos.to_uint p)))
      as (_ & P); trivial.
    + apply string_of_uint_not_empty, DecimalPos.Unsigned.to_uint_nonnil.
    + apply string_of_uint_digits.
    + rewrite P, int_pos. f_equal. lia.
Qed.

(** X30.  The number of sessions kept in the configuration file reaches
    [aria2c] unchecked.  At start-up the sessions field is filled with the
    text of the integer the file holds; the key validator would accept that
    text only for 1 to 9, but it is not asked:  START on the idle window
    hands the worker that very integer, whatever it is, and the worker
    passes its text to [aria2c] after [-x] and [-s]. *)
Theorem configured_sessions_unchecked `{IntLimits} (g : Window) (z : Z) :
  over_limit (String.length (str_int (Z.abs z))) = false ->
  downloading (core g) = false ->
  sessions g = initial_sessions (JInt z) ->
  (validate_sessions_input (sessions g) = Some true <-> 1 <= z <= 9)
  /\ snd (on_start_click g)
     = [StartThread (parsed_model_info g) (dir_entry g) z]
  /\ forall inst dir model,
       nth 2 (aria2c_args inst z dir model) "" = sessions g
       /\ nth 4 (aria2c_args inst z dir model) "" = sessions g.
Proof.
  intros L D S. cbn [initial_sessions py_str] in S.
  pose proof (py_int_str_int z L) as P. rewrite <- S in P.
  split; [|split].
  - split.
    + intros V. apply validate_accepted in V.
      destruct V as [V | (k & d & E & R & Lk)].
      * rewrite V, py_int_empty in P. discriminate P.
      * rewrite E, (py_int_zeros_digit k d (nonzero_is_digit d R) Lk) in P.
        injection P as <-. pose proof (nonzero_code d R). lia.
    + intros R. rewrite S.
      assert (C : z = 1 \/ z = 2 \/ z = 3 \/ z = 4 \/ z = 5 \/ z = 6
                  \/ z = 7 \/ z = 8 \/ z = 9) by lia.
      apply validate_accepted. right. exists 0%nat.
      assert (L1 : over_limit 1 = false).
      { destruct C as [->|[->|[->|[->|[->|[->|[->|[->| ->]]]]]]]];
          exact L. }
      destruct C as [->|[->|[->|[->|[->|[->|[->|[->| ->]]]]]]]];
        eexists; (split; [reflexivity|]); split; trivial.
  - now rewrite (on_start_click_starts g z D P).
  - intros inst dir model. rewrite S. split; reflexivity.
Qed.

Lemma configured_sessions_unchecked_witness :
  (@validate_sessions_input cpython_limits
     (sessions (with_sessions example_window "64")) = Some true
   <-> 1 <= 64 <= 9)
  /\ snd (@on_start_click cpython_limits
            (with_sessions example_window "64"))
     = [StartThread (parsed_model_info (with_sessions example_window "64"))
          (dir_entry (with_sessions example_window "64")) 64]
  /\ forall inst dir model,
       nth 2 (aria2c_args inst 64 dir model) ""
       = sessions (with_sessions example_window "64")
       /\ nth 4 (aria2c_args inst 64 dir model) ""
          = sessions (with_sessions example_window "64").
Proof.
  apply (@configured_sessions_unchecked cpython_limits
           (with_sessions example_window "64") 64).
  - reflexivity.
  - reflexivity.
  - reflexivity.
Defined.

End GuiProps.
